(** * The Firebase channel plugin of OpenClaw: the webhook relay pipeline

    A shallow embedding of [extensions/firebase/src]: [respond.ts]
    (delivery to the App Server and the billing classifier),
    [llm-client.ts] (the streaming completion client), [monitor.ts]
    (the webhook handler and the background task, in its revision over
    [callLlmProxy] and in its later revision over the agent dispatcher),
    [channel.ts] (the account settings and the route handler of the
    gateway) and the server callback of [standalone.ts].

    Conventions of the embedding.
    - A JavaScript string is the [string] of its UTF-8 bytes, and a
      [Buffer] or a chunk of a stream is the [string] of its bytes, whose
      length is its number of bytes.  Bytes become text through the
      decoder of [Utf8]: [TextDecoder] in stream mode drops a leading byte
      order mark and keeps the bytes of an unfinished character for the
      next chunk, [response.text()] and [toString("utf8")] decode the
      whole at once, and what is ill-formed becomes U+FFFD.  On text,
      [split], [startsWith], [slice] and [includes] with ASCII arguments
      act bytewise.  [trim] strips the white space and line terminators of
      ECMAScript.  [toLowerCase] is modelled on ASCII letters; the plugin
      uses it to look for ASCII keywords only.
    - A value produced by [JSON.parse] is a [JSON]; [undefined] is [None]
      of [JsValue].  Numbers are the integers (token counts).
    - An exception is an explicit [Throw] of the [Completion] type.
    - What a function does to the outside world (HTTP calls, the HTTP
      answer, reading and destroying the request) is an [Event] of its
      trace; what the outside world answers is read from an [Env].
      [WriteResponse] is what the code writes; [received] is what of it
      reaches the client.  Console output is left out. *)

From Stdlib Require Import String Ascii List ZArith Lia Bool DecimalString.
Import ListNotations.
Open Scope string_scope.

(** ** JavaScript values and exceptions *)

#[local] Set Warnings "-register-all".

Inductive JSON : Type :=
| JNull
| JBool (b : bool)
| JNum (n : Z)
| JStr (s : string)
| JArr (items : list JSON)
| JObj (fields : list (string * JSON)).

(** [None] is [undefined]. *)
Definition JsValue : Type := option JSON.

Record Thrown : Type := mkThrown { error_name : string; error_message : string }.

Definition TypeError (msg : string) : Thrown := mkThrown "TypeError" msg.
Definition SyntaxError (msg : string) : Thrown := mkThrown "SyntaxError" msg.
Definition Error (msg : string) : Thrown := mkThrown "Error" msg.

Inductive Completion (A : Type) : Type :=
| Normal (a : A)
| Throw (e : Thrown).
Arguments Normal {A} a.
Arguments Throw {A} e.

Class Monad (M : Type -> Type) : Type := {
  ret : forall {A : Type}, A -> M A;
  bind : forall {A B : Type}, M A -> (A -> M B) -> M B
}.

Notation "x <- m ;; k" := (bind m (fun x => k))
  (at level 61, m at next level, right associativity).
Notation "m ;; k" := (bind m (fun _ => k))
  (at level 61, right associativity).

#[export] Instance Completion_Monad : Monad Completion := {
  ret := fun A a => Normal a;
  bind := fun A B m k => match m with Normal a => k a | Throw e => Throw e end
}.

(** ** Strings *)

Definition string_of_Z (n : Z) : string := NilZero.string_of_int (Z.to_int n).

Definition lower_ascii (c : ascii) : ascii :=
  let n := nat_of_ascii c in
  if ((65 <=? n) && (n <=? 90))%nat then ascii_of_nat (n + 32) else c.

(** [s.toLowerCase()] *)
Fixpoint toLowerCase (s : string) : string :=
  match s with
  | EmptyString => EmptyString
  | String c r => String (lower_ascii c) (toLowerCase r)
  end.

(** [s.startsWith(p)] *)
Definition startsWith (s p : string) : bool := String.prefix p s.

(** [s.includes(sub)] *)
Fixpoint includes (s sub : string) : bool :=
  if startsWith s sub then true
  else match s with
       | EmptyString => false
       | String _ r => includes r sub
       end.

(** [s.slice(n)] for [0 <= n] *)
Fixpoint slice (n : nat) (s : string) : string :=
  match n, s with
  | O, _ => s
  | S m, EmptyString => EmptyString
  | S m, String _ r => slice m r
  end.

Definition LF : ascii := ascii_of_nat 10.
Definition nl : string := String LF EmptyString.

(** [s.split(sep)] for a one-character separator; the result is never empty. *)
Fixpoint split (sep : ascii) (s : string) : list string :=
  match s with
  | EmptyString => [EmptyString]
  | String c r =>
      let ls := split sep r in
      if Ascii.eqb c sep then EmptyString :: ls
      else match ls with
           | l :: t => String c l :: t
           | [] => [String c EmptyString]
           end
  end.

(** The white space and the line terminators of ECMAScript, which [trim]
    strips, in their UTF-8 encodings: of one byte (U+0009 to U+000D and
    U+0020), of two bytes (U+00A0) and of three bytes (U+1680, U+2000 to
    U+200A, U+2028, U+2029, U+202F, U+205F, U+3000 and U+FEFF). *)
Definition is_space (c : ascii) : bool :=
  let n := nat_of_ascii c in
  ((n =? 32) || ((9 <=? n) && (n <=? 13)))%nat.

Definition is_space2 (c1 c2 : ascii) : bool :=
  ((nat_of_ascii c1 =? 194) && (nat_of_ascii c2 =? 160))%nat.

Definition is_space3 (c1 c2 c3 : ascii) : bool :=
  let n1 := nat_of_ascii c1 in
  let n2 := nat_of_ascii c2 in
  let n3 := nat_of_ascii c3 in
  (((n1 =? 225) && (n2 =? 154) && (n3 =? 128))
   || ((n1 =? 226) && (n2 =? 128)
       && (((128 <=? n3) && (n3 <=? 138)) || (n3 =? 168) || (n3 =? 169) || (n3 =? 175)))
   || ((n1 =? 226) && (n2 =? 129) && (n3 =? 159))
   || ((n1 =? 227) && (n2 =? 128) && (n3 =? 128))
   || ((n1 =? 239) && (n2 =? 187) && (n3 =? 191)))%nat.

Fixpoint trimStart (s : string) : string :=
  match s with
  | EmptyString => EmptyString
  | String c1 r1 =>
      if is_space c1 then trimStart r1
      else match r1 with
           | EmptyString => s
           | String c2 r2 =>
               if is_space2 c1 c2 then trimStart r2
               else match r2 with
                    | EmptyString => s
                    | String c3 r3 => if is_space3 c1 c2 c3 then trimStart r3 else s
                    end
           end
  end.

(** The text from its first byte on is white space: no byte inside a
    character begins the encoding of a white space. *)
Fixpoint trimEnd (s : string) : string :=
  match s with
  | EmptyString => EmptyString
  | String c r => if trimStart s =? "" then EmptyString else String c (trimEnd r)
  end.

(** [s.trim()] *)
Definition trim (s : string) : string := trimEnd (trimStart s).

(** ** UTF-8

    The decoder of the Encoding Standard, which [TextDecoder],
    [response.text()] and [buf.toString("utf8")] run: a well-formed
    sequence is one code point, which in this representation of strings
    is the sequence itself; each maximal ill-formed part becomes U+FFFD. *)

Module Utf8.

(** The decoder between two bytes: the bytes of the sequence that has
    begun, the number of bytes it still needs, the bounds of its next
    byte, and whether a byte order mark can no longer be dropped. *)
Record decoder : Type := mkDecoder {
  pending : string;
  needed : nat;
  lower : nat;
  upper : nat;
  bom_seen : bool
}.

Definition byte (n : nat) : ascii := ascii_of_nat n.

(** U+FFFD and U+FEFF, encoded. *)
Definition replacement : string :=
  String (byte 239) (String (byte 191) (String (byte 189) EmptyString)).

Definition bom : string :=
  String (byte 239) (String (byte 187) (String (byte 191) EmptyString)).

(** Between two sequences. *)
Definition idle (seen : bool) : decoder := mkDecoder "" 0 128 191 seen.

(** A code point leaves the decoder; the first one is dropped if it is
    the byte order mark. *)
Definition output (seen : bool) (code_point : string) : decoder * string :=
  if seen then (idle true, code_point)
  else (idle true, if code_point =? bom then "" else code_point).

(** A byte where a sequence begins. *)
Definition start (seen : bool) (b : ascii) : decoder * string :=
  let n := nat_of_ascii b in
  if (n <? 128)%nat then output seen (String b EmptyString)
  else if ((194 <=? n) && (n <=? 223))%nat then
    (mkDecoder (String b EmptyString) 1 128 191 seen, "")
  else if ((224 <=? n) && (n <=? 239))%nat then
    (mkDecoder (String b EmptyString) 2
       (if (n =? 224)%nat then 160 else 128) (if (n =? 237)%nat then 159 else 191) seen,
     "")
  else if ((240 <=? n) && (n <=? 244))%nat then
    (mkDecoder (String b EmptyString) 3
       (if (n =? 240)%nat then 144 else 128) (if (n =? 244)%nat then 143 else 191) seen,
     "")
  else output seen replacement.

(** One byte.  A byte that cannot continue the sequence ends it in error
    and is then read as the beginning of the next. *)
Definition step (d : decoder) (b : ascii) : decoder * string :=
  match needed d with
  | O => start (bom_seen d) b
  | S m =>
      let n := nat_of_ascii b in
      if ((lower d <=? n) && (n <=? upper d))%nat then
        let sequence := pending d ++ String b EmptyString in
        match m with
        | O => output (bom_seen d) sequence
        | S _ => (mkDecoder sequence m 128 191 (bom_seen d), "")
        end
      else
        let (d1, o1) := output (bom_seen d) replacement in
        let (d2, o2) := start (bom_seen d1) b in
        (d2, o1 ++ o2)
  end.

(** [decode(bytes, { stream: true })]: the text, and the decoder for the
    next call. *)
Fixpoint decode (d : decoder) (bytes : string) : decoder * string :=
  match bytes with
  | EmptyString => (d, "")
  | String b r =>
      let (d1, o1) := step d b in
      let (d2, o2) := decode d1 r in
      (d2, o1 ++ o2)
  end.

(** The end of the input: a sequence that has begun is an error. *)
Definition flush (d : decoder) : string :=
  match needed d with
  | O => ""
  | S _ => snd (output (bom_seen d) replacement)
  end.

(** The whole input at once. *)
Definition decode_all (d : decoder) (bytes : string) : string :=
  let (d', o) := decode d bytes in o ++ flush d'.

(** [new TextDecoder()]: a leading byte order mark is dropped. *)
Definition TextDecoder : decoder := idle false.

(** [UTF-8 decode] of the Fetch Standard, for [text()] and [json()]. *)
Definition body_text (bytes : string) : string := decode_all (idle false) bytes.

(** [buf.toString("utf8")]: a byte order mark stays. *)
Definition toString (bytes : string) : string := decode_all (idle true) bytes.

End Utf8.

(** [sub] occurs in [s]. *)
Definition Substring (sub s : string) : Prop :=
  exists pre post : string, s = pre ++ sub ++ post.

(** ** Truthiness, property reads and string conversion *)

Definition truthy (v : JsValue) : bool :=
  match v with
  | None => false
  | Some JNull => false
  | Some (JBool b) => b
  | Some (JNum n) => negb (n =? 0)%Z
  | Some (JStr s) => negb (s =? "")
  | Some (JArr _) => true
  | Some (JObj _) => true
  end.

(** [typeof v === "string"] *)
Definition is_string (v : JsValue) : bool :=
  match v with Some (JStr _) => true | _ => false end.

(** [v === s] for a string literal [s] *)
Definition eq_str (v : JsValue) (s : string) : bool :=
  match v with Some (JStr t) => t =? s | _ => false end.

(** An own property of a parsed object; of two members with one key
    [JSON.parse] keeps the later. *)
Fixpoint lookup (k : string) (fields : list (string * JSON)) : JsValue :=
  match fields with
  | [] => None
  | (k', v) :: r =>
      match lookup k r with
      | Some v' => Some v'
      | None => if k =? k' then Some v else None
      end
  end.

(** [v.k]: a [TypeError] on [null] and [undefined] (the texts are V8's);
    [undefined] on a primitive or an array, none of whose prototypes has a
    property of a name the plugin reads. *)
Definition get (v : JsValue) (k : string) : Completion JsValue :=
  match v with
  | None =>
      Throw (TypeError ("Cannot read properties of undefined (reading '" ++ k ++ "')"))
  | Some JNull =>
      Throw (TypeError ("Cannot read properties of null (reading '" ++ k ++ "')"))
  | Some (JObj fields) => Normal (lookup k fields)
  | Some _ => Normal None
  end.

(** [v?.k] *)
Definition get_opt (v : JsValue) (k : string) : JsValue :=
  match v with
  | None => None
  | Some JNull => None
  | Some (JObj fields) => lookup k fields
  | Some _ => None
  end.

(** [v[0]] on a value that is neither [null] nor [undefined]. *)
Definition first_item (v : JSON) : JsValue :=
  match v with
  | JArr (x :: _) => Some x
  | JStr (String c _) => Some (JStr (String c EmptyString))
  | JObj fields => lookup "0" fields
  | _ => None
  end.

(** [v[0]] *)
Definition index0 (v : JsValue) : Completion JsValue :=
  match v with
  | None => Throw (TypeError "Cannot read properties of undefined (reading '0')")
  | Some JNull => Throw (TypeError "Cannot read properties of null (reading '0')")
  | Some x => Normal (first_item x)
  end.

(** [v?.[0]] *)
Definition index0_opt (v : JsValue) : JsValue :=
  match v with
  | None => None
  | Some JNull => None
  | Some x => first_item x
  end.

(** [String(v)], as [+=] on a string and a template literal apply it. *)
Fixpoint ToString (v : JSON) : string :=
  match v with
  | JNull => "null"
  | JBool true => "true"
  | JBool false => "false"
  | JNum n => string_of_Z n
  | JStr s => s
  | JArr items =>
      (fix join (l : list JSON) : string :=
         match l with
         | [] => ""
         | x :: r =>
             let e := match x with JNull => "" | _ => ToString x end in
             match r with
             | [] => e
             | _ :: _ => e ++ "," ++ join r
             end
         end) items
  | JObj _ => "[object Object]"
  end.

Definition ToStringV (v : JsValue) : string :=
  match v with
  | None => "undefined"
  | Some x => ToString x
  end.

(** ** respond.ts: the billing classifier *)

Definition billing_keywords : list string :=
  ["402"; "insufficient credits"; "insufficient_credits"; "billing";
   "payment required"].

(** [isBillingError(errorMessage?: string)].  The argument is what the
    caller passes at run time: a value that is truthy and no string has no
    [toLowerCase], and the call throws. *)
Definition isBillingError (errorMessage : JsValue) : Completion bool :=
  if negb (truthy errorMessage) then Normal false
  else
    match errorMessage with
    | Some (JStr s) =>
        let lower := toLowerCase s in
        Normal (includes lower "402"
                || includes lower "insufficient credits"
                || includes lower "insufficient_credits"
                || includes lower "billing"
                || includes lower "payment required")
    | _ => Throw (TypeError "errorMessage.toLowerCase is not a function")
    end.

(** ** The platform: fetch, responses and streamed bodies *)

(** How a streamed body ends: at end of input, or with a transport error
    that the pending read rejects with. *)
Inductive StreamEnd : Type :=
| StreamDone
| StreamError (e : Thrown).

Record BodyStream : Type := mkBody {
  chunks : list string;
  ending : StreamEnd
}.

Record Response : Type := mkResponse {
  status : Z;
  body : option BodyStream
}.

(** [response.ok] *)
Definition ok (r : Response) : bool := ((200 <=? status r) && (status r <=? 299))%Z.

Inductive FetchOutcome : Type :=
| FetchRejects (e : Thrown)
| FetchResolves (r : Response).

(** The JSON body of the generation call. *)
Record LlmRequestBody : Type := mkLlmRequestBody {
  req_model : string;
  req_max_tokens : Z;
  req_messages : list JSON;
  req_stream : bool
}.

(** types.ts: [VmResponseRequest] and its [metadata]. *)
Record Metadata : Type := mkMetadata {
  errorType : option string;
  action : option string;
  model : option string;
  tokens : JsValue
}.

Record VmResponseRequest : Type := mkVmResponseRequest {
  messageId : string;
  content : string;
  metadata : option Metadata
}.

(** The process environment and the two downstream services. *)
Record Env : Type := mkEnv {
  VM_INTERNAL_SECRET : option string;
  LLM_PROXY_API_KEY : option string;
  llm_proxy : LlmRequestBody -> FetchOutcome;
  app_server : VmResponseRequest -> FetchOutcome
}.

(** What a run does to the outside world, in order. *)
Inductive Event : Type :=
| LlmFetch (authorization : string) (request : LlmRequestBody)
| AppFetch (authorization : string) (request : VmResponseRequest)
| ReadBody (maxBytes : Z)
| DestroyRequest
| WriteResponse (statusCode : Z) (payload : JSON).

(** An asynchronous function: the events it causes, and how it settles. *)
Definition IO (A : Type) : Type := (list Event * Completion A)%type.

#[export] Instance IO_Monad : Monad IO := {
  ret := fun A a => ([], Normal a);
  bind := fun A B m k =>
    match m with
    | (t, Normal a) => let (t', r) := k a in ((t ++ t')%list, r)
    | (t, Throw e) => (t, Throw e)
    end
}.

Definition emit (e : Event) : IO unit := ([e], Normal tt).
Definition throw {A : Type} (e : Thrown) : IO A := ([], Throw e).
Definition lift {A : Type} (c : Completion A) : IO A := ([], c).

(** [try { m } catch (e) { h e }] *)
Definition try_catch {A : Type} (m : IO A) (h : Thrown -> IO A) : IO A :=
  match m with
  | (t, Normal a) => (t, Normal a)
  | (t, Throw e) => let (t', r) := h e in ((t ++ t')%list, r)
  end.

(** [try { c } catch { d }] on expressions *)
Definition or_else {A : Type} (c : Completion A) (d : A) : A :=
  match c with
  | Normal a => a
  | Throw _ => d
  end.

Definition trace {A : Type} (m : IO A) : list Event := fst m.
Definition outcome {A : Type} (m : IO A) : Completion A := snd m.

(** A template literal over an environment variable. *)
Definition env_text (v : option string) : string :=
  match v with
  | None => "undefined"
  | Some s => s
  end.

(** [response.text()] *)
Definition text (r : Response) : Completion string :=
  match body r with
  | None => Normal ""
  | Some b =>
      match ending b with
      | StreamDone => Normal (Utf8.body_text (String.concat "" (chunks b)))
      | StreamError e => Throw e
      end
  end.

Definition is_delivery (e : Event) : bool :=
  match e with AppFetch _ _ => true | _ => false end.

Definition is_generation (e : Event) : bool :=
  match e with LlmFetch _ _ => true | _ => false end.

Definition is_body_read (e : Event) : bool :=
  match e with ReadBody _ => true | _ => false end.

(** The delivery attempts of a trace, in order. *)
Fixpoint deliveries (t : list Event) : list VmResponseRequest :=
  match t with
  | [] => []
  | AppFetch _ p :: r => p :: deliveries r
  | _ :: r => deliveries r
  end.

(** ** llm-client.ts: results, and the local variables of the stream parser *)

Record Usage : Type := mkUsage {
  inputTokens : JsValue;
  outputTokens : JsValue
}.

(** [LlmResult]: [LlmResponse] ([ok: true]) or [LlmErrorResponse]
    ([ok: false]).  [error] is a string in every case but one: a truthy
    [error.message] of the error body that is no string, under status 402. *)
Inductive LlmResult : Type :=
| LlmResponse (content : string) (usage : option Usage)
| LlmErrorResponse (error : JsValue) (isBilling : bool) (statusCode : option Z).

Record LlmRequestOptions : Type := mkLlmRequestOptions {
  opt_model : option string;
  opt_maxTokens : option Z;
  opt_messages : list JSON
}.

Module Sse.

(** [let content, inputTokens, outputTokens, buffer] of [parseSSEStream]. *)
Record Locals : Type := mkLocals {
  content : string;
  inputTokens : JsValue;
  outputTokens : JsValue;
  buffer : string
}.

Definition init : Locals := mkLocals "" None None "".

(** A statement over the locals: assignments made before a throw stay. *)
Definition t (A : Type) : Type := Locals -> Locals * Completion A.

Definition eval {A : Type} (c : Completion A) : t A := fun s => (s, c).

Definition throw {A : Type} (e : Thrown) : t A := fun s => (s, Throw e).

(** [content += x] *)
Definition append_content (x : JsValue) : t unit :=
  fun s => (mkLocals (content s ++ ToStringV x) (inputTokens s) (outputTokens s)
              (buffer s), Normal tt).

Definition set_inputTokens (x : JsValue) : t unit :=
  fun s => (mkLocals (content s) x (outputTokens s) (buffer s), Normal tt).

Definition set_outputTokens (x : JsValue) : t unit :=
  fun s => (mkLocals (content s) (inputTokens s) x (buffer s), Normal tt).

Definition set_buffer (b : string) : t unit :=
  fun s => (mkLocals (content s) (inputTokens s) (outputTokens s) b, Normal tt).

(** [try { m } catch { }] *)
Definition try_ignore (m : t unit) : t unit :=
  fun s => let (s', _) := m s in (s', Normal tt).

End Sse.

#[export] Instance Sse_Monad : Monad Sse.t := {
  ret := fun A a => fun s => (s, Normal a);
  bind := fun A B m k => fun s =>
    match m s with
    | (s', Normal a) => k a s'
    | (s', Throw e) => (s', Throw e)
    end
}.

(** [if (c) { m }] *)
Definition when (c : bool) (m : Sse.t unit) : Sse.t unit :=
  if c then m else ret tt.

(** ** monitor.ts: requests and triggers *)

(** What the handler reads of a [node:http] request: the method, the
    pathname of [new URL(req.url || "/", base)] or the [TypeError] of a
    URL that does not parse, the [authorization] header and the body as
    the [data], [end] and [error] events deliver it. *)
Record IncomingMessage : Type := mkIncomingMessage {
  method : string;
  pathname : Completion string;
  authorization : option string;
  payload_stream : BodyStream
}.

Module Trigger.

(** types.ts: [VmTriggerRequest], as the handler hands it to the
    background task after validation. *)
Record t : Type := mk {
  messageId : string;
  text : string;
  uid : JsValue;
  conversationHistory : JsValue
}.

End Trigger.

(** The result of [readJsonBody]. *)
Inductive BodyResult : Type :=
| BodyOk (value : JSON)
| BodyError (error : string).

Definition MAX_PAYLOAD_BYTES : Z := 1024 * 1024.

(** The string behind a value that validation has shown to be one. *)
Definition as_string (v : JsValue) : string :=
  match v with
  | Some (JStr s) => s
  | other => ToStringV other
  end.

(** The characters of an ASCII string, as iteration yields them. *)
Fixpoint chars (s : string) : list JSON :=
  match s with
  | EmptyString => []
  | String c r => JStr (String c EmptyString) :: chars r
  end.

(** [[...v]]: arrays and strings are iterable. *)
Definition spread (v : JsValue) : Completion (list JSON) :=
  match v with
  | Some (JArr items) => Normal items
  | Some (JStr s) => Normal (chars s)
  | other => Throw (TypeError (ToStringV other ++ " is not iterable"))
  end.

(** [promise.catch((err) => console.error(...))]: the events stay, the
    rejection is logged and goes no further. *)
Definition detached (m : IO unit) : IO unit := (fst m, Normal tt).

Section Plugin.

(** [JSON.parse]: the parsed value, or the [SyntaxError] it throws. *)
Variable JSON_parse : string -> Completion JSON.

(** [response.json()] *)
Definition json (r : Response) : Completion JSON :=
  t <- text r ;; JSON_parse t.

(** ** respond.ts: delivery to the App Server *)

Definition fetch_app (env : Env) (request : VmResponseRequest) : IO Response :=
  emit (AppFetch ("Bearer " ++ env_text (VM_INTERNAL_SECRET env)) request) ;;
  match app_server env request with
  | FetchRejects e => throw e
  | FetchResolves r => ret r
  end.

Definition sendResponse (env : Env) (messageId content : string)
    (metadata : option Metadata) : IO unit :=
  let body := mkVmResponseRequest messageId content metadata in
  response <- fetch_app env body ;;
  if negb (ok response) then
    let errorText := or_else (text response) "unknown error" in
    throw (Error ("Failed to send response to App Server: "
                  ++ string_of_Z (status response) ++ " - " ++ errorText))
  else
    result <- lift (json response) ;;
    st <- lift (get (Some result) "status") ;;
    if negb (eq_str st "saved") then
      throw (Error ("Unexpected response status: " ++ ToStringV st))
    else ret tt.

Definition sendBillingErrorResponse (env : Env) (messageId : string) : IO unit :=
  sendResponse env messageId
    "You've run out of credits! Tap below to purchase more."
    (Some (mkMetadata (Some "billing") (Some "purchase_credits") None None)).

Definition default_userMessage : string :=
  "Sorry, something went wrong. Please try again.".

Definition sendErrorResponse (env : Env) (messageId : string)
    (userMessage : option string) : IO unit :=
  let userMessage :=
    match userMessage with
    | None => default_userMessage
    | Some m => m
    end in
  sendResponse env messageId userMessage
    (Some (mkMetadata (Some "error") None None None)).

(** ** llm-client.ts: the streaming completion client *)

(** The body of the [try] of the read loop, for one parsed frame. *)
Definition on_frame (data : JsValue) : Sse.t unit :=
  (* Anthropic format: content_block_delta *)
  c <- Sse.eval (ty <- get data "type" ;;
                 if eq_str ty "content_block_delta"
                 then d <- get data "delta" ;; ret (truthy (get_opt d "text"))
                 else ret false) ;;
  when c (x <- Sse.eval (d <- get data "delta" ;; get d "text") ;;
          Sse.append_content x) ;;
  (* Anthropic format: simple delta *)
  c <- Sse.eval (d <- get data "delta" ;;
                 if truthy (get_opt d "text")
                 then ty <- get data "type" ;; ret (negb (truthy ty))
                 else ret false) ;;
  when c (x <- Sse.eval (d <- get data "delta" ;; get d "text") ;;
          Sse.append_content x) ;;
  (* Anthropic format: message_delta with usage *)
  c <- Sse.eval (ty <- get data "type" ;;
                 if eq_str ty "message_delta"
                 then u <- get data "usage" ;; ret (truthy u)
                 else ret false) ;;
  when c (x <- Sse.eval (u <- get data "usage" ;; get u "output_tokens") ;;
          Sse.set_outputTokens x) ;;
  (* Anthropic format: message_start with usage *)
  c <- Sse.eval (ty <- get data "type" ;;
                 if eq_str ty "message_start"
                 then m <- get data "message" ;; ret (truthy (get_opt m "usage"))
                 else ret false) ;;
  when c (x <- Sse.eval (m <- get data "message" ;; u <- get m "usage" ;;
                         get u "input_tokens") ;;
          Sse.set_inputTokens x) ;;
  (* OpenAI format: choices[0].delta.content *)
  c <- Sse.eval (ch <- get data "choices" ;;
                 ret (truthy (get_opt (get_opt (index0_opt ch) "delta") "content"))) ;;
  when c (x <- Sse.eval (ch <- get data "choices" ;; c0 <- index0 ch ;;
                         d <- get c0 "delta" ;; get d "content") ;;
          Sse.append_content x) ;;
  (* OpenAI format: usage in final message *)
  c <- Sse.eval (u <- get data "usage" ;; ret (truthy u)) ;;
  when c (x <- Sse.eval (u <- get data "usage" ;; get u "prompt_tokens") ;;
          Sse.set_inputTokens x ;;
          y <- Sse.eval (u <- get data "usage" ;; get u "completion_tokens") ;;
          Sse.set_outputTokens y).

(** The body of [for (const line of lines)]. *)
Definition on_line (line : string) : Sse.t unit :=
  if negb (startsWith line "data: ") then ret tt
  else if line =? "data: [DONE]" then ret tt
  else Sse.try_ignore
         (data <- Sse.eval (JSON_parse (slice 6 line)) ;; on_frame (Some data)).

Fixpoint for_lines (lines : list string) : Sse.t unit :=
  match lines with
  | [] => ret tt
  | line :: rest => on_line line ;; for_lines rest
  end.

(** One turn of [while (true)] from [buffer +=] on, for the text that the
    decoder has made of the chunk: [lines.pop()] takes the last of
    [lines], a string, which [|| ""] leaves as it is. *)
Definition on_text (text : string) : Sse.t unit :=
  fun s =>
    let lines := split LF (Sse.buffer s ++ text) in
    (Sse.set_buffer (last lines "") ;; for_lines (removelast lines)) s.

(** One turn of [while (true)] after a read that was not [done]:
    [decoder.decode(value, { stream: true })] gives the text of the bytes
    that complete a character and keeps the others in the decoder. *)
Definition on_chunk (decoder : Utf8.decoder) (value : string) : Sse.t Utf8.decoder :=
  let (decoder', text) := Utf8.decode decoder value in
  on_text text ;; ret decoder'.

(** The reads of the loop: [reader.read()] yields the chunks in order, then
    [done], or rejects.  The decoder is never flushed. *)
Fixpoint read_loop (chunks : list string) (ending : StreamEnd)
    (decoder : Utf8.decoder) : Sse.t unit :=
  match chunks with
  | [] =>
      match ending with
      | StreamDone => ret tt
      | StreamError e => Sse.throw e
      end
  | value :: rest =>
      decoder' <- on_chunk decoder value ;; read_loop rest ending decoder'
  end.

(** [// Process any remaining buffer] *)
Definition on_remaining : Sse.t unit :=
  fun s =>
    let buffer := Sse.buffer s in
    if startsWith buffer "data: " && negb (buffer =? "data: [DONE]") then
      Sse.try_ignore
        (data <- Sse.eval (JSON_parse (slice 6 buffer)) ;;
         let data := Some data in
         c <- Sse.eval (d <- get data "delta" ;; ret (truthy (get_opt d "text"))) ;;
         when c (x <- Sse.eval (d <- get data "delta" ;; get d "text") ;;
                 Sse.append_content x) ;;
         c <- Sse.eval (ch <- get data "choices" ;;
                        ret (truthy (get_opt (get_opt (index0_opt ch) "delta")
                                       "content"))) ;;
         when c (x <- Sse.eval (ch <- get data "choices" ;; c0 <- index0 ch ;;
                                d <- get c0 "delta" ;; get d "content") ;;
                 Sse.append_content x)) s
    else (s, Normal tt).

(** [x !== undefined] *)
Definition defined (x : JsValue) : bool :=
  match x with Some _ => true | None => false end.

Definition parseSSEStream (response : Response) : Completion LlmResult :=
  match body response with
  | None => Normal (LlmErrorResponse (Some (JStr "No response body")) false None)
  | Some reader =>
      let (s, r) := (read_loop (chunks reader) (ending reader) Utf8.TextDecoder ;;
                     on_remaining) Sse.init in
      _ <- r ;;
      Normal (LlmResponse (Sse.content s)
                (if defined (Sse.inputTokens s) || defined (Sse.outputTokens s)
                 then Some (mkUsage (Sse.inputTokens s) (Sse.outputTokens s))
                 else None))
  end.

Definition fetch_llm (env : Env) (request : LlmRequestBody) : IO Response :=
  emit (LlmFetch ("Bearer " ++ env_text (LLM_PROXY_API_KEY env)) request) ;;
  match llm_proxy env request with
  | FetchRejects e => throw e
  | FetchResolves r => ret r
  end.

Definition default_model : string := "claude-haiku-4-5-20251001".
Definition default_maxTokens : Z := 4096.

(** The destructuring of [options] with its defaults, and the body of the
    request built from it. *)
Definition request_body (options : LlmRequestOptions) : LlmRequestBody :=
  let model := match opt_model options with Some m => m | None => default_model end in
  let maxTokens :=
    match opt_maxTokens options with Some n => n | None => default_maxTokens end in
  let messages := opt_messages options in
  mkLlmRequestBody model maxTokens messages true.

(** [let errorMessage = `LLM request failed: ${response.status}`] and the
    [try] that replaces it by the message of the error body. *)
Definition read_errorMessage (response : Response) : JsValue :=
  let errorMessage :=
    Some (JStr ("LLM request failed: " ++ string_of_Z (status response))) in
  or_else (errorBody <- json response ;;
           e <- get (Some errorBody) "error" ;;
           if truthy (get_opt e "message")
           then e <- get (Some errorBody) "error" ;; get e "message"
           else ret errorMessage)
          errorMessage.

Definition callLlmProxy (env : Env) (options : LlmRequestOptions) : IO LlmResult :=
  try_catch
    (response <- fetch_llm env (request_body options) ;;
     if negb (ok response) then
       let errorMessage := read_errorMessage response in
       billing <- lift (if (status response =? 402)%Z then Normal true
                        else isBillingError errorMessage) ;;
       ret (LlmErrorResponse errorMessage billing (Some (status response)))
     else lift (parseSSEStream response))
    (fun error =>
       let errorMessage := Some (JStr (error_message error)) in
       billing <- lift (isBillingError errorMessage) ;;
       ret (LlmErrorResponse errorMessage billing None)).

(** ** monitor.ts: the webhook handler and the background task *)

(** The [end] listener of [readJsonBody]. *)
Definition on_end (chunks : list string) : BodyResult :=
  let raw := Utf8.toString (String.concat "" chunks) in
  if negb (truthy (Some (JStr (trim raw)))) then BodyError "empty payload"
  else match JSON_parse raw with
       | Normal value => BodyOk value
       | Throw err => BodyError (error_message err)
       end.

(** The [data] listener over the chunks that arrive, then [end] or
    [error]; after [doResolve] the listeners are gone. *)
Fixpoint on_data (maxBytes : Z) (arriving chunks : list string) (total : Z)
    (ending : StreamEnd) : IO BodyResult :=
  match arriving with
  | chunk :: rest =>
      let total := (total + Z.of_nat (String.length chunk))%Z in
      if (total >? maxBytes)%Z then
        emit DestroyRequest ;; ret (BodyError "payload too large")
      else on_data maxBytes rest (chunks ++ [chunk])%list total ending
  | [] =>
      match ending with
      | StreamDone => ret (on_end chunks)
      | StreamError err => ret (BodyError (error_message err))
      end
  end.

Definition readJsonBody (req : IncomingMessage) (maxBytes : Z) : IO BodyResult :=
  emit (ReadBody maxBytes) ;;
  on_data maxBytes (chunks (payload_stream req)) [] 0%Z (ending (payload_stream req)).

Definition sendJsonResponse (statusCode : Z) (body : JSON) : IO unit :=
  emit (WriteResponse statusCode body).

Definition reply_model : string := "claude-sonnet-4-20250514".

(** What [processMessage] sends for the [result] of the generation call. *)
Definition send_result (env : Env) (messageId : string) (result : LlmResult) : IO unit :=
  match result with
  | LlmErrorResponse _ isBilling _ =>
      if isBilling then sendBillingErrorResponse env messageId
      else sendErrorResponse env messageId None
  | LlmResponse content usage =>
      (* Send response back to App Server *)
      sendResponse env messageId content
        (Some (mkMetadata None None (Some reply_model)
                 (match usage with
                  | Some u => outputTokens u
                  | None => None
                  end)))
  end.

Definition processMessage (env : Env) (request : Trigger.t) : IO unit :=
  let messageId := Trigger.messageId request in
  let text := Trigger.text request in
  let conversationHistory := Trigger.conversationHistory request in
  (* Build messages array for LLM *)
  history <- lift (spread (if truthy conversationHistory then conversationHistory
                           else Some (JArr []))) ;;
  let messages :=
    (history ++ [JObj [("role", JStr "user"); ("content", JStr text)]])%list in
  (* Call LLM Proxy *)
  result <- callLlmProxy env (mkLlmRequestOptions None None messages) ;;
  send_result env messageId result.

(** The handler from [// Validate required fields] on, for a parsed body. *)
Definition handle_trigger (env : Env) (value : JSON) : IO bool :=
  let body := Some value in
  (* Validate required fields *)
  mid <- lift (get body "messageId") ;;
  if negb (truthy mid) || negb (is_string mid) then
    sendJsonResponse 400 (JObj [("error", JStr "Missing or invalid messageId")]) ;;
    ret true
  else
    txt <- lift (get body "text") ;;
    if negb (truthy txt) || negb (is_string txt) then
      sendJsonResponse 400 (JObj [("error", JStr "Missing or invalid text")]) ;;
      ret true
    else
      (* Acknowledge receipt immediately *)
      sendJsonResponse 200 (JObj [("status", JStr "processing")]) ;;
      (* Process message asynchronously *)
      detached (processMessage env
                  (Trigger.mk (as_string mid) (as_string txt)
                     (get_opt body "uid")
                     (get_opt body "conversationHistory"))) ;;
      ret true.

(** The handler from [// Parse request body] on. *)
Definition handle_body (env : Env) (req : IncomingMessage) : IO bool :=
  bodyResult <- readJsonBody req MAX_PAYLOAD_BYTES ;;
  match bodyResult with
  | BodyError error =>
      sendJsonResponse 400 (JObj [("error", JStr error)]) ;;
      ret true
  | BodyOk value => handle_trigger env value
  end.

Definition handleFirebaseWebhookRequest (env : Env) (req : IncomingMessage) : IO bool :=
  url_pathname <- lift (pathname req) ;;
  (* Only handle POST /api/message *)
  if negb (method req =? "POST") || negb (url_pathname =? "/api/message") then ret false
  else
    (* Validate authorization *)
    let authHeader := authorization req in
    if negb (truthy (option_map JStr (VM_INTERNAL_SECRET env))) then
      sendJsonResponse 500 (JObj [("error", JStr "Server misconfigured")]) ;;
      ret true
    else if negb (eq_str (option_map JStr authHeader)
                    ("Bearer " ++ env_text (VM_INTERNAL_SECRET env))) then
      sendJsonResponse 401 (JObj [("error", JStr "Unauthorized")]) ;;
      ret true
    else handle_body env req.

End Plugin.

(** ** Requests, as the properties speak of them *)

(** The request is for the route of the handler. *)
Definition routed (req : IncomingMessage) : Prop :=
  method req = "POST" /\ pathname req = Normal "/api/message".

(** The shared secret is configured and the request carries it. *)
Definition authenticated (env : Env) (req : IncomingMessage) : Prop :=
  exists secret : string,
    VM_INTERNAL_SECRET env = Some secret /\ secret <> "" /\
    authorization req = Some ("Bearer " ++ secret).

(** A required field: a string that is not empty. *)
Definition non_empty_string (v : JsValue) : bool := truthy v && is_string v.

(** The size of a body in bytes. *)
Fixpoint total_bytes (chunks : list string) : Z :=
  match chunks with
  | [] => 0%Z
  | chunk :: rest => (Z.of_nat (String.length chunk) + total_bytes rest)%Z
  end.

(** ** monitor.ts after the agent refactor

    The later revision of [monitor.ts] routes a trigger through the
    OpenClaw agent dispatcher instead of [callLlmProxy].  The dispatcher is
    part of the plugin SDK: a run of it is the [text] of each payload it
    hands to the [deliver] callback, in order, and how the dispatch
    settles. *)

Module AgentMonitor.

Record PluginRuntime : Type := mkPluginRuntime {
  dispatchReplyFromConfig : Trigger.t -> list JsValue * Completion unit
}.

(** The [deliver] callback over the blocks: [if (payload.text) fullResponse += payload.text]. *)
Fixpoint deliver (blocks : list JsValue) (fullResponse : string) : string :=
  match blocks with
  | [] => fullResponse
  | t :: rest =>
      deliver rest (if truthy t then fullResponse ++ ToStringV t else fullResponse)
  end.

Definition unavailable : string :=
  "Service temporarily unavailable. Please try again.".

Definition processMessage (JSON_parse : string -> Completion JSON) (env : Env)
    (runtime : option PluginRuntime) (request : Trigger.t) : IO unit :=
  let messageId := Trigger.messageId request in
  match runtime with
  | None => sendErrorResponse JSON_parse env messageId (Some unavailable)
  | Some rt =>
      try_catch
        (let (blocks, settled) := dispatchReplyFromConfig rt request in
         let fullResponse := deliver blocks "" in
         lift settled ;;
         if negb (truthy (Some (JStr fullResponse)))
            || (String.length fullResponse =? 0)%nat
         then ret tt
         else sendResponse JSON_parse env messageId fullResponse
                (Some (mkMetadata None None None None)))
        (fun error =>
           billing <- lift (isBillingError (Some (JStr (error_message error)))) ;;
           if billing then sendBillingErrorResponse JSON_parse env messageId
           else sendErrorResponse JSON_parse env messageId None)
  end.

End AgentMonitor.

(** ** A reader of JSON text

    An instance of [JSON.parse] on the JSON grammar with integer numbers;
    a literal with a fraction or an exponent, and an escape of a surrogate,
    are refused, and the messages of its errors are its own, not those of
    an engine.  The properties of the plugin are stated for every parser;
    this one runs them on wire text. *)

Module JsonText.

Definition DQ : ascii := ascii_of_nat 34.
Definition BS : ascii := ascii_of_nat 92.

Definition is_ws (c : ascii) : bool :=
  let n := nat_of_ascii c in
  ((n =? 32) || (n =? 9) || (n =? 10) || (n =? 13))%nat.

Fixpoint skip_ws (s : string) : string :=
  match s with
  | EmptyString => EmptyString
  | String c r => if is_ws c then skip_ws r else s
  end.

Definition digit (c : ascii) : option Z :=
  let n := nat_of_ascii c in
  if ((48 <=? n) && (n <=? 57))%nat then Some (Z.of_nat (n - 48)) else None.

Definition hex (c : ascii) : option nat :=
  let n := nat_of_ascii c in
  if ((48 <=? n) && (n <=? 57))%nat then Some (n - 48)%nat
  else if ((97 <=? n) && (n <=? 102))%nat then Some (n - 87)%nat
  else if ((65 <=? n) && (n <=? 70))%nat then Some (n - 55)%nat
  else None.

Fixpoint digits (s : string) (acc : Z) : Z * string :=
  match s with
  | EmptyString => (acc, EmptyString)
  | String c r =>
      match digit c with
      | Some d => digits r (10 * acc + d)%Z
      | None => (acc, s)
      end
  end.

(** After the integer part: a fraction or an exponent is outside the model. *)
Definition integer_end (s : string) : bool :=
  match s with
  | String c _ =>
      negb (Ascii.eqb c "."%char || Ascii.eqb c "e"%char || Ascii.eqb c "E"%char)
  | EmptyString => true
  end.

(** Digits with no leading zero. *)
Definition natural (s : string) : option (Z * string) :=
  match s with
  | String c r =>
      match digit c with
      | Some d =>
          let (n, rest) := digits r d in
          if integer_end rest && negb ((d =? 0)%Z && negb (r =? rest))
          then Some (n, rest) else None
      | None => None
      end
  | EmptyString => None
  end.

Definition number (s : string) : option (Z * string) :=
  match s with
  | String "-"%char r =>
      match natural r with
      | Some (n, rest) => Some ((- n)%Z, rest)
      | None => None
      end
  | _ => natural s
  end.

(** The UTF-8 bytes of a code point of the basic plane. *)
Definition utf8 (cp : nat) : option string :=
  if (cp <? 128)%nat then Some (String (ascii_of_nat cp) EmptyString)
  else if (cp <? 2048)%nat then
    Some (String (ascii_of_nat (192 + cp / 64))
            (String (ascii_of_nat (128 + cp mod 64)) EmptyString))
  else if ((216 * 256 <=? cp) && (cp <? 224 * 256))%nat then None
  else
    Some (String (ascii_of_nat (224 + cp / 4096))
            (String (ascii_of_nat (128 + (cp / 64) mod 64))
               (String (ascii_of_nat (128 + cp mod 64)) EmptyString))).

Definition escape (c : ascii) : option ascii :=
  if Ascii.eqb c DQ then Some DQ
  else if Ascii.eqb c BS then Some BS
  else if Ascii.eqb c "/"%char then Some "/"%char
  else if Ascii.eqb c "b"%char then Some (ascii_of_nat 8)
  else if Ascii.eqb c "f"%char then Some (ascii_of_nat 12)
  else if Ascii.eqb c "n"%char then Some (ascii_of_nat 10)
  else if Ascii.eqb c "r"%char then Some (ascii_of_nat 13)
  else if Ascii.eqb c "t"%char then Some (ascii_of_nat 9)
  else None.

(** The characters of a string literal, after its opening quote. *)
Fixpoint literal (s : string) : option (string * string) :=
  match s with
  | EmptyString => None
  | String c r =>
      if Ascii.eqb c DQ then Some (EmptyString, r)
      else if Ascii.eqb c BS then
        match r with
        | String "u"%char (String h1 (String h2 (String h3 (String h4 r')))) =>
            match hex h1, hex h2, hex h3, hex h4 with
            | Some a, Some b, Some c', Some d =>
                match utf8 (((a * 16 + b) * 16 + c') * 16 + d), literal r' with
                | Some bytes, Some (t, rest) => Some (bytes ++ t, rest)
                | _, _ => None
                end
            | _, _, _, _ => None
            end
        | String e r' =>
            match escape e, literal r' with
            | Some x, Some (t, rest) => Some (String x t, rest)
            | _, _ => None
            end
        | EmptyString => None
        end
      else if (nat_of_ascii c <? 32)%nat then None
      else match literal r with
           | Some (t, rest) => Some (String c t, rest)
           | None => None
           end
  end.

Fixpoint value (fuel : nat) (s : string) : option (JSON * string) :=
  match fuel with
  | O => None
  | S n =>
      match skip_ws s with
      | EmptyString => None
      | String c r =>
          if Ascii.eqb c DQ then
            match literal r with
            | Some (t, rest) => Some (JStr t, rest)
            | None => None
            end
          else if Ascii.eqb c "["%char then
            match skip_ws r with
            | String "]"%char rest => Some (JArr [], rest)
            | _ => match elements n r with
                   | Some (items, rest) => Some (JArr items, rest)
                   | None => None
                   end
            end
          else if Ascii.eqb c "{"%char then
            match skip_ws r with
            | String "}"%char rest => Some (JObj [], rest)
            | _ => match members n r with
                   | Some (fields, rest) => Some (JObj fields, rest)
                   | None => None
                   end
            end
          else if startsWith (String c r) "null" then Some (JNull, slice 4 (String c r))
          else if startsWith (String c r) "true" then Some (JBool true, slice 4 (String c r))
          else if startsWith (String c r) "false" then Some (JBool false, slice 5 (String c r))
          else match number (String c r) with
               | Some (z, rest) => Some (JNum z, rest)
               | None => None
               end
      end
  end
with elements (fuel : nat) (s : string) : option (list JSON * string) :=
  match fuel with
  | O => None
  | S n =>
      match value n s with
      | Some (v, rest) =>
          match skip_ws rest with
          | String ","%char rest' =>
              match elements n rest' with
              | Some (vs, rest'') => Some (v :: vs, rest'')
              | None => None
              end
          | String "]"%char rest' => Some ([v], rest')
          | _ => None
          end
      | None => None
      end
  end
with members (fuel : nat) (s : string) : option (list (string * JSON) * string) :=
  match fuel with
  | O => None
  | S n =>
      match skip_ws s with
      | String c r =>
          if Ascii.eqb c DQ then
            match literal r with
            | Some (k, rest) =>
                match skip_ws rest with
                | String ":"%char rest' =>
                    match value n rest' with
                    | Some (v, rest'') =>
                        match skip_ws rest'' with
                        | String ","%char more =>
                            match members n more with
                            | Some (fs, final) => Some ((k, v) :: fs, final)
                            | None => None
                            end
                        | String "}"%char final => Some ([(k, v)], final)
                        | _ => None
                        end
                    | None => None
                    end
                | _ => None
                end
            | None => None
            end
          else None
      | EmptyString => None
      end
  end.

Definition parse (s : string) : Completion JSON :=
  match value (S (String.length s)) s with
  | Some (v, rest) =>
      if skip_ws rest =? "" then Normal v
      else Throw (SyntaxError "Unexpected non-whitespace character after JSON")
  | None =>
      if skip_ws s =? "" then Throw (SyntaxError "Unexpected end of JSON input")
      else Throw (SyntaxError "Unexpected token in JSON")
  end.

(** Wire text written with an apostrophe for each double quote. *)
Fixpoint wire (s : string) : string :=
  match s with
  | EmptyString => EmptyString
  | String c r => String (if Ascii.eqb c "'"%char then DQ else c) (wire r)
  end.

End JsonText.

(** ** monitor.ts and standalone.ts: the standalone server *)

Definition is_write (e : Event) : bool :=
  match e with WriteResponse _ _ => true | _ => false end.

(** The answers written in a trace, in order. *)
Fixpoint answers (t : list Event) : list (Z * JSON) :=
  match t with
  | [] => []
  | WriteResponse statusCode payload :: r => (statusCode, payload) :: answers r
  | _ :: r => answers r
  end.


(** The answers that reach the client.  [req.destroy()] destroys the
    socket of the request, which is the socket of the response: what is
    written after it is not sent, and the client sees the connection
    reset. *)
Fixpoint received (t : list Event) : list (Z * JSON) :=
  match t with
  | [] => []
  | DestroyRequest :: _ => []
  | WriteResponse statusCode payload :: r => (statusCode, payload) :: received r
  | _ :: r => received r
  end.

(** The handler returned by [createStandaloneHandler()]; [url] is
    [req.url], which the health check compares as it stands. *)
Definition createStandaloneHandler (JSON_parse : string -> Completion JSON)
    (env : Env) (url : option string) (req : IncomingMessage) : IO unit :=
  handled <- handleFirebaseWebhookRequest JSON_parse env req ;;
  if negb handled then
    (* Health check endpoint *)
    if (method req =? "GET") && eq_str (option_map JStr url) "/health" then
      sendJsonResponse 200 (JObj [("status", JStr "ok")])
    else sendJsonResponse 404 (JObj [("error", JStr "Not found")])
  else ret tt.

(** standalone.ts: the callback of [createServer]; [res.headersSent] holds
    when an answer has been written. *)
Definition standalone_server (JSON_parse : string -> Completion JSON)
    (env : Env) (url : option string) (req : IncomingMessage) : IO unit :=
  match createStandaloneHandler JSON_parse env url req with
  | (t, Normal _) => (t, Normal tt)
  | (t, Throw err) =>
      if negb (existsb is_write t) then
        ((t ++ [WriteResponse 500 (JObj [("error", JStr "Internal server error")])])%list,
         Normal tt)
      else (t, Normal tt)
  end.

(** ** channel.ts: the account of the plugin *)

Module Channel.

(** [OpenClawConfig], a plain object: its members, read with [lookup]. *)
Definition OpenClawConfig : Type := list (string * JSON).

(** [process.env.APP_SERVER_URL] and [process.env.LLM_PROXY_URL]. *)
Record Urls : Type := mkUrls {
  APP_SERVER_URL : option string;
  LLM_PROXY_URL : option string
}.

(** types.ts: [FirebaseResolvedAccount]. *)
Record FirebaseResolvedAccount : Type := mkAccount {
  accountId : string;
  enabled : bool;
  configured : bool;
  appServerUrl : JsValue;
  llmProxyUrl : JsValue
}.

Fixpoint indexed (i : nat) (items : list JSON) : list (string * JSON) :=
  match items with
  | [] => []
  | x :: r => (string_of_Z (Z.of_nat i), x) :: indexed (S i) r
  end.

(** The members that the spread of [v] into an object literal copies. *)
Definition own_props (v : JsValue) : list (string * JSON) :=
  match v with
  | Some (JObj fields) => fields
  | Some (JArr items) => indexed 0 items
  | Some (JStr s) => indexed 0 (chars s)
  | _ => []
  end.

(** [a || b] *)
Definition or_value (a b : JsValue) : JsValue := if truthy a then a else b.

(** [v !== false] *)
Definition not_false (v : JsValue) : bool :=
  match v with
  | Some (JBool false) => false
  | _ => true
  end.

Definition getFirebaseConfig (cfg : OpenClawConfig) : JsValue :=
  get_opt (lookup "channels" cfg) "firebase".

Definition listAccountIds (cfg : OpenClawConfig) : list string := ["default"].

Definition resolveAccount (env : Env) (urls : Urls) (cfg : OpenClawConfig)
    (accountId : option string) : FirebaseResolvedAccount :=
  let firebaseConfig := getFirebaseConfig cfg in
  mkAccount
    (match accountId with Some a => a | None => "default" end)
    (not_false (get_opt firebaseConfig "enabled"))
    (truthy (option_map JStr (VM_INTERNAL_SECRET env))
     && truthy (option_map JStr (LLM_PROXY_API_KEY env)))
    (or_value (get_opt firebaseConfig "appServerUrl")
       (option_map JStr (APP_SERVER_URL urls)))
    (or_value (get_opt firebaseConfig "llmProxyUrl")
       (option_map JStr (LLM_PROXY_URL urls))).

Definition setAccountEnabled (cfg : OpenClawConfig) (enabled : bool) : OpenClawConfig :=
  let channels := or_value (lookup "channels" cfg) (Some (JObj [])) in
  (cfg ++
   [("channels",
     JObj (own_props channels ++
           [("firebase",
             JObj (own_props (get_opt channels "firebase") ++
                   [("enabled", JBool enabled)]))]))])%list.

Definition isConfigured (account : FirebaseResolvedAccount) : bool := configured account.

(** The handler that [startAccount] registers for the path [/api/message]:
    the webhook handler with its result dropped. *)
Definition webhookRouteHandler (JSON_parse : string -> Completion JSON) (env : Env)
    (req : IncomingMessage) : IO unit :=
  _ <- handleFirebaseWebhookRequest JSON_parse env req ;;
  ret tt.

Definition isEnabled (account : FirebaseResolvedAccount) : bool := enabled account.

End Channel.

(** ** monitor.ts after the agent refactor: the webhook handler

    The handler of the later revision answers the health check itself and
    hands a valid trigger to the agent task; the rest is the code of the
    first revision. *)

Module AgentWebhook.

Section Handler.

Variable JSON_parse : string -> Completion JSON.
Variable env : Env.
Variable runtime : option AgentMonitor.PluginRuntime.

(** The handler from [// Validate required fields] on, for a parsed body. *)
Definition handle_trigger (value : JSON) : IO bool :=
  let body := Some value in
  (* Validate required fields *)
  mid <- lift (get body "messageId") ;;
  if negb (truthy mid) || negb (is_string mid) then
    sendJsonResponse 400 (JObj [("error", JStr "Missing or invalid messageId")]) ;;
    ret true
  else
    txt <- lift (get body "text") ;;
    if negb (truthy txt) || negb (is_string txt) then
      sendJsonResponse 400 (JObj [("error", JStr "Missing or invalid text")]) ;;
      ret true
    else
      (* Acknowledge receipt immediately *)
      sendJsonResponse 200 (JObj [("status", JStr "processing")]) ;;
      (* Process message asynchronously *)
      detached (AgentMonitor.processMessage JSON_parse env runtime
                  (Trigger.mk (as_string mid) (as_string txt)
                     (get_opt body "uid")
                     (get_opt body "conversationHistory"))) ;;
      ret true.

(** The handler from [// Parse request body] on. *)
Definition handle_body (req : IncomingMessage) : IO bool :=
  bodyResult <- readJsonBody JSON_parse req MAX_PAYLOAD_BYTES ;;
  match bodyResult with
  | BodyError error =>
      sendJsonResponse 400 (JObj [("error", JStr error)]) ;;
      ret true
  | BodyOk value => handle_trigger value
  end.

Definition handleFirebaseWebhookRequest (req : IncomingMessage) : IO bool :=
  url_pathname <- lift (pathname req) ;;
  (* Health check endpoint (works in both standalone and gateway mode) *)
  if (method req =? "GET") && (url_pathname =? "/health") then
    sendJsonResponse 200 (JObj [("status", JStr "ok"); ("plugin", JStr "firebase")]) ;;
    ret true
  (* Only handle POST /api/message *)
  else if negb (method req =? "POST") || negb (url_pathname =? "/api/message")
  then ret false
  else
    (* Validate authorization *)
    let authHeader := authorization req in
    if negb (truthy (option_map JStr (VM_INTERNAL_SECRET env))) then
      sendJsonResponse 500 (JObj [("error", JStr "Server misconfigured")]) ;;
      ret true
    else if negb (eq_str (option_map JStr authHeader)
                    ("Bearer " ++ env_text (VM_INTERNAL_SECRET env))) then
      sendJsonResponse 401 (JObj [("error", JStr "Unauthorized")]) ;;
      ret true
    else handle_body req.

(** The handler returned by [createStandaloneHandler()], as in the first
    revision. *)
Definition createStandaloneHandler (url : option string) (req : IncomingMessage)
    : IO unit :=
  handled <- handleFirebaseWebhookRequest req ;;
  if negb handled then
    if (method req =? "GET") && eq_str (option_map JStr url) "/health" then
      sendJsonResponse 200 (JObj [("status", JStr "ok")])
    else sendJsonResponse 404 (JObj [("error", JStr "Not found")])
  else ret tt.

End Handler.

End AgentWebhook.

(** ** Notions and tactics of the proofs *)

(** The locals with [buffer] replaced. *)
Definition with_buffer (b : string) (s : Sse.Locals) : Sse.Locals :=
  Sse.mkLocals (Sse.content s) (Sse.inputTokens s) (Sse.outputTokens s) b.

(** A statement that neither reads nor assigns [buffer]. *)
Definition buffer_free {A : Type} (m : Sse.t A) : Prop :=
  forall (s : Sse.Locals) (b : string),
    m (with_buffer b s) = (with_buffer b (fst (m s)), snd (m s)).

(** A statement that completes normally. *)
Definition settles (m : Sse.t unit) : Prop :=
  forall s : Sse.Locals, snd (m s) = Normal tt.

Create HintDb sse.

(** Keep the [catch] block folded while the [try] block is evaluated. *)
Ltac hide_handler :=
  match goal with
  | |- context [try_catch _ ?h] => set (handler := h)
  end.

Ltac show_handler :=
  match goal with
  | handler := _ |- _ => subst handler; cbv beta
  end.


(** ** Wire text and services used as concrete inputs *)

(** ** Notions of the further properties *)

(** *** The frames of a completion stream

    What one object frame of the read loop does, written by cases of its
    members: the text it adds and the two counters after it. *)

(** The text a frame of the loop adds: the dialect-A [delta.text], under
    the type [content_block_delta] or under no type, then the dialect-B
    [choices[0].delta.content]. *)
Definition frame_text (fields : list (string * JSON)) : string :=
  let ty := lookup "type" fields in
  let delta_text := get_opt (lookup "delta" fields) "text" in
  let choice := get_opt (get_opt (index0_opt (lookup "choices" fields)) "delta") "content" in
  (if truthy delta_text && (eq_str ty "content_block_delta" || negb (truthy ty))
   then ToStringV delta_text else "")
  ++ (if truthy choice then ToStringV choice else "").

Definition frame_inputTokens (fields : list (string * JSON)) (old : JsValue) : JsValue :=
  let usage := lookup "usage" fields in
  let started := get_opt (lookup "message" fields) "usage" in
  if truthy usage then get_opt usage "prompt_tokens"
  else if eq_str (lookup "type" fields) "message_start" && truthy started
       then get_opt started "input_tokens"
       else old.

Definition frame_outputTokens (fields : list (string * JSON)) (old : JsValue) : JsValue :=
  let usage := lookup "usage" fields in
  if truthy usage then get_opt usage "completion_tokens" else old.

(** What an object frame does to the locals of the loop. *)
Definition apply_frame (fields : list (string * JSON)) (s : Sse.Locals) : Sse.Locals :=
  Sse.mkLocals (Sse.content s ++ frame_text fields)
    (frame_inputTokens fields (Sse.inputTokens s))
    (frame_outputTokens fields (Sse.outputTokens s))
    (Sse.buffer s).

(** The text that the remainder of the buffer contributes: no [type] is
    looked at there. *)
Definition remainder_text (fields : list (string * JSON)) : string :=
  let delta_text := get_opt (lookup "delta" fields) "text" in
  let choice := get_opt (get_opt (index0_opt (lookup "choices" fields)) "delta") "content" in
  (if truthy delta_text then ToStringV delta_text else "")
  ++ (if truthy choice then ToStringV choice else "").

(** A text without a line feed. *)
Fixpoint single_line (s : string) : bool :=
  match s with
  | EmptyString => true
  | String c r => negb (Ascii.eqb c LF) && single_line r
  end.

(** The lines, each ended by a line feed. *)
Fixpoint join_lines (lines : list string) : string :=
  match lines with
  | [] => EmptyString
  | l :: r => l ++ nl ++ join_lines r
  end.

(** The members of the object that a [data: ] line carries, if it
    carries one. *)
Definition line_fields (JSON_parse : string -> Completion JSON) (line : string)
    : option (list (string * JSON)) :=
  if negb (startsWith line "data: ") then None
  else if line =? "data: [DONE]" then None
  else match JSON_parse (slice 6 line) with
       | Normal (JObj fields) => Some fields
       | _ => None
       end.

(** The object frames of the lines, in order. *)
Fixpoint frames_of (JSON_parse : string -> Completion JSON) (lines : list string)
    : list (list (string * JSON)) :=
  match lines with
  | [] => []
  | l :: r =>
      match line_fields JSON_parse l with
      | Some fields => fields :: frames_of JSON_parse r
      | None => frames_of JSON_parse r
      end
  end.

(** The text that the decoder of the loop has made of the chunks when the
    reads are done. *)
Definition decoded_stream (chunks : list string) : string :=
  snd (Utf8.decode Utf8.TextDecoder (String.concat "" chunks)).

(** The result of a stream whose text is the whole [lines], each ended by
    a line feed, followed by [tail]. *)
Definition lines_result (JSON_parse : string -> Completion JSON)
    (lines : list string) (tail : string) : LlmResult :=
  let frames := frames_of JSON_parse lines in
  let final := fold_left (fun s fields => apply_frame fields s) frames Sse.init in
  LlmResponse
    (String.concat "" (map frame_text frames)
     ++ match line_fields JSON_parse tail with
        | Some fields => remainder_text fields
        | None => ""
        end)
    (if defined (Sse.inputTokens final) || defined (Sse.outputTokens final)
     then Some (mkUsage (Sse.inputTokens final) (Sse.outputTokens final))
     else None).

(** What holds of the decoder between two reads: the bytes that wait in
    it are no line feeds, and no line feed can continue their sequence. *)
Definition wf (d : Utf8.decoder) : Prop :=
  single_line (Utf8.pending d) = true /\ (128 <= Utf8.lower d)%nat.

(** The [usage] of the result, from the two counters. *)
Definition usage_of (s : Sse.Locals) : option Usage :=
  if defined (Sse.inputTokens s) || defined (Sse.outputTokens s)
  then Some (mkUsage (Sse.inputTokens s) (Sse.outputTokens s))
  else None.

(** *** Payloads and requests of a run *)

(** The payloads of [sendBillingErrorResponse] and of [sendErrorResponse]. *)
Definition billing_payload (messageId : string) : VmResponseRequest :=
  mkVmResponseRequest messageId
    "You've run out of credits! Tap below to purchase more."
    (Some (mkMetadata (Some "billing") (Some "purchase_credits") None None)).

Definition error_payload (messageId userMessage : string) : VmResponseRequest :=
  mkVmResponseRequest messageId userMessage
    (Some (mkMetadata (Some "error") None None None)).


(** The generation requests of a trace, in order. *)
Fixpoint generations (t : list Event) : list LlmRequestBody :=
  match t with
  | [] => []
  | LlmFetch _ request :: r => request :: generations r
  | _ :: r => generations r
  end.

Module Examples.

Import JsonText.

(** One event frame: [data: <json>] and an empty line. *)
Definition frame (j : string) : string := "data: " ++ wire j ++ nl ++ nl.

Definition done_frame : string := "data: [DONE]" ++ nl ++ nl.

Definition streamed (status : Z) (chunks : list string) : Response :=
  mkResponse status (Some (mkBody chunks StreamDone)).

(** The frames of test/mock-services.ts for the reply [Hello world]:
    [message_start] with 10 input tokens, two [content_block_delta], and
    [message_delta] with 2 output tokens, then [[DONE]]. *)
Definition dialectA_frames : list string :=
  [frame "{'type':'message_start','message':{'usage':{'input_tokens':10}}}";
   frame "{'type':'content_block_delta','delta':{'text':'Hello'}}";
   frame "{'type':'content_block_delta','delta':{'text':' world'}}";
   frame "{'type':'message_delta','usage':{'output_tokens':2}}";
   done_frame].

(** The same stream before its [message_delta] frame. *)
Definition dialectA_prefix : list string :=
  [frame "{'type':'message_start','message':{'usage':{'input_tokens':10}}}";
   frame "{'type':'content_block_delta','delta':{'text':'Hello'}}";
   frame "{'type':'content_block_delta','delta':{'text':' world'}}"].

(** A frame cut in two by the network. *)
Definition split_first : string := wire "data: {'del".

(** A frame with the text [caf] and U+00E9, after a byte order mark, cut
    between the two bytes of U+00E9. *)
Definition cafe : string :=
  "caf" ++ String (Utf8.byte 195) (String (Utf8.byte 169) EmptyString).

Definition cut_first : string :=
  Utf8.bom ++ wire "data: {'delta':{'text':'caf" ++ String (Utf8.byte 195) EmptyString.

Definition cut_second : string :=
  String (Utf8.byte 169) EmptyString ++ wire "'}}" ++ nl.

(** The environment of the tests, with fixed answers of the two services. *)
Definition service (llm app : FetchOutcome) : Env :=
  mkEnv (Some "sec_test") (Some "pxy_test") (fun _ => llm) (fun _ => app).

(** The App Server acknowledges. *)
Definition saved : FetchOutcome :=
  FetchResolves (streamed 200 [wire "{'status':'saved'}"]).

(** The proxy of test/test-billing-error.mjs. *)
Definition billing_402 : FetchOutcome :=
  FetchResolves
    (streamed 402
       [wire "{'error':{'type':'billing_error','message':'Insufficient credits','code':'insufficient_credits'}}"]).

(** A proxy that fails with a body that is no JSON. *)
Definition plain_500 : FetchOutcome :=
  FetchResolves (streamed 500 ["Internal Server Error"]).

(** No connection to the proxy. *)
Definition network_down : FetchOutcome := FetchRejects (TypeError "fetch failed").

(** A stream that breaks after its first frame. *)
Definition broken_stream : FetchOutcome :=
  FetchResolves
    (mkResponse 200
       (Some (mkBody [frame "{'type':'content_block_delta','delta':{'text':'Hello'}}"]
                (StreamError (TypeError "terminated"))))).

Definition hello_options : LlmRequestOptions :=
  mkLlmRequestOptions None None [JObj [("role", JStr "user"); ("content", JStr "Hello")]].


Definition not_found : FetchOutcome :=
  FetchResolves (streamed 404 [wire "{'error':'Not found'}"]).

(** Requests on the route of the handler, and the credential of [service]. *)
Definition request (auth : option string) (chunks : list string) : IncomingMessage :=
  mkIncomingMessage "POST" (Normal "/api/message") auth (mkBody chunks StreamDone).

Definition bearer : option string := Some "Bearer sec_test".

Definition hello_body : list string := [wire "{'messageId':'test1','text':'Hello'}"].

(** A server started without [VM_INTERNAL_SECRET]. *)
Definition unconfigured : Env :=
  mkEnv None (Some "pxy_test") (fun _ => network_down) (fun _ => saved).

Fixpoint filler (n : nat) : string :=
  match n with
  | O => EmptyString
  | S m => String "x"%char (filler m)
  end.

(** 1025 chunks of 1 KiB: 1024 bytes more than the cap. *)
Definition oversized : list string := repeat (filler 1024) 1025.

(** A generation stream that ends without a frame of text. *)
Definition silent : FetchOutcome := FetchResolves (streamed 200 [done_frame]).

(** A dialect-B stream: two fragments and a final [usage]. *)
Definition dialectB_frames : list string :=
  [frame "{'choices':[{'delta':{'content':'Hi'}}]}";
   frame "{'choices':[{'delta':{'content':' there'}}]}";
   frame "{'usage':{'prompt_tokens':3,'completion_tokens':4}}";
   done_frame].

Definition dialectB : FetchOutcome :=
  FetchResolves (streamed 200 [String.concat "" dialectB_frames]).

(** The valid request of the integration tests, and its trigger. *)
Definition valid_body : list string := [wire "{'messageId':'test4','text':'Hello AI'}"].

Definition trigger : Trigger.t := Trigger.mk "test4" "Hello AI" None None.

(** An error body whose [message] is an object. *)
Definition odd_500 : FetchOutcome :=
  FetchResolves (streamed 500 [wire "{'error':{'message':{'code':1}}}"]).

(** An agent that hands nothing to [deliver], and one that hands [Hi]. *)
Definition quiet_agent : AgentMonitor.PluginRuntime :=
  AgentMonitor.mkPluginRuntime (fun _ => ([], Normal tt)).

Definition hi_agent : AgentMonitor.PluginRuntime :=
  AgentMonitor.mkPluginRuntime (fun _ => ([Some (JStr "Hi")], Normal tt)).

(** The lines of a dialect-B stream, and two last lines that the stream
    leaves without their line feed: a fragment of text, and a [usage]. *)
Definition fragments : list string :=
  ["data: " ++ wire "{'choices':[{'delta':{'content':'Hi'}}]}"; "";
   "data: " ++ wire "{'usage':{'prompt_tokens':3,'completion_tokens':4}}"; ""].


Definition unfinished_usage : string :=
  "data: " ++ wire "{'usage':{'prompt_tokens':7,'completion_tokens':8}}".

(** Lines that carry no frame: a comment, another field, the end marker,
    data that is no JSON, data that is a number, an empty line. *)
Definition noise : list string :=
  [": keep-alive"; "event: ping"; "data: [DONE]"; "data: not json"; "data: 42"; ""].

(** A 2xx answer of the proxy without a body. *)
Definition bodiless : FetchOutcome := FetchResolves (mkResponse 204 None).

(** A 402 answer of the proxy whose body says nothing of billing. *)
Definition bare_402 : FetchOutcome := FetchResolves (streamed 402 ["Payment gateway"]).

(** Triggers with a history of two turns, and with a history that is an
    object. *)
Definition with_history : Trigger.t :=
  Trigger.mk "test6" "And now?" None
    (Some (JArr [JObj [("role", JStr "user"); ("content", JStr "Hi")];
                 JObj [("role", JStr "assistant"); ("content", JStr "Hello!")]])).

Definition odd_history : Trigger.t :=
  Trigger.mk "test7" "Hello" None (Some (JObj [("0", JStr "Hi")])).

(** A request for the health check, and a body that breaks off. *)
(** U+00A0. *)
Definition no_break_space : string :=
  String (Utf8.byte 194) (String (Utf8.byte 160) EmptyString).

Definition health : IncomingMessage :=
  mkIncomingMessage "GET" (Normal "/health") None (mkBody [] StreamDone).

Definition aborted : IncomingMessage :=
  mkIncomingMessage "POST" (Normal "/api/message") bearer
    (mkBody [wire "{'messageId':"] (StreamError (Error "aborted"))).



(** A configuration with another channel and a setting of this one. *)
Definition config : Channel.OpenClawConfig :=
  [("agents", JObj []);
   ("channels",
    JObj [("telegram", JObj [("enabled", JBool true)]);
          ("firebase", JObj [("appServerUrl", JStr "http://app:3000")])])].

End Examples.

(** * Properties *)

(** ** Strings *)

Lemma prefix_spec (p s : string) :
  String.prefix p s = true <-> exists t : string, s = p ++ t.
Proof.
  revert s; induction p as [|a p IH]; intros s.
  - destruct s; simpl; (split; [intros _; eexists; reflexivity | reflexivity]).
  - destruct s as [|b s]; simpl.
    + split; [discriminate | intros [t Ht]; discriminate].
    + destruct (ascii_dec a b) as [->|Hab].
      * rewrite IH. split; intros [t Ht]; exists t.
        -- now rewrite Ht.
        -- now injection Ht.
      * split; [discriminate|].
        intros [t Ht]; injection Ht as Hb _. congruence.
Qed.

Lemma includes_eq (s sub : string) :
  includes s sub
  = if String.prefix sub s then true
    else match s with
         | EmptyString => false
         | String _ r => includes r sub
         end.
Proof. destruct s; reflexivity. Qed.

Lemma includes_spec (s sub : string) :
  includes s sub = true <-> Substring sub s.
Proof.
  unfold Substring. induction s as [|c r IH]; rewrite includes_eq.
  - destruct (String.prefix sub "") eqn:Hp.
    + split; [intros _|reflexivity].
      apply prefix_spec in Hp as [t Ht]. now exists "", t.
    + split; [discriminate|]. intros (pre & post & H).
      destruct pre; [|discriminate]. simpl in H.
      assert (String.prefix sub "" = true) by (apply prefix_spec; now exists post).
      congruence.
  - destruct (String.prefix sub (String c r)) eqn:Hp.
    + split; [intros _|reflexivity].
      apply prefix_spec in Hp as [t Ht]. now exists "", t.
    + rewrite IH. split.
      * intros (pre & post & H). exists (String c pre), post. simpl. now rewrite H.
      * intros (pre & post & H). destruct pre as [|c' pre].
        -- simpl in H.
           assert (String.prefix sub (String c r) = true)
             by (apply prefix_spec; now exists post).
           congruence.
        -- simpl in H. injection H as _ H. now exists pre, post.
Qed.

(** ** respond.ts: the billing classifier *)

Lemma isBillingError_existsb (message : string) :
  isBillingError (Some (JStr message))
  = Normal (existsb (includes (toLowerCase message)) billing_keywords).
Proof.
  destruct message as [|c r]; [reflexivity|].
  unfold isBillingError. simpl. now rewrite !orb_false_r, !orb_assoc.
Qed.

(** C5.  On a message string the classifier returns a boolean, and it
    returns [true] exactly when the lower-cased message contains one of the
    five keywords; on a missing message it returns [false]. *)
Theorem isBillingError_iff_keyword (message : string) :
  isBillingError None = Normal false /\
  exists b : bool,
    isBillingError (Some (JStr message)) = Normal b /\
    (b = true <->
     exists k : string,
       In k ["402"; "insufficient credits"; "insufficient_credits"; "billing";
             "payment required"] /\
       Substring k (toLowerCase message)).
Proof.
  split; [reflexivity|].
  exists (existsb (includes (toLowerCase message)) billing_keywords).
  split; [apply isBillingError_existsb|].
  rewrite existsb_exists. unfold billing_keywords.
  split; intros (k & Hin & Hk); exists k; (split; [exact Hin|]);
    now apply includes_spec.
Qed.

(** ** llm-client.ts: lines and chunks *)

Lemma split_not_nil (sep : ascii) (s : string) : split sep s <> [].
Proof.
  destruct s as [|c r]; simpl; [discriminate|].
  destruct (Ascii.eqb c sep); [discriminate|].
  destruct (split sep r); discriminate.
Qed.

Lemma removelast_cons {A : Type} (x : A) (l : list A) :
  l <> [] -> removelast (x :: l) = x :: removelast l.
Proof. destruct l; [congruence | reflexivity]. Qed.

Lemma last_cons {A : Type} (x d : A) (l : list A) :
  l <> [] -> last (x :: l) d = last l d.
Proof. destruct l; [congruence | reflexivity]. Qed.

(** Splitting a text that arrives in two parts: the lines completed by the
    first part, then the split of its unfinished last line followed by the
    second part. *)
Lemma split_app (sep : ascii) (a b : string) :
  split sep (a ++ b)
  = (removelast (split sep a) ++ split sep (last (split sep a) "" ++ b))%list.
Proof.
  induction a as [|c r IH]; [reflexivity|].
  pose proof (split_not_nil sep r) as Hr.
  cbn [append split]. rewrite IH. destruct (Ascii.eqb c sep) eqn:Hc.
  - rewrite removelast_cons, last_cons by exact Hr. reflexivity.
  - destruct (split sep r) as [|l [|x t]]; [congruence| |].
    + cbn [removelast last app append split]. rewrite Hc. reflexivity.
    + cbn [removelast last app]. reflexivity.
Qed.

Lemma last_app_r {A : Type} (l l' : list A) (d : A) :
  l' <> [] -> last (l ++ l') d = last l' d.
Proof.
  intros Hl'. induction l as [|x l IH]; [reflexivity|].
  cbn [app]. rewrite last_cons; [exact IH|].
  destruct l; [exact Hl' | discriminate].
Qed.

Lemma removelast_split_app (sep : ascii) (a b : string) :
  removelast (split sep (a ++ b))
  = (removelast (split sep a)
     ++ removelast (split sep (last (split sep a) "" ++ b)))%list.
Proof.
  rewrite split_app. apply removelast_app, split_not_nil.
Qed.

Lemma last_split_app (sep : ascii) (a b : string) :
  last (split sep (a ++ b)) ""
  = last (split sep (last (split sep a) "" ++ b)) "".
Proof.
  rewrite split_app. apply last_app_r, split_not_nil.
Qed.

Lemma string_app_assoc (a b c : string) : (a ++ b) ++ c = a ++ b ++ c.
Proof. induction a as [|x a IH]; simpl; [reflexivity | now rewrite IH]. Qed.

Lemma string_app_nil_r (a : string) : a ++ "" = a.
Proof. induction a as [|x a IH]; simpl; [reflexivity | now rewrite IH]. Qed.

Lemma buffer_free_ret {A : Type} (a : A) : buffer_free (ret a : Sse.t A).
Proof. intros s b; reflexivity. Qed.

Lemma buffer_free_eval {A : Type} (c : Completion A) : buffer_free (Sse.eval c).
Proof. intros s b; reflexivity. Qed.

Lemma buffer_free_bind {A B : Type} (m : Sse.t A) (k : A -> Sse.t B) :
  buffer_free m -> (forall a : A, buffer_free (k a)) -> buffer_free (bind m k).
Proof.
  intros Hm Hk s b. cbn. rewrite (Hm s b).
  destruct (m s) as [s' [a|e]]; cbn; [apply Hk | reflexivity].
Qed.

Lemma buffer_free_when (c : bool) (m : Sse.t unit) :
  buffer_free m -> buffer_free (when c m).
Proof. destruct c; [trivial | intros _ s b; reflexivity]. Qed.

Lemma buffer_free_append_content (x : JsValue) : buffer_free (Sse.append_content x).
Proof. intros s b; reflexivity. Qed.

Lemma buffer_free_set_inputTokens (x : JsValue) : buffer_free (Sse.set_inputTokens x).
Proof. intros s b; reflexivity. Qed.

Lemma buffer_free_set_outputTokens (x : JsValue) : buffer_free (Sse.set_outputTokens x).
Proof. intros s b; reflexivity. Qed.

Lemma buffer_free_try_ignore (m : Sse.t unit) :
  buffer_free m -> buffer_free (Sse.try_ignore m).
Proof.
  intros Hm s b. unfold Sse.try_ignore. rewrite (Hm s b).
  now destruct (m s).
Qed.

#[local] Hint Resolve buffer_free_ret buffer_free_eval buffer_free_bind
  buffer_free_when buffer_free_append_content buffer_free_set_inputTokens
  buffer_free_set_outputTokens buffer_free_try_ignore : sse.

Lemma bind_settles {B : Type} (m : Sse.t unit) (k : Sse.t B) (s : Sse.Locals) :
  settles m -> (m ;; k) s = k (fst (m s)).
Proof.
  intros Hm. specialize (Hm s). cbn.
  destruct (m s) as [s' r]; cbn in *; subst r. reflexivity.
Qed.

Lemma concat_cons (x : string) (xs : list string) :
  String.concat "" (x :: xs) = x ++ String.concat "" xs.
Proof. destruct xs; simpl; [now rewrite string_app_nil_r | reflexivity]. Qed.

(** ** The decoder *)

(** Decoding a text that arrives in two parts. *)
Lemma decode_app (a b : string) :
  forall d : Utf8.decoder,
    Utf8.decode d (a ++ b)
    = (fst (Utf8.decode (fst (Utf8.decode d a)) b),
       snd (Utf8.decode d a) ++ snd (Utf8.decode (fst (Utf8.decode d a)) b)).
Proof.
  induction a as [|x a IH]; intros d; cbn [append Utf8.decode].
  - cbn. now destruct (Utf8.decode d b).
  - destruct (Utf8.step d x) as [d1 o1]. rewrite IH.
    destruct (Utf8.decode d1 a) as [d2 o2]. cbn [fst snd].
    destruct (Utf8.decode d2 b) as [d3 o3]. cbn [fst snd].
    now rewrite string_app_assoc.
Qed.

Lemma single_line_app (a b : string) :
  single_line (a ++ b) = single_line a && single_line b.
Proof. induction a as [|x a IH]; cbn [append single_line]; [reflexivity | now rewrite IH, andb_assoc]. Qed.

Lemma not_LF (b : ascii) : (11 <= nat_of_ascii b)%nat -> Ascii.eqb b LF = false.
Proof.
  intros H. apply Ascii.eqb_neq. intros ->. cbn in H. lia.
Qed.

Lemma single_byte (b : ascii) :
  Ascii.eqb b LF = false -> single_line (String b "") = true.
Proof. intros H. cbn [single_line]. now rewrite H. Qed.

Lemma wf_idle (seen : bool) : wf (Utf8.idle seen).
Proof. split; [reflexivity | cbn; lia]. Qed.

Lemma output_wf (seen : bool) (cp : string) : wf (fst (Utf8.output seen cp)).
Proof. unfold Utf8.output. destruct seen; apply wf_idle. Qed.

Lemma output_single_line (seen : bool) (cp : string) :
  single_line cp = true -> single_line (snd (Utf8.output seen cp)) = true.
Proof.
  intros H. unfold Utf8.output. destruct seen; cbn [snd]; [exact H|].
  now destruct (cp =? Utf8.bom).
Qed.

Lemma start_wf (seen : bool) (b : ascii) : wf (fst (Utf8.start seen b)).
Proof.
  unfold Utf8.start.
  destruct (nat_of_ascii b <? 128)%nat; [apply output_wf|].
  destruct ((194 <=? nat_of_ascii b) && (nat_of_ascii b <=? 223))%nat eqn:H2.
  { apply andb_true_iff in H2 as [H2 _]. apply Nat.leb_le in H2.
    split; [apply single_byte, not_LF; lia | cbn; lia]. }
  destruct ((224 <=? nat_of_ascii b) && (nat_of_ascii b <=? 239))%nat eqn:H3.
  { apply andb_true_iff in H3 as [H3 _]. apply Nat.leb_le in H3.
    split; [apply single_byte, not_LF; lia |].
    cbn [fst Utf8.lower]. destruct (nat_of_ascii b =? 224)%nat; lia. }
  destruct ((240 <=? nat_of_ascii b) && (nat_of_ascii b <=? 244))%nat eqn:H4.
  { apply andb_true_iff in H4 as [H4 _]. apply Nat.leb_le in H4.
    split; [apply single_byte, not_LF; lia |].
    cbn [fst Utf8.lower]. destruct (nat_of_ascii b =? 240)%nat; lia. }
  apply output_wf.
Qed.

Lemma start_single_line (seen : bool) (b : ascii) :
  Ascii.eqb b LF = false -> single_line (snd (Utf8.start seen b)) = true.
Proof.
  intros H. unfold Utf8.start.
  destruct (nat_of_ascii b <? 128)%nat; [now apply output_single_line, single_byte|].
  destruct ((194 <=? nat_of_ascii b) && (nat_of_ascii b <=? 223))%nat; [reflexivity|].
  destruct ((224 <=? nat_of_ascii b) && (nat_of_ascii b <=? 239))%nat; [reflexivity|].
  destruct ((240 <=? nat_of_ascii b) && (nat_of_ascii b <=? 244))%nat; [reflexivity|].
  now apply output_single_line.
Qed.

Lemma step_wf (d : Utf8.decoder) (b : ascii) : wf d -> wf (fst (Utf8.step d b)).
Proof.
  intros [Hp Hl]. unfold Utf8.step. destruct (Utf8.needed d) as [|m]; [apply start_wf|].
  destruct ((Utf8.lower d <=? nat_of_ascii b) && (nat_of_ascii b <=? Utf8.upper d))%nat
    eqn:Hc.
  - destruct m; [apply output_wf|].
    apply andb_true_iff in Hc as [Hc _]. apply Nat.leb_le in Hc.
    split; [|cbn; lia]. cbn [fst Utf8.pending].
    rewrite single_line_app, Hp. apply single_byte, not_LF. lia.
  - destruct (Utf8.output (Utf8.bom_seen d) Utf8.replacement) as [d1 o1].
    pose proof (start_wf (Utf8.bom_seen d1) b) as H.
    now destruct (Utf8.start (Utf8.bom_seen d1) b).
Qed.

Lemma step_single_line (d : Utf8.decoder) (b : ascii) :
  wf d -> Ascii.eqb b LF = false -> single_line (snd (Utf8.step d b)) = true.
Proof.
  intros [Hp Hl] Hb. unfold Utf8.step.
  destruct (Utf8.needed d) as [|m]; [now apply start_single_line|].
  destruct ((Utf8.lower d <=? nat_of_ascii b) && (nat_of_ascii b <=? Utf8.upper d))%nat.
  - destruct m; [|reflexivity]. apply output_single_line.
    rewrite single_line_app, Hp. now apply single_byte.
  - pose proof (output_single_line (Utf8.bom_seen d) Utf8.replacement eq_refl) as Ho.
    destruct (Utf8.output (Utf8.bom_seen d) Utf8.replacement) as [d1 o1].
    pose proof (start_single_line (Utf8.bom_seen d1) b Hb) as Hs.
    destruct (Utf8.start (Utf8.bom_seen d1) b) as [d2 o2]. cbn [fst snd] in *.
    now rewrite single_line_app, Ho, Hs.
Qed.

Lemma decode_wf (bytes : string) :
  forall d : Utf8.decoder, wf d -> wf (fst (Utf8.decode d bytes)).
Proof.
  induction bytes as [|b r IH]; intros d Hd; cbn [Utf8.decode]; [exact Hd|].
  pose proof (step_wf d b Hd) as H1.
  destruct (Utf8.step d b) as [d1 o1]. cbn [fst] in H1.
  pose proof (IH d1 H1) as H2.
  now destruct (Utf8.decode d1 r).
Qed.

Lemma decode_single_line (bytes : string) :
  forall d : Utf8.decoder,
    wf d -> single_line bytes = true -> single_line (snd (Utf8.decode d bytes)) = true.
Proof.
  induction bytes as [|b r IH]; intros d Hd Hb; cbn [Utf8.decode]; [reflexivity|].
  cbn [single_line] in Hb. apply andb_true_iff in Hb as [Hb Hr].
  apply negb_true_iff in Hb.
  pose proof (step_wf d b Hd) as H1. pose proof (step_single_line d b Hd Hb) as H2.
  destruct (Utf8.step d b) as [d1 o1]. cbn [fst snd] in *.
  pose proof (IH d1 H1 Hr) as H3.
  destruct (Utf8.decode d1 r) as [d2 o2]. cbn [fst snd] in *.
  now rewrite single_line_app, H2, H3.
Qed.

Lemma wf_TextDecoder : wf Utf8.TextDecoder.
Proof. apply wf_idle. Qed.

(** On ASCII text the decoder changes nothing. *)
Lemma decode_ascii (bytes : string) (seen : bool) :
  forallb (fun b => (nat_of_ascii b <? 128)%nat) (list_ascii_of_string bytes) = true ->
  Utf8.decode_all (Utf8.idle seen) bytes = bytes.
Proof.
  intros H. unfold Utf8.decode_all.
  assert (Hd : forall seen',
             exists d, Utf8.decode (Utf8.idle seen') bytes = (d, bytes)
                       /\ Utf8.needed d = 0).
  { induction bytes as [|b r IH]; intros seen'; [eexists; split; reflexivity|].
    cbn [list_ascii_of_string forallb] in H. apply andb_true_iff in H as [Hb Hr].
    cbn [Utf8.decode]. unfold Utf8.step, Utf8.start.
    cbn [Utf8.needed Utf8.idle Utf8.bom_seen]. rewrite Hb.
    assert (Ho : Utf8.output seen' (String b "") = (Utf8.idle true, String b "")).
    { unfold Utf8.output. destruct seen'; [reflexivity|].
      destruct (String.eqb_spec (String b "") Utf8.bom) as [E|E];
        [discriminate E | reflexivity]. }
    rewrite Ho. destruct (IH Hr true) as (d & Hdec & Hn). rewrite Hdec.
    exists d. split; [reflexivity | exact Hn]. }
  destruct (Hd seen) as (d & Hdec & Hn). rewrite Hdec.
  unfold Utf8.flush. rewrite Hn. apply string_app_nil_r.
Qed.

(** ** llm-client.ts: the read loop *)

Section Stream.

Variable JSON_parse : string -> Completion JSON.

Lemma on_frame_buffer_free (data : JsValue) : buffer_free (on_frame data).
Proof. unfold on_frame. auto 30 with sse. Qed.

Lemma on_line_buffer_free (line : string) : buffer_free (on_line JSON_parse line).
Proof.
  unfold on_line. pose proof on_frame_buffer_free.
  destruct (negb (startsWith line "data: ")); [auto with sse|].
  destruct (line =? "data: [DONE]"); auto with sse.
Qed.

Lemma on_line_settles (line : string) : settles (on_line JSON_parse line).
Proof.
  intros s. unfold on_line.
  destruct (negb (startsWith line "data: ")); [reflexivity|].
  destruct (line =? "data: [DONE]"); [reflexivity|].
  unfold Sse.try_ignore.
  now destruct ((data <- Sse.eval (JSON_parse (slice 6 line)) ;; on_frame (Some data)) s).
Qed.

Lemma for_lines_settles (lines : list string) : settles (for_lines JSON_parse lines).
Proof.
  induction lines as [|l ls IH]; intros s; [reflexivity|].
  cbn. pose proof (on_line_settles l s) as Hl.
  destruct (on_line JSON_parse l s) as [s' r]; cbn in Hl; subst r. apply IH.
Qed.

Lemma for_lines_buffer_free (lines : list string) :
  buffer_free (for_lines JSON_parse lines).
Proof.
  pose proof on_line_buffer_free.
  induction lines as [|l ls IH]; cbn [for_lines]; auto with sse.
Qed.

Lemma for_lines_app (l1 l2 : list string) (s : Sse.Locals) :
  for_lines JSON_parse (l1 ++ l2) s
  = for_lines JSON_parse l2 (fst (for_lines JSON_parse l1 s)).
Proof.
  revert s; induction l1 as [|l ls IH]; intros s; [reflexivity|].
  cbn. pose proof (on_line_settles l s) as Hl.
  destruct (on_line JSON_parse l s) as [s' r]; cbn in Hl; subst r. apply IH.
Qed.

Lemma on_text_eq (text : string) (s : Sse.Locals) :
  on_text JSON_parse text s
  = for_lines JSON_parse (removelast (split LF (Sse.buffer s ++ text)))
      (with_buffer (last (split LF (Sse.buffer s ++ text)) "") s).
Proof. reflexivity. Qed.

Lemma on_text_settles (text : string) : settles (on_text JSON_parse text).
Proof. intros s. rewrite on_text_eq. apply for_lines_settles. Qed.

(** Two texts read one after the other leave the locals that their
    concatenation read at once leaves. *)
Lemma on_text_app (c1 c2 : string) (s : Sse.Locals) :
  on_text JSON_parse c2 (fst (on_text JSON_parse c1 s))
  = on_text JSON_parse (c1 ++ c2) s.
Proof.
  rewrite (on_text_eq (c1 ++ c2)), <- string_app_assoc.
  rewrite (removelast_split_app LF (Sse.buffer s ++ c1) c2).
  rewrite (last_split_app LF (Sse.buffer s ++ c1) c2).
  rewrite (on_text_eq c1).
  set (L1 := removelast (split LF (Sse.buffer s ++ c1))).
  set (b1 := last (split LF (Sse.buffer s ++ c1)) "").
  rewrite for_lines_app, !(for_lines_buffer_free L1 s). cbn [fst].
  rewrite on_text_eq. reflexivity.
Qed.

(** A turn of the loop: the chunk goes through the decoder, the text
    through the lines. *)
Lemma on_chunk_eq (d : Utf8.decoder) (value : string) (s : Sse.Locals) :
  on_chunk JSON_parse d value s
  = (fst (on_text JSON_parse (snd (Utf8.decode d value)) s),
     Normal (fst (Utf8.decode d value))).
Proof.
  unfold on_chunk. destruct (Utf8.decode d value) as [d' text]. cbn [fst snd].
  cbn [bind Sse_Monad]. pose proof (on_text_settles text s) as H.
  destruct (on_text JSON_parse text s) as [s' r]. cbn [snd] in H. subst r.
  reflexivity.
Qed.

Lemma read_loop_cons (c : string) (rest : list string) (e : StreamEnd)
    (d : Utf8.decoder) (s : Sse.Locals) :
  read_loop JSON_parse (c :: rest) e d s
  = read_loop JSON_parse rest e (fst (Utf8.decode d c))
      (fst (on_text JSON_parse (snd (Utf8.decode d c)) s)).
Proof.
  cbn [read_loop]. cbn [bind Sse_Monad]. rewrite on_chunk_eq. reflexivity.
Qed.

Lemma read_loop_nil (e : StreamEnd) (d d' : Utf8.decoder) (s : Sse.Locals) :
  read_loop JSON_parse [] e d s = read_loop JSON_parse [] e d' s.
Proof. reflexivity. Qed.

Lemma read_loop_concat_cons (e : StreamEnd) (cs : list string) :
  forall (c : string) (d : Utf8.decoder) (s : Sse.Locals),
    read_loop JSON_parse (c :: cs) e d s
    = read_loop JSON_parse [c ++ String.concat "" cs] e d s.
Proof.
  induction cs as [|c' cs IH]; intros c d s.
  - cbn [String.concat]. now rewrite string_app_nil_r.
  - rewrite read_loop_cons, IH, !read_loop_cons, concat_cons.
    rewrite (decode_app c (c' ++ String.concat "" cs) d). cbn [fst snd].
    rewrite <- on_text_app. apply read_loop_nil.
Qed.

(** Reading the chunks is reading their concatenation as one chunk. *)
Lemma read_loop_concat (e : StreamEnd) (cs : list string) :
  read_loop JSON_parse cs e Utf8.TextDecoder Sse.init
  = read_loop JSON_parse [String.concat "" cs] e Utf8.TextDecoder Sse.init.
Proof.
  destruct cs as [|c cs].
  - destruct e; reflexivity.
  - now rewrite read_loop_concat_cons, concat_cons.
Qed.

(** When the reads are done the locals are those of the decoded text of
    the stream, read at once. *)
Lemma read_loop_decoded (cs : list string) :
  read_loop JSON_parse cs StreamDone Utf8.TextDecoder Sse.init
  = (fst (on_text JSON_parse (decoded_stream cs) Sse.init), Normal tt).
Proof. rewrite read_loop_concat, read_loop_cons. reflexivity. Qed.

End Stream.

(** ** llm-client.ts: the stream parser *)

(** After the first part of the cut frame nothing is interpreted: the
    part waits in [buffer]. *)
Example split_frame_is_buffered :
  on_chunk JsonText.parse Utf8.TextDecoder Examples.split_first Sse.init
  = (Sse.mkLocals "" None None Examples.split_first, Normal (Utf8.idle true)).
Proof. vm_compute. reflexivity. Qed.

(** C2, on the code.  The dialect-A stream of the mock proxy yields the
    text [Hello world], and no usage at all: the [message_delta] frame
    carries a [usage] object, so the branch for the other dialect assigns
    its missing [prompt_tokens] and [completion_tokens] to both counters. *)
Theorem parseSSEStream_dialectA_usage_lost :
  parseSSEStream JsonText.parse
    (Examples.streamed 200 [String.concat "" Examples.dialectA_frames])
  = Normal (LlmResponse "Hello world" None).
Proof. vm_compute. reflexivity. Qed.

(** Whatever the counters were, a [message_delta] frame with its
    [output_tokens] leaves both undefined. *)
Lemma on_frame_message_delta_clears_usage (n : JSON) (s : Sse.Locals) :
  on_frame (Some (JObj [("type", JStr "message_delta");
                        ("usage", JObj [("output_tokens", n)])])) s
  = (Sse.mkLocals (Sse.content s) None None (Sse.buffer s), Normal tt).
Proof. reflexivity. Qed.

(** Before the [message_delta] frame the input counter is still there. *)
Example parseSSEStream_dialectA_prefix :
  parseSSEStream JsonText.parse
    (Examples.streamed 200 [String.concat "" Examples.dialectA_prefix])
  = Normal (LlmResponse "Hello world" (Some (mkUsage (Some (JNum 10)) None))).
Proof. vm_compute. reflexivity. Qed.

(** ** llm-client.ts: the completion client *)

Lemma get_of_truthy_get_opt (v : JsValue) (k : string) :
  truthy (get_opt v k) = true -> get v k = Normal (get_opt v k).
Proof. destruct v as [[| | | | |]|]; cbn; congruence. Qed.

Lemma try_catch_settles {A : Type} (m : IO A) (h : Thrown -> IO A) :
  (forall e : Thrown, exists a : A, outcome (h e) = Normal a) ->
  exists a : A, outcome (try_catch m h) = Normal a.
Proof.
  intros Hh. destruct m as [t [a|e]]; cbn.
  - now exists a.
  - destruct (Hh e) as [a Ha]. exists a. unfold outcome in Ha.
    destruct (h e) as [t' r]. exact Ha.
Qed.

Section Client.

Variable JSON_parse : string -> Completion JSON.

Lemma read_errorMessage_from_body (response : Response) (errorBody : JSON)
    (e x : JsValue) :
  json JSON_parse response = Normal errorBody ->
  get (Some errorBody) "error" = Normal e ->
  get_opt e "message" = x -> truthy x = true ->
  read_errorMessage JSON_parse response = x.
Proof.
  intros Hj Hg Hm Ht. unfold read_errorMessage. rewrite Hj. cbn [bind Completion_Monad].
  rewrite Hg, Hm, Ht. rewrite get_of_truthy_get_opt; rewrite Hm; [reflexivity | exact Ht].
Qed.

Lemma read_errorMessage_fallback (response : Response) :
  (forall (errorBody : JSON) (e : JsValue),
      json JSON_parse response = Normal errorBody ->
      get (Some errorBody) "error" = Normal e ->
      truthy (get_opt e "message") = false) ->
  read_errorMessage JSON_parse response
  = Some (JStr ("LLM request failed: " ++ string_of_Z (status response))).
Proof.
  intros H. unfold read_errorMessage.
  destruct (json JSON_parse response) as [errorBody|x] eqn:Hj; [|reflexivity].
  cbn [bind Completion_Monad].
  destruct (get (Some errorBody) "error") as [e|x] eqn:Hg; [|reflexivity].
  now rewrite (H errorBody e eq_refl Hg).
Qed.

Lemma read_loop_rejects (e : Thrown) (cs : list string) :
  forall (d : Utf8.decoder) (s : Sse.Locals),
    snd (read_loop JSON_parse cs (StreamError e) d s) = Throw e.
Proof.
  induction cs as [|c cs IH]; intros d s; [reflexivity|].
  rewrite read_loop_cons. apply IH.
Qed.

Lemma parseSSEStream_rejects (st : Z) (cs : list string) (e : Thrown) :
  parseSSEStream JSON_parse (mkResponse st (Some (mkBody cs (StreamError e))))
  = Throw e.
Proof.
  unfold parseSSEStream. cbn [body chunks ending bind Sse_Monad].
  pose proof (read_loop_rejects e cs Utf8.TextDecoder Sse.init) as H.
  destruct (read_loop JSON_parse cs (StreamError e) Utf8.TextDecoder Sse.init) as [s r].
  cbn in H. subst r. reflexivity.
Qed.

Lemma callLlmProxy_catch (error : Thrown) :
  (billing <- lift (isBillingError (Some (JStr (error_message error)))) ;;
   ret (LlmErrorResponse (Some (JStr (error_message error))) billing None)
   : IO LlmResult)
  = ([], Normal (LlmErrorResponse (Some (JStr (error_message error)))
                   (existsb (includes (toLowerCase (error_message error)))
                      billing_keywords) None)).
Proof. now rewrite isBillingError_existsb. Qed.

(** The failures that the completion client captures as it means to.  It
    always returns a result and never throws.  On a response that is not
    2xx the result is a failure that carries the status, whose message is
    the [error.message] of the JSON error body when the body has one (a
    non-empty string; under status 402, any truthy value), and [LLM
    request failed: <status>] when the body does not parse or has none,
    and that is a billing failure exactly when the status is 402 or the
    classifier accepts the message.  When the call itself rejects, or a
    read of the stream rejects, the result is a failure with the message
    of the exception, classified by the classifier alone.  The case left
    out here is a message of the error body that is truthy and no string,
    under a status other than 402. *)
Lemma callLlmProxy_failures_captured (env : Env) (options : LlmRequestOptions) :
  (exists result : LlmResult,
      outcome (callLlmProxy JSON_parse env options) = Normal result)
  /\ (forall response : Response,
         llm_proxy env (request_body options) = FetchResolves response ->
         ok response = false ->
         (forall (errorBody : JSON) (e : JsValue) (m : string),
             json JSON_parse response = Normal errorBody ->
             get (Some errorBody) "error" = Normal e ->
             get_opt e "message" = Some (JStr m) -> m <> "" ->
             exists b : bool,
               isBillingError (Some (JStr m)) = Normal b /\
               outcome (callLlmProxy JSON_parse env options)
               = Normal (LlmErrorResponse (Some (JStr m))
                           ((status response =? 402)%Z || b)
                           (Some (status response))))
         /\ (forall (errorBody : JSON) (e : JsValue),
                json JSON_parse response = Normal errorBody ->
                get (Some errorBody) "error" = Normal e ->
                truthy (get_opt e "message") = true ->
                status response = 402%Z ->
                outcome (callLlmProxy JSON_parse env options)
                = Normal (LlmErrorResponse (get_opt e "message") true (Some 402%Z)))
         /\ ((forall (errorBody : JSON) (e : JsValue),
                 json JSON_parse response = Normal errorBody ->
                 get (Some errorBody) "error" = Normal e ->
                 truthy (get_opt e "message") = false) ->
             exists b : bool,
               isBillingError
                 (Some (JStr ("LLM request failed: " ++ string_of_Z (status response))))
               = Normal b /\
               outcome (callLlmProxy JSON_parse env options)
               = Normal (LlmErrorResponse
                           (Some (JStr ("LLM request failed: "
                                        ++ string_of_Z (status response))))
                           ((status response =? 402)%Z || b)
                           (Some (status response)))))
  /\ (forall e : Thrown,
         llm_proxy env (request_body options) = FetchRejects e ->
         exists b : bool,
           isBillingError (Some (JStr (error_message e))) = Normal b /\
           outcome (callLlmProxy JSON_parse env options)
           = Normal (LlmErrorResponse (Some (JStr (error_message e))) b None))
  /\ (forall (st : Z) (cs : list string) (e : Thrown),
         llm_proxy env (request_body options)
         = FetchResolves (mkResponse st (Some (mkBody cs (StreamError e)))) ->
         ok (mkResponse st (Some (mkBody cs (StreamError e)))) = true ->
         exists b : bool,
           isBillingError (Some (JStr (error_message e))) = Normal b /\
           outcome (callLlmProxy JSON_parse env options)
           = Normal (LlmErrorResponse (Some (JStr (error_message e))) b None)).
Proof.
  split; [|split; [|split]].
  - apply try_catch_settles. intros e. cbv beta zeta. rewrite callLlmProxy_catch.
    eexists; reflexivity.
  - intros response Hf Hok.
    assert (Hrun : forall (x : JsValue) (b : bool),
               read_errorMessage JSON_parse response = x ->
               (if (status response =? 402)%Z then Normal true
                else isBillingError x) = Normal b ->
               outcome (callLlmProxy JSON_parse env options)
               = Normal (LlmErrorResponse x b (Some (status response)))).
    { intros x b Hx Hb. unfold callLlmProxy, fetch_llm. rewrite Hf.
      cbn [bind IO_Monad emit ret]. rewrite Hok. cbv zeta. rewrite Hx.
      cbn [negb]. rewrite Hb. reflexivity. }
    assert (Hstr : forall m : string,
               (if (status response =? 402)%Z then Normal true
                else isBillingError (Some (JStr m)))
               = Normal ((status response =? 402)%Z
                         || existsb (includes (toLowerCase m)) billing_keywords)).
    { intros m. rewrite isBillingError_existsb.
      now destruct (status response =? 402)%Z. }
    split; [|split].
    + intros errorBody e m Hj Hg Hm Hne.
      eexists. split; [apply isBillingError_existsb|].
      apply Hrun; [|apply Hstr].
      apply (read_errorMessage_from_body response errorBody e); auto.
      cbn. destruct m; [congruence | reflexivity].
    + intros errorBody e Hj Hg Ht H402.
      replace (Some 402%Z) with (Some (status response)) by now rewrite H402.
      apply Hrun.
      * now apply (read_errorMessage_from_body response errorBody e).
      * now rewrite H402.
    + intros Hnone. eexists. split; [apply isBillingError_existsb|].
      apply Hrun; [|apply Hstr].
      now apply read_errorMessage_fallback.
  - intros e Hf. eexists. split; [apply isBillingError_existsb|].
    unfold callLlmProxy, fetch_llm. rewrite Hf. hide_handler.
    cbn [bind IO_Monad emit ret throw try_catch]. show_handler.
    rewrite callLlmProxy_catch. reflexivity.
  - intros st cs e Hf Hok. eexists. split; [apply isBillingError_existsb|].
    unfold callLlmProxy, fetch_llm. rewrite Hf. hide_handler.
    cbn [bind IO_Monad emit ret]. rewrite Hok, parseSSEStream_rejects.
    cbn [negb lift try_catch]. show_handler.
    rewrite callLlmProxy_catch. reflexivity.
Qed.

End Client.

(** The four kinds of failure on concrete services: the 402 answer of the
    billing test, a 500 answer with a body that is no JSON, a call that
    rejects and a stream that breaks. *)
Lemma callLlmProxy_failures_captured_witness :
  outcome (callLlmProxy JsonText.parse
             (Examples.service Examples.billing_402 Examples.saved)
             Examples.hello_options)
  = Normal (LlmErrorResponse (Some (JStr "Insufficient credits")) true (Some 402%Z))
  /\ outcome (callLlmProxy JsonText.parse
                (Examples.service Examples.plain_500 Examples.saved)
                Examples.hello_options)
     = Normal (LlmErrorResponse (Some (JStr "LLM request failed: 500")) false
                 (Some 500%Z))
  /\ outcome (callLlmProxy JsonText.parse
                (Examples.service Examples.network_down Examples.saved)
                Examples.hello_options)
     = Normal (LlmErrorResponse (Some (JStr "fetch failed")) false None)
  /\ outcome (callLlmProxy JsonText.parse
                (Examples.service Examples.broken_stream Examples.saved)
                Examples.hello_options)
     = Normal (LlmErrorResponse (Some (JStr "terminated")) false None).
Proof.
  split; [|split; [|split]].
  - destruct (callLlmProxy_failures_captured JsonText.parse
                (Examples.service Examples.billing_402 Examples.saved)
                Examples.hello_options) as (_ & H & _ & _).
    destruct (H _ eq_refl eq_refl) as (Hmsg & _).
    destruct (Hmsg _ _ "Insufficient credits" eq_refl eq_refl eq_refl)
      as (b & Hb & Hout); [discriminate|].
    rewrite Hout. vm_compute in Hb. injection Hb as <-. reflexivity.
  - destruct (callLlmProxy_failures_captured JsonText.parse
                (Examples.service Examples.plain_500 Examples.saved)
                Examples.hello_options) as (_ & H & _ & _).
    destruct (H _ eq_refl eq_refl) as (_ & _ & Hnone).
    destruct Hnone as (b & Hb & Hout).
    + intros errorBody e Hj. vm_compute in Hj. discriminate.
    + rewrite Hout. vm_compute in Hb. injection Hb as <-. reflexivity.
  - destruct (callLlmProxy_failures_captured JsonText.parse
                (Examples.service Examples.network_down Examples.saved)
                Examples.hello_options) as (_ & _ & H & _).
    destruct (H _ eq_refl) as (b & Hb & Hout).
    rewrite Hout. vm_compute in Hb. injection Hb as <-. reflexivity.
  - destruct (callLlmProxy_failures_captured JsonText.parse
                (Examples.service Examples.broken_stream Examples.saved)
                Examples.hello_options) as (_ & _ & _ & H).
    destruct (H _ _ _ eq_refl eq_refl) as (b & Hb & Hout).
    rewrite Hout. vm_compute in Hb. injection Hb as <-. reflexivity.
Defined.

(** C3, on the code.  A response that is not 2xx and not 402, whose JSON
    error body has an [error.message] that is truthy and no string, is not
    returned as the failure of that response: the classifier calls
    [toLowerCase] on the message and throws inside the [try], and the
    [catch] block returns a failure whose message is the text of that
    [TypeError], without the status.  Nothing is thrown past the client. *)
Theorem callLlmProxy_message_not_a_string (JSON_parse : string -> Completion JSON)
    (env : Env) (options : LlmRequestOptions) (response : Response)
    (errorBody : JSON) (e : JsValue) :
  llm_proxy env (request_body options) = FetchResolves response ->
  ok response = false -> status response <> 402%Z ->
  json JSON_parse response = Normal errorBody ->
  get (Some errorBody) "error" = Normal e ->
  truthy (get_opt e "message") = true ->
  is_string (get_opt e "message") = false ->
  outcome (callLlmProxy JSON_parse env options)
  = Normal (LlmErrorResponse
              (Some (JStr "errorMessage.toLowerCase is not a function")) false None).
Proof.
  intros Hf Hok Hst Hj Hg Ht Hs. unfold callLlmProxy, fetch_llm. rewrite Hf.
  hide_handler. cbn [bind IO_Monad emit ret]. rewrite Hok. cbv zeta.
  rewrite (read_errorMessage_from_body JSON_parse response errorBody e _ Hj Hg eq_refl Ht).
  apply Z.eqb_neq in Hst. rewrite Hst. cbn [negb].
  replace (isBillingError (get_opt e "message"))
    with (Throw (TypeError "errorMessage.toLowerCase is not a function")
          : Completion bool).
  - cbn [lift bind IO_Monad try_catch]. show_handler.
    rewrite callLlmProxy_catch. reflexivity.
  - unfold isBillingError. rewrite Ht. cbn [negb].
    destruct (get_opt e "message") as [[| | |m| |]|]; try reflexivity; discriminate.
Qed.

Lemma callLlmProxy_message_not_a_string_witness :
  outcome (callLlmProxy JsonText.parse
             (Examples.service Examples.odd_500 Examples.saved)
             Examples.hello_options)
  = Normal (LlmErrorResponse
              (Some (JStr "errorMessage.toLowerCase is not a function")) false None).
Proof.
  apply (callLlmProxy_message_not_a_string JsonText.parse
           (Examples.service Examples.odd_500 Examples.saved) Examples.hello_options
           (Examples.streamed 500 [JsonText.wire "{'error':{'message':{'code':1}}}"])
           (JObj [("error", JObj [("message", JObj [("code", JNum 1)])])])
           (Some (JObj [("message", JObj [("code", JNum 1)])])));
    try reflexivity.
  discriminate.
Defined.

(** ** respond.ts: delivery *)


Section Delivery.

Variable JSON_parse : string -> Completion JSON.

(** A delivery is one request to the App Server, whatever comes of it. *)
Lemma sendResponse_trace (env : Env) (messageId content : string)
    (metadata : option Metadata) :
  trace (sendResponse JSON_parse env messageId content metadata)
  = [AppFetch ("Bearer " ++ env_text (VM_INTERNAL_SECRET env))
       (mkVmResponseRequest messageId content metadata)].
Proof.
  unfold sendResponse, fetch_app.
  destruct (app_server env _) as [e|response]; [reflexivity|].
  cbn [bind IO_Monad emit ret app].
  destruct (ok response); cbn [negb]; [|reflexivity].
  destruct (json JSON_parse response) as [result|e]; [|reflexivity].
  cbn [lift bind IO_Monad app].
  destruct (get (Some result) "status") as [st|e]; [|reflexivity].
  destruct (eq_str st "saved"); reflexivity.
Qed.


End Delivery.


(** ** monitor.ts: the webhook handler *)

Lemma bind_lift_normal {A B : Type} (a : A) (k : A -> IO B) :
  bind (lift (Normal a)) k = k a.
Proof. cbn. now destruct (k a). Qed.

Lemma total_bytes_nonneg (cs : list string) : (0 <= total_bytes cs)%Z.
Proof. induction cs as [|c cs IH]; cbn [total_bytes]; lia. Qed.

Lemma string_length_app (a b : string) :
  String.length (a ++ b) = (String.length a + String.length b)%nat.
Proof. induction a as [|x a IH]; cbn; [reflexivity | now rewrite IH]. Qed.

Lemma total_bytes_concat (cs : list string) :
  total_bytes cs = Z.of_nat (String.length (String.concat "" cs)).
Proof.
  induction cs as [|c cs IH]; [reflexivity|].
  rewrite concat_cons, string_length_app. cbn [total_bytes]. lia.
Qed.

Section Handler.

Variable JSON_parse : string -> Completion JSON.

(** The [data] listener stops at the chunk that takes the total over the
    cap; the chunks after it are not looked at. *)
Lemma on_data_too_large (maxBytes : Z) (e : StreamEnd) (arriving : list string) :
  forall (acc : list string) (total : Z),
    (total <= maxBytes)%Z -> (total + total_bytes arriving > maxBytes)%Z ->
    on_data JSON_parse maxBytes arriving acc total e
    = ([DestroyRequest], Normal (BodyError "payload too large")).
Proof.
  induction arriving as [|chunk rest IH]; intros acc total Hle Hgt.
  - cbn in Hgt. lia.
  - cbn [on_data]. cbn [total_bytes] in Hgt.
    destruct (total + Z.of_nat (String.length chunk) >? maxBytes)%Z eqn:Hc.
    + reflexivity.
    + apply IH; lia.
Qed.

Lemma on_data_complete (maxBytes : Z) (e : StreamEnd) (arriving : list string) :
  forall (acc : list string) (total : Z),
    (total + total_bytes arriving <= maxBytes)%Z ->
    on_data JSON_parse maxBytes arriving acc total e
    = ([], Normal (match e with
                   | StreamDone => on_end JSON_parse (acc ++ arriving)
                   | StreamError err => BodyError (error_message err)
                   end)).
Proof.
  induction arriving as [|chunk rest IH]; intros acc total Hle.
  - cbn [on_data]. rewrite app_nil_r. destruct e; reflexivity.
  - cbn [on_data]. cbn [total_bytes] in Hle.
    pose proof (total_bytes_nonneg rest).
    destruct (total + Z.of_nat (String.length chunk) >? maxBytes)%Z eqn:Hc; [lia|].
    rewrite IH by lia. now rewrite <- app_assoc.
Qed.

Lemma handler_authenticated_run (env : Env) (req : IncomingMessage) :
  routed req -> authenticated env req ->
  handleFirebaseWebhookRequest JSON_parse env req = handle_body JSON_parse env req.
Proof.
  intros [Hm Hp] (secret & Hs & Hne & Ha).
  unfold handleFirebaseWebhookRequest. rewrite Hm, Hp, Hs, Ha, bind_lift_normal.
  rewrite !String.eqb_refl. cbn [negb orb option_map truthy env_text eq_str].
  rewrite String.eqb_refl.
  destruct secret; [congruence | reflexivity].
Qed.

Lemma handle_body_oversized (env : Env) (req : IncomingMessage) :
  (total_bytes (chunks (payload_stream req)) > MAX_PAYLOAD_BYTES)%Z ->
  handle_body JSON_parse env req
  = ([ReadBody MAX_PAYLOAD_BYTES; DestroyRequest;
      WriteResponse 400 (JObj [("error", JStr "payload too large")])],
     Normal true).
Proof.
  intros Hgt. unfold handle_body, readJsonBody.
  rewrite on_data_too_large; [reflexivity | unfold MAX_PAYLOAD_BYTES; lia | lia].
Qed.

Lemma handle_body_complete (env : Env) (req : IncomingMessage) :
  (total_bytes (chunks (payload_stream req)) <= MAX_PAYLOAD_BYTES)%Z ->
  ending (payload_stream req) = StreamDone ->
  handle_body JSON_parse env req
  = (emit (ReadBody MAX_PAYLOAD_BYTES) ;;
     match on_end JSON_parse (chunks (payload_stream req)) with
     | BodyError error =>
         sendJsonResponse 400 (JObj [("error", JStr error)]) ;; ret true
     | BodyOk value => handle_trigger JSON_parse env value
     end).
Proof.
  intros Hle He. unfold handle_body, readJsonBody.
  rewrite on_data_complete, He by lia. reflexivity.
Qed.

Lemma on_end_empty (cs : list string) :
  trim (Utf8.toString (String.concat "" cs)) = "" ->
  on_end JSON_parse cs = BodyError "empty payload".
Proof. intros H. unfold on_end. now rewrite H. Qed.

Lemma on_end_parsed (cs : list string) :
  trim (Utf8.toString (String.concat "" cs)) <> "" ->
  on_end JSON_parse cs
  = match JSON_parse (Utf8.toString (String.concat "" cs)) with
    | Normal value => BodyOk value
    | Throw err => BodyError (error_message err)
    end.
Proof.
  intros H. unfold on_end.
  destruct (trim (Utf8.toString (String.concat "" cs))); [congruence | reflexivity].
Qed.

(** C6.  The body is read only on the route of the handler and after the
    bearer credential has matched the configured secret.  On that route, a
    server without a secret answers 500 [Server misconfigured], and a
    request whose credential is absent or differs from the secret is
    answered 401 [Unauthorized]; in both cases the answer is all that
    happens. *)
Theorem handler_reads_body_after_auth (env : Env) (req : IncomingMessage) :
  let run := handleFirebaseWebhookRequest JSON_parse env req in
  (existsb is_body_read (trace run) = true -> routed req /\ authenticated env req)
  /\ (routed req ->
      VM_INTERNAL_SECRET env = None \/ VM_INTERNAL_SECRET env = Some "" ->
      run = ([WriteResponse 500 (JObj [("error", JStr "Server misconfigured")])],
             Normal true))
  /\ (routed req ->
      forall secret : string,
        VM_INTERNAL_SECRET env = Some secret -> secret <> "" ->
        authorization req <> Some ("Bearer " ++ secret) ->
        run = ([WriteResponse 401 (JObj [("error", JStr "Unauthorized")])],
               Normal true)).
Proof.
  cbv zeta. unfold handleFirebaseWebhookRequest. split; [|split].
  - destruct (pathname req) as [p|e] eqn:Hp'; [|cbn; discriminate].
    rewrite bind_lift_normal.
    destruct (method req =? "POST") eqn:Hm; [|cbn; discriminate].
    destruct (p =? "/api/message") eqn:Hp; [|cbn; discriminate].
    apply String.eqb_eq in Hm, Hp. subst p. cbn [negb orb].
    destruct (VM_INTERNAL_SECRET env) as [secret|] eqn:Hs; [|cbn; discriminate].
    cbn [option_map truthy env_text eq_str].
    destruct (secret =? "") eqn:Hempty; [cbn; discriminate|]. cbn [negb].
    destruct (authorization req) as [header|] eqn:Ha; [|cbn; discriminate].
    cbn [option_map eq_str].
    destruct (header =? "Bearer " ++ secret) eqn:Hh; [|cbn; discriminate].
    intros _. apply String.eqb_eq in Hh. apply String.eqb_neq in Hempty.
    split; [split; assumption|]. exists secret. now subst header.
  - intros [Hm Hp] Hs. rewrite Hm, Hp, bind_lift_normal, !String.eqb_refl.
    destruct Hs as [-> | ->]; reflexivity.
  - intros [Hm Hp] secret Hs Hne Ha.
    rewrite Hm, Hp, Hs, bind_lift_normal, !String.eqb_refl.
    cbn [negb orb option_map truthy env_text eq_str].
    destruct secret as [|c r]; [congruence|]. cbn [String.eqb negb].
    destruct (authorization req) as [header|]; [|reflexivity].
    cbn [option_map eq_str].
    destruct (header =? "Bearer " ++ String c r) eqn:Hh; [|reflexivity].
    apply String.eqb_eq in Hh. congruence.
Qed.

(** The body errors as the handler writes them.  For an authenticated
    request on the route of the handler: a body of more bytes than the cap
    of 1 MiB ends the read at the chunk that passes the cap, the request
    is destroyed, 400 [payload too large] is written, and no generation
    call is made; a body within the cap whose text is blank is answered
    400 [empty payload]; a body within the cap that [JSON.parse] refuses
    is answered 400 with the message of the parser. *)
Lemma handler_body_errors (env : Env) (req : IncomingMessage) :
  routed req -> authenticated env req ->
  let run := handleFirebaseWebhookRequest JSON_parse env req in
  let payload := payload_stream req in
  let raw := Utf8.toString (String.concat "" (chunks payload)) in
  MAX_PAYLOAD_BYTES = 1048576%Z
  /\ ((total_bytes (chunks payload) > MAX_PAYLOAD_BYTES)%Z ->
      run = ([ReadBody MAX_PAYLOAD_BYTES; DestroyRequest;
              WriteResponse 400 (JObj [("error", JStr "payload too large")])],
             Normal true)
      /\ existsb is_generation (trace run) = false)
  /\ (ending payload = StreamDone ->
      (total_bytes (chunks payload) <= MAX_PAYLOAD_BYTES)%Z ->
      trim raw = "" ->
      run = ([ReadBody MAX_PAYLOAD_BYTES;
              WriteResponse 400 (JObj [("error", JStr "empty payload")])],
             Normal true))
  /\ (ending payload = StreamDone ->
      (total_bytes (chunks payload) <= MAX_PAYLOAD_BYTES)%Z ->
      trim raw <> "" ->
      forall err : Thrown,
        JSON_parse raw = Throw err ->
        run = ([ReadBody MAX_PAYLOAD_BYTES;
                WriteResponse 400 (JObj [("error", JStr (error_message err))])],
               Normal true)).
Proof.
  intros Hr Ha. cbv zeta. rewrite (handler_authenticated_run env req Hr Ha).
  split; [reflexivity|]. split; [|split].
  - intros Hgt. rewrite handle_body_oversized by exact Hgt. split; reflexivity.
  - intros He Hle Hblank. rewrite handle_body_complete by assumption.
    rewrite on_end_empty by exact Hblank. reflexivity.
  - intros He Hle Hne err Hp. rewrite handle_body_complete by assumption.
    rewrite on_end_parsed, Hp by exact Hne. reflexivity.
Qed.

(** C7, on the code.  An authenticated request whose body has more bytes
    than the cap of 1 MiB is not answered 400: the read ends at the chunk
    that passes the cap and no generation call is made, but the listener
    destroys the request before the handler writes 400 [payload too
    large], and an answer written to a destroyed request does not reach
    the client. *)
Theorem handler_oversized_answer_lost (env : Env) (req : IncomingMessage) :
  routed req -> authenticated env req ->
  (total_bytes (chunks (payload_stream req)) > MAX_PAYLOAD_BYTES)%Z ->
  let run := handleFirebaseWebhookRequest JSON_parse env req in
  run = ([ReadBody 1048576; DestroyRequest;
          WriteResponse 400 (JObj [("error", JStr "payload too large")])],
         Normal true)
  /\ received (trace run) = []
  /\ existsb is_generation (trace run) = false.
Proof.
  intros Hr Ha Hgt. cbv zeta. rewrite (handler_authenticated_run env req Hr Ha).
  rewrite handle_body_oversized by exact Hgt. repeat split.
Qed.

End Handler.

(** The two unauthorized requests of the integration tests, and a server
    without a secret. *)
Lemma handler_reads_body_after_auth_witness :
  handleFirebaseWebhookRequest JsonText.parse
    (Examples.service Examples.network_down Examples.saved)
    (Examples.request None Examples.hello_body)
  = ([WriteResponse 401 (JObj [("error", JStr "Unauthorized")])], Normal true)
  /\ handleFirebaseWebhookRequest JsonText.parse
       (Examples.service Examples.network_down Examples.saved)
       (Examples.request (Some "Bearer wrong_secret") Examples.hello_body)
     = ([WriteResponse 401 (JObj [("error", JStr "Unauthorized")])], Normal true)
  /\ handleFirebaseWebhookRequest JsonText.parse Examples.unconfigured
       (Examples.request Examples.bearer Examples.hello_body)
     = ([WriteResponse 500 (JObj [("error", JStr "Server misconfigured")])],
        Normal true).
Proof.
  split; [|split].
  - destruct (handler_reads_body_after_auth JsonText.parse
                (Examples.service Examples.network_down Examples.saved)
                (Examples.request None Examples.hello_body)) as (_ & _ & H).
    apply (H (conj eq_refl eq_refl) "sec_test" eq_refl); discriminate.
  - destruct (handler_reads_body_after_auth JsonText.parse
                (Examples.service Examples.network_down Examples.saved)
                (Examples.request (Some "Bearer wrong_secret") Examples.hello_body))
      as (_ & _ & H).
    apply (H (conj eq_refl eq_refl) "sec_test" eq_refl); discriminate.
  - destruct (handler_reads_body_after_auth JsonText.parse Examples.unconfigured
                (Examples.request Examples.bearer Examples.hello_body))
      as (_ & H & _).
    apply (H (conj eq_refl eq_refl)). left. reflexivity.
Defined.

Lemma examples_authenticated (chunks : list string) :
  authenticated (Examples.service Examples.network_down Examples.saved)
    (Examples.request Examples.bearer chunks).
Proof. exists "sec_test". repeat split. discriminate. Defined.

(** A body of 1025 KiB, an empty body and a body that is no JSON. *)
Lemma handler_oversized_answer_lost_witness :
  handleFirebaseWebhookRequest JsonText.parse
    (Examples.service Examples.network_down Examples.saved)
    (Examples.request Examples.bearer Examples.oversized)
  = ([ReadBody 1048576; DestroyRequest;
      WriteResponse 400 (JObj [("error", JStr "payload too large")])],
     Normal true)
  /\ received
       (trace (handleFirebaseWebhookRequest JsonText.parse
                 (Examples.service Examples.network_down Examples.saved)
                 (Examples.request Examples.bearer Examples.oversized)))
     = [].
Proof.
  destruct (handler_oversized_answer_lost JsonText.parse
              (Examples.service Examples.network_down Examples.saved)
              (Examples.request Examples.bearer Examples.oversized)
              (conj eq_refl eq_refl) (examples_authenticated _))
    as (H1 & H2 & _).
  - vm_compute. reflexivity.
  - split; [exact H1 | exact H2].
Defined.

(** The other body errors are answered: a body without text, a body that
    is only a byte order mark or a no-break space, and a body that is no
    JSON. *)
Example handler_blank_and_malformed :
  handleFirebaseWebhookRequest JsonText.parse
    (Examples.service Examples.network_down Examples.saved)
    (Examples.request Examples.bearer [])
  = ([ReadBody 1048576;
      WriteResponse 400 (JObj [("error", JStr "empty payload")])],
     Normal true)
  /\ handleFirebaseWebhookRequest JsonText.parse
       (Examples.service Examples.network_down Examples.saved)
       (Examples.request Examples.bearer [Utf8.bom])
     = ([ReadBody 1048576;
         WriteResponse 400 (JObj [("error", JStr "empty payload")])],
        Normal true)
  /\ handleFirebaseWebhookRequest JsonText.parse
       (Examples.service Examples.network_down Examples.saved)
       (Examples.request Examples.bearer [Examples.no_break_space])
     = ([ReadBody 1048576;
         WriteResponse 400 (JObj [("error", JStr "empty payload")])],
        Normal true)
  /\ handleFirebaseWebhookRequest JsonText.parse
       (Examples.service Examples.network_down Examples.saved)
       (Examples.request Examples.bearer ["{bad"])
     = ([ReadBody 1048576;
         WriteResponse 400 (JObj [("error", JStr "Unexpected token in JSON")])],
        Normal true).
Proof.
  split; [|split; [|split]].
  - destruct (handler_body_errors JsonText.parse
                (Examples.service Examples.network_down Examples.saved)
                (Examples.request Examples.bearer [])
                (conj eq_refl eq_refl) (examples_authenticated _))
      as (_ & _ & H & _).
    apply H; [reflexivity | vm_compute; discriminate | reflexivity].
  - destruct (handler_body_errors JsonText.parse
                (Examples.service Examples.network_down Examples.saved)
                (Examples.request Examples.bearer [Utf8.bom])
                (conj eq_refl eq_refl) (examples_authenticated _))
      as (_ & _ & H & _).
    apply H; [reflexivity | vm_compute; discriminate | reflexivity].
  - destruct (handler_body_errors JsonText.parse
                (Examples.service Examples.network_down Examples.saved)
                (Examples.request Examples.bearer [Examples.no_break_space])
                (conj eq_refl eq_refl) (examples_authenticated _))
      as (_ & _ & H & _).
    apply H; [reflexivity | vm_compute; discriminate | reflexivity].
  - destruct (handler_body_errors JsonText.parse
                (Examples.service Examples.network_down Examples.saved)
                (Examples.request Examples.bearer ["{bad"])
                (conj eq_refl eq_refl) (examples_authenticated _))
      as (_ & _ & _ & H).
    refine (H eq_refl _ _ (SyntaxError "Unexpected token in JSON") eq_refl);
      vm_compute; discriminate.
Qed.

(** ** monitor.ts: the background task *)

Lemma bind_normal {A B : Type} (m : IO A) (k : A -> IO B) (t : list Event) (a : A) :
  m = (t, Normal a) -> bind m k = ((t ++ trace (k a))%list, outcome (k a)).
Proof. intros ->. cbn. now destruct (k a). Qed.

Lemma get_not_null (value : JSON) (k : string) :
  value <> JNull -> get (Some value) k = Normal (get_opt (Some value) k).
Proof. intros H. destruct value; try reflexivity. congruence. Qed.

Section Task.

Variable JSON_parse : string -> Completion JSON.

(** The completion client makes one call and returns a result. *)
Lemma callLlmProxy_run (env : Env) (options : LlmRequestOptions) :
  exists result : LlmResult,
    callLlmProxy JSON_parse env options
    = ([LlmFetch ("Bearer " ++ env_text (LLM_PROXY_API_KEY env)) (request_body options)],
       Normal result).
Proof.
  unfold callLlmProxy, fetch_llm.
  destruct (llm_proxy env (request_body options)) as [e|response]; hide_handler.
  - cbn [bind IO_Monad emit ret throw try_catch]. show_handler.
    rewrite callLlmProxy_catch. eexists; reflexivity.
  - cbn [bind IO_Monad emit ret app].
    destruct (negb (ok response)).
    + destruct (if (status response =? 402)%Z then Normal true
                else isBillingError (read_errorMessage JSON_parse response))
        as [b|e]; cbn [lift bind IO_Monad app try_catch ret].
      * eexists; reflexivity.
      * show_handler. rewrite callLlmProxy_catch. eexists; reflexivity.
    + destruct (parseSSEStream JSON_parse response) as [r|e];
        cbn [lift try_catch].
      * eexists; reflexivity.
      * show_handler. rewrite callLlmProxy_catch. eexists; reflexivity.
Qed.

(** The background task after its generation call has returned [result]. *)
Lemma processMessage_run (env : Env) (request : Trigger.t) (history : list JSON)
    (result : LlmResult) :
  let options :=
    mkLlmRequestOptions None None
      (history ++ [JObj [("role", JStr "user");
                         ("content", JStr (Trigger.text request))]]) in
  let sent := send_result JSON_parse env (Trigger.messageId request) result in
  spread (if truthy (Trigger.conversationHistory request)
          then Trigger.conversationHistory request else Some (JArr []))
  = Normal history ->
  outcome (callLlmProxy JSON_parse env options) = Normal result ->
  processMessage JSON_parse env request
  = (LlmFetch ("Bearer " ++ env_text (LLM_PROXY_API_KEY env)) (request_body options)
       :: trace sent,
     outcome sent).
Proof.
  intros options sent Hs Hr. unfold processMessage. rewrite Hs.
  destruct (callLlmProxy_run env options) as [result' Hrun].
  rewrite Hrun in Hr. cbn in Hr. injection Hr as ->.
  cbn [lift bind IO_Monad app].
  change (callLlmProxy JSON_parse env _) with (callLlmProxy JSON_parse env options).
  rewrite Hrun. fold sent. now destruct sent.
Qed.

(** A call of [send_result] is one delivery attempt. *)
Lemma send_result_trace (env : Env) (messageId : string) (result : LlmResult) :
  exists payload : VmResponseRequest,
    trace (send_result JSON_parse env messageId result)
    = [AppFetch ("Bearer " ++ env_text (VM_INTERNAL_SECRET env)) payload].
Proof.
  destruct result as [content usage | error [|] statusCode];
    unfold send_result, sendBillingErrorResponse, sendErrorResponse;
    rewrite sendResponse_trace; eexists; reflexivity.
Qed.

(** C10.  When the generation call of a trigger succeeds, the task makes
    the generation call with the default model [claude-haiku-4-5-20251001]
    and then one delivery, whose metadata names the model
    [claude-sonnet-4-20250514] and carries as [tokens] the [outputTokens]
    of the result ([undefined] when the result has no usage). *)
Theorem processMessage_reply_metadata (env : Env) (request : Trigger.t)
    (history : list JSON) (content : string) (usage : option Usage) :
  spread (if truthy (Trigger.conversationHistory request)
          then Trigger.conversationHistory request else Some (JArr []))
  = Normal history ->
  outcome (callLlmProxy JSON_parse env
             (mkLlmRequestOptions None None
                (history ++ [JObj [("role", JStr "user");
                                   ("content", JStr (Trigger.text request))]])))
  = Normal (LlmResponse content usage) ->
  trace (processMessage JSON_parse env request)
  = [LlmFetch ("Bearer " ++ env_text (LLM_PROXY_API_KEY env))
       (mkLlmRequestBody "claude-haiku-4-5-20251001" 4096
          (history ++ [JObj [("role", JStr "user");
                             ("content", JStr (Trigger.text request))]]) true);
     AppFetch ("Bearer " ++ env_text (VM_INTERNAL_SECRET env))
       (mkVmResponseRequest (Trigger.messageId request) content
          (Some (mkMetadata None None (Some "claude-sonnet-4-20250514")
                   (match usage with
                    | Some u => outputTokens u
                    | None => None
                    end))))].
Proof.
  intros Hs Hr. rewrite (processMessage_run env request history _ Hs Hr).
  cbn [trace fst send_result]. change (fst ?m) with (trace m).
  rewrite sendResponse_trace. reflexivity.
Qed.

(** Every trigger whose history can be spread causes one delivery attempt,
    whatever the generation call returns. *)
Lemma processMessage_delivers_once (env : Env) (request : Trigger.t)
    (history : list JSON) :
  spread (if truthy (Trigger.conversationHistory request)
          then Trigger.conversationHistory request else Some (JArr []))
  = Normal history ->
  exists payload : VmResponseRequest,
    deliveries (trace (processMessage JSON_parse env request)) = [payload].
Proof.
  intros Hs.
  destruct (callLlmProxy_run env
              (mkLlmRequestOptions None None
                 (history ++ [JObj [("role", JStr "user");
                                    ("content", JStr (Trigger.text request))]])))
    as [result Hrun].
  rewrite (processMessage_run env request history result Hs)
    by (rewrite Hrun; reflexivity).
  destruct (send_result_trace env (Trigger.messageId request) result)
    as [payload Hsent].
  exists payload. cbn [trace fst]. change (fst ?m) with (trace m).
  rewrite Hsent. reflexivity.
Qed.

End Task.

(** A dialect-B reply of two fragments with 4 completion tokens. *)
Lemma processMessage_reply_metadata_witness :
  trace (processMessage JsonText.parse
           (Examples.service Examples.dialectB Examples.saved) Examples.trigger)
  = [LlmFetch "Bearer pxy_test"
       (mkLlmRequestBody "claude-haiku-4-5-20251001" 4096
          [JObj [("role", JStr "user"); ("content", JStr "Hello AI")]] true);
     AppFetch "Bearer sec_test"
       (mkVmResponseRequest "test4" "Hi there"
          (Some (mkMetadata None None (Some "claude-sonnet-4-20250514")
                   (Some (JNum 4)))))].
Proof.
  apply (processMessage_reply_metadata JsonText.parse
           (Examples.service Examples.dialectB Examples.saved) Examples.trigger
           [] "Hi there" (Some (mkUsage (Some (JNum 3)) (Some (JNum 4))))).
  - reflexivity.
  - vm_compute. reflexivity.
Defined.

(** C1, on the code.  A valid request whose generation stream carries no
    text is acknowledged, and the task then delivers the empty content: one
    delivery attempt is made where the specification has none. *)
Theorem handler_delivers_empty_content :
  handleFirebaseWebhookRequest JsonText.parse
    (Examples.service Examples.silent Examples.saved)
    (Examples.request Examples.bearer Examples.valid_body)
  = ([ReadBody 1048576;
      WriteResponse 200 (JObj [("status", JStr "processing")]);
      LlmFetch "Bearer pxy_test"
        (mkLlmRequestBody "claude-haiku-4-5-20251001" 4096
           [JObj [("role", JStr "user"); ("content", JStr "Hello AI")]] true);
      AppFetch "Bearer sec_test"
        (mkVmResponseRequest "test4" ""
           (Some (mkMetadata None None (Some "claude-sonnet-4-20250514") None)))],
     Normal true).
Proof. vm_compute. reflexivity. Qed.

(** The later revision of the task has the guard: an agent run that
    accumulates no text makes no delivery. *)
Lemma agent_silent_turn (JSON_parse : string -> Completion JSON) (env : Env)
    (rt : AgentMonitor.PluginRuntime) (request : Trigger.t) (blocks : list JsValue) :
  AgentMonitor.dispatchReplyFromConfig rt request = (blocks, Normal tt) ->
  AgentMonitor.deliver blocks "" = "" ->
  AgentMonitor.processMessage JSON_parse env (Some rt) request = ([], Normal tt).
Proof.
  intros Hd He. unfold AgentMonitor.processMessage. rewrite Hd, He. reflexivity.
Qed.

Example agent_silent_turn_quiet :
  AgentMonitor.processMessage JsonText.parse
    (Examples.service Examples.silent Examples.saved)
    (Some Examples.quiet_agent) Examples.trigger
  = ([], Normal tt).
Proof. now apply (agent_silent_turn _ _ _ _ []). Qed.

(** In that revision a delivery that fails is followed by a second
    attempt, made by the [catch] block. *)
Example agent_second_attempt :
  deliveries (trace (AgentMonitor.processMessage JsonText.parse
                       (Examples.service Examples.silent Examples.not_found)
                       (Some Examples.hi_agent) Examples.trigger))
  = [mkVmResponseRequest "test4" "Hi" (Some (mkMetadata None None None None));
     mkVmResponseRequest "test4" "Sorry, something went wrong. Please try again."
       (Some (mkMetadata (Some "error") None None None))].
Proof. vm_compute. reflexivity. Qed.

(** ** monitor.ts: validation of the parsed body *)

Section Validation.

Variable JSON_parse : string -> Completion JSON.

(** A parsed body other than [null] with an invalid field is answered 400,
    with the name of the first invalid field, and nothing else happens. *)
Lemma handle_trigger_invalid (env : Env) (value : JSON) :
  value <> JNull ->
  (non_empty_string (get_opt (Some value) "messageId") = false ->
   handle_trigger JSON_parse env value
   = ([WriteResponse 400 (JObj [("error", JStr "Missing or invalid messageId")])],
      Normal true))
  /\ (non_empty_string (get_opt (Some value) "messageId") = true ->
      non_empty_string (get_opt (Some value) "text") = false ->
      handle_trigger JSON_parse env value
      = ([WriteResponse 400 (JObj [("error", JStr "Missing or invalid text")])],
         Normal true)).
Proof.
  intros Hnull. unfold handle_trigger, non_empty_string.
  rewrite !(get_not_null value) by exact Hnull.
  cbn [lift bind IO_Monad app].
  destruct (truthy (get_opt (Some value) "messageId"));
    destruct (is_string (get_opt (Some value) "messageId"));
    cbn [negb orb andb]; (split; [intros H | intros H1 H2]);
    try discriminate; try reflexivity.
  cbn [lift bind IO_Monad app].
  destruct (truthy (get_opt (Some value) "text"));
    destruct (is_string (get_opt (Some value) "text"));
    cbn [negb orb andb] in *; try discriminate; reflexivity.
Qed.

(** On the body [null] the read of [messageId] throws: the handler rejects
    and writes no answer. *)
Lemma handle_trigger_null (env : Env) :
  handle_trigger JSON_parse env JNull
  = ([], Throw (TypeError "Cannot read properties of null (reading 'messageId')")).
Proof. reflexivity. Qed.

End Validation.

(** The two invalid requests of the integration tests. *)
Example handler_missing_fields :
  handleFirebaseWebhookRequest JsonText.parse
    (Examples.service Examples.silent Examples.saved)
    (Examples.request Examples.bearer [JsonText.wire "{'text':'Hello'}"])
  = ([ReadBody 1048576;
      WriteResponse 400 (JObj [("error", JStr "Missing or invalid messageId")])],
     Normal true)
  /\ handleFirebaseWebhookRequest JsonText.parse
       (Examples.service Examples.silent Examples.saved)
       (Examples.request Examples.bearer [JsonText.wire "{'messageId':'test5'}"])
     = ([ReadBody 1048576;
         WriteResponse 400 (JObj [("error", JStr "Missing or invalid text")])],
        Normal true).
Proof. split; vm_compute; reflexivity. Qed.

(** C8, on the code.  An authenticated request whose body is the JSON text
    [null] is read and parsed, and the validation then throws a
    [TypeError]: the handler rejects and the 400 answer that names
    [messageId] is not written. *)
Theorem handler_null_body_throws :
  handleFirebaseWebhookRequest JsonText.parse
    (Examples.service Examples.silent Examples.saved)
    (Examples.request Examples.bearer ["null"])
  = ([ReadBody 1048576],
     Throw (TypeError "Cannot read properties of null (reading 'messageId')")).
Proof. vm_compute. reflexivity. Qed.

(** * Further properties *)

(** ** llm-client.ts: the frames of a stream *)

Lemma get_truthy (v : JsValue) (k : string) :
  truthy v = true -> get v k = Normal (get_opt v k).
Proof. destruct v as [[| | | | |]|]; cbn; intros H; try discriminate H; reflexivity. Qed.

Lemma index0_truthy (v : JsValue) :
  truthy v = true -> index0 v = Normal (index0_opt v).
Proof. destruct v as [[| | | | |]|]; cbn; intros H; try discriminate H; reflexivity. Qed.

Lemma truthy_get_opt (v : JsValue) (k : string) :
  truthy (get_opt v k) = true -> truthy v = true.
Proof. destruct v as [[| | | | |]|]; cbn; intros H; try discriminate H; reflexivity. Qed.

Lemma truthy_index0_opt (v : JsValue) :
  truthy (index0_opt v) = true -> truthy v = true.
Proof. destruct v as [[| | |[|c s]|[|x l]|]|]; cbn; intros H; try discriminate H; reflexivity. Qed.

(** An object frame, in closed form. *)
Lemma on_frame_object (fields : list (string * JSON)) (s : Sse.Locals) :
  on_frame (Some (JObj fields)) s
  = (Sse.mkLocals (Sse.content s ++ frame_text fields)
       (frame_inputTokens fields (Sse.inputTokens s))
       (frame_outputTokens fields (Sse.outputTokens s))
       (Sse.buffer s),
     Normal tt).
Proof.
  unfold on_frame, frame_text, frame_inputTokens, frame_outputTokens.
  cbn [get bind Completion_Monad ret].
  generalize (lookup "type" fields) as ty.
  generalize (lookup "delta" fields) as delta.
  generalize (lookup "usage" fields) as usage.
  generalize (lookup "message" fields) as message.
  generalize (lookup "choices" fields) as choices.
  intros choices message usage delta ty.
  destruct s as [content inT outT buf].
  cbn [Sse.content Sse.inputTokens Sse.outputTokens Sse.buffer].
  destruct (truthy (get_opt delta "text")) eqn:Hd;
    [rewrite (get_truthy delta "text") by (eapply truthy_get_opt; eassumption)|];
  (destruct (truthy usage) eqn:Hu; [rewrite !(get_truthy usage) by assumption|]);
  (destruct (truthy (get_opt message "usage")) eqn:Hm;
    [rewrite (get_truthy message "usage") by (eapply truthy_get_opt; eassumption);
     rewrite (get_truthy (get_opt message "usage")) by assumption|]);
  (destruct (truthy (get_opt (get_opt (index0_opt choices) "delta") "content")) eqn:Hc;
    [pose proof (truthy_get_opt _ _ Hc) as Hc1;
     pose proof (truthy_get_opt _ _ Hc1) as Hc2;
     pose proof (truthy_index0_opt _ Hc2) as Hc3;
     rewrite (index0_truthy choices), (get_truthy (index0_opt choices) "delta"),
       (get_truthy (get_opt (index0_opt choices) "delta") "content") by assumption|]);
  (destruct ty as [[|[|]|n|t| |]|]; cbn [eq_str truthy];
   [ | | | destruct (n =? 0)%Z
     | destruct (String.eqb_spec t "content_block_delta") as [->|];
       [|destruct (String.eqb_spec t "message_delta") as [->|];
         [|destruct (String.eqb_spec t "message_start") as [->|];
           [|destruct (t =? "")]]]
     | | | ]);
  cbn; rewrite ?string_app_nil_r, ?string_app_assoc; reflexivity.
Qed.

Lemma on_frame_not_object (v : JSON) (s : Sse.Locals) :
  (forall fields, v <> JObj fields) ->
  fst (on_frame (Some v) s) = s.
Proof.
  intros Hv. destruct s. destruct v; try reflexivity. now destruct (Hv fields).
Qed.

Section Frames.

Variable JSON_parse : string -> Completion JSON.

Lemma on_line_frame (line : string) (s : Sse.Locals) :
  on_line JSON_parse line s
  = (match line_fields JSON_parse line with
     | Some fields => apply_frame fields s
     | None => s
     end, Normal tt).
Proof.
  unfold on_line, line_fields.
  destruct (negb (startsWith line "data: ")); [reflexivity|].
  destruct (line =? "data: [DONE]"); [reflexivity|].
  unfold Sse.try_ignore. cbn [bind Sse_Monad Sse.eval].
  destruct (JSON_parse (slice 6 line)) as [v|e]; [|reflexivity].
  destruct v; try (rewrite on_frame_object; reflexivity);
    destruct s; reflexivity.
Qed.

Lemma for_lines_frames (lines : list string) (s : Sse.Locals) :
  for_lines JSON_parse lines s
  = (fold_left (fun st fields => apply_frame fields st) (frames_of JSON_parse lines) s,
     Normal tt).
Proof.
  revert s; induction lines as [|l ls IH]; intros s; [reflexivity|].
  cbn [for_lines frames_of]. cbn [bind Sse_Monad]. rewrite on_line_frame, IH.
  destruct (line_fields JSON_parse l); reflexivity.
Qed.

End Frames.

Lemma split_line (l rest : string) :
  single_line l = true -> split LF (l ++ nl ++ rest) = l :: split LF rest.
Proof.
  induction l as [|c r IH]; intros Hl.
  - cbn. reflexivity.
  - cbn [single_line] in Hl. apply andb_true_iff in Hl as [Hc Hr].
    cbn [append split]. apply negb_true_iff in Hc. rewrite Hc, (IH Hr). reflexivity.
Qed.

Lemma split_join_lines (lines : list string) :
  forallb single_line lines = true ->
  split LF (join_lines lines) = (lines ++ [""])%list.
Proof.
  induction lines as [|l ls IH]; intros H; [reflexivity|].
  cbn [forallb] in H. apply andb_true_iff in H as [Hl Hls].
  cbn [join_lines]. rewrite split_line, IH by assumption. reflexivity.
Qed.

Lemma split_single_line (tail : string) :
  single_line tail = true -> split LF tail = [tail].
Proof.
  induction tail as [|c r IH]; intros H; [reflexivity|].
  cbn [single_line] in H. apply andb_true_iff in H as [Hc Hr].
  apply negb_true_iff in Hc. cbn [split]. now rewrite Hc, (IH Hr).
Qed.

Lemma split_join_tail (lines : list string) (tail : string) :
  forallb single_line lines = true -> single_line tail = true ->
  split LF (join_lines lines ++ tail) = (lines ++ [tail])%list.
Proof.
  intros Hl Ht. induction lines as [|l ls IH].
  - cbn. now apply split_single_line.
  - cbn [forallb] in Hl. apply andb_true_iff in Hl as [Hl Hls].
    cbn [join_lines]. rewrite !string_app_assoc, split_line, IH by assumption.
    reflexivity.
Qed.

Lemma single_line_last_split (s : string) :
  single_line (last (split LF s) "") = true.
Proof.
  induction s as [|c r IH]; [reflexivity|].
  pose proof (split_not_nil LF r) as Hr. cbn [split].
  destruct (Ascii.eqb c LF) eqn:Hc.
  - now rewrite last_cons.
  - destruct (split LF r) as [|l [|x t]]; [congruence| |].
    + cbn [last] in *. cbn [single_line]. now rewrite Hc, IH.
    + exact IH.
Qed.

Lemma fold_apply_frame_with_buffer (frames : list (list (string * JSON)))
    (b : string) (s : Sse.Locals) :
  fold_left (fun st fields => apply_frame fields st) frames (with_buffer b s)
  = with_buffer b (fold_left (fun st fields => apply_frame fields st) frames s).
Proof.
  revert s; induction frames as [|f fs IH]; intros s; [reflexivity|].
  cbn [fold_left]. rewrite <- IH. reflexivity.
Qed.

Lemma fold_apply_frame_content (frames : list (list (string * JSON))) (s : Sse.Locals) :
  Sse.content (fold_left (fun st fields => apply_frame fields st) frames s)
  = Sse.content s ++ String.concat "" (map frame_text frames).
Proof.
  revert s; induction frames as [|f fs IH]; intros s.
  - cbn. now rewrite string_app_nil_r.
  - cbn [fold_left map]. rewrite IH, concat_cons.
    cbn [apply_frame Sse.content]. now rewrite string_app_assoc.
Qed.

Lemma fold_apply_frame_buffer (frames : list (list (string * JSON))) (s : Sse.Locals) :
  Sse.buffer (fold_left (fun st fields => apply_frame fields st) frames s)
  = Sse.buffer s.
Proof.
  revert s; induction frames as [|f fs IH]; intros s; [reflexivity|].
  cbn [fold_left]. now rewrite IH.
Qed.

Section Streams.

Variable JSON_parse : string -> Completion JSON.

(** The remainder of the buffer, once the stream is done. *)
Lemma on_remaining_frame (s : Sse.Locals) :
  on_remaining JSON_parse s
  = (match line_fields JSON_parse (Sse.buffer s) with
     | Some fields =>
         Sse.mkLocals (Sse.content s ++ remainder_text fields) (Sse.inputTokens s)
           (Sse.outputTokens s) (Sse.buffer s)
     | None => s
     end, Normal tt).
Proof.
  unfold on_remaining, line_fields.
  destruct (startsWith (Sse.buffer s) "data: "); cbn [negb andb]; [|reflexivity].
  destruct (Sse.buffer s =? "data: [DONE]") eqn:Hdone; cbn [negb]; [reflexivity|].
  unfold Sse.try_ignore. cbn [bind Sse_Monad Sse.eval].
  destruct (JSON_parse (slice 6 (Sse.buffer s))) as [v|e]; [|reflexivity].
  destruct v; try (destruct s; reflexivity).
  unfold remainder_text. cbn [get bind Completion_Monad ret].
  generalize (lookup "delta" fields) as delta.
  generalize (lookup "choices" fields) as choices.
  intros choices delta. destruct s as [content inT outT buf].
  cbn [Sse.content Sse.inputTokens Sse.outputTokens Sse.buffer].
  destruct (truthy (get_opt delta "text")) eqn:Hd;
    [rewrite (get_truthy delta "text") by (eapply truthy_get_opt; eassumption)|];
  (destruct (truthy (get_opt (get_opt (index0_opt choices) "delta") "content")) eqn:Hc;
    [pose proof (truthy_get_opt _ _ Hc) as Hc1;
     pose proof (truthy_get_opt _ _ Hc1) as Hc2;
     pose proof (truthy_index0_opt _ Hc2) as Hc3;
     rewrite (index0_truthy choices), (get_truthy (index0_opt choices) "delta"),
       (get_truthy (get_opt (index0_opt choices) "delta") "content") by assumption|]);
  cbn; rewrite ?string_app_nil_r, ?string_app_assoc; reflexivity.
Qed.

(** The locals when the reads are done, for a stream whose text is whole
    lines followed by an unfinished one. *)
Lemma read_lines (cs lines : list string) (tail : string) :
  split LF (decoded_stream cs) = (lines ++ [tail])%list ->
  read_loop JSON_parse cs StreamDone Utf8.TextDecoder Sse.init
  = (with_buffer tail
       (fold_left (fun s fields => apply_frame fields s) (frames_of JSON_parse lines)
          Sse.init),
     Normal tt).
Proof.
  intros Hs. rewrite read_loop_decoded, on_text_eq. cbn [Sse.buffer Sse.init append].
  rewrite Hs, removelast_last, last_last, for_lines_frames. cbn [fst].
  rewrite fold_apply_frame_with_buffer. reflexivity.
Qed.

(** The result of a stream that ends normally, from the lines of its
    text. *)
Lemma parseSSEStream_lines (st : Z) (cs lines : list string) (tail : string) :
  split LF (decoded_stream cs) = (lines ++ [tail])%list ->
  parseSSEStream JSON_parse (mkResponse st (Some (mkBody cs StreamDone)))
  = Normal (lines_result JSON_parse lines tail).
Proof.
  intros Hs. unfold parseSSEStream, lines_result. cbn [body chunks ending].
  cbn [bind Sse_Monad]. rewrite (read_lines cs lines tail Hs).
  rewrite on_remaining_frame. cbn [Sse.buffer with_buffer].
  pose proof (fold_apply_frame_content (frames_of JSON_parse lines) Sse.init) as Hc.
  cbn [Sse.content Sse.init append] in Hc.
  destruct (line_fields JSON_parse tail) as [fields|];
    cbn [bind Completion_Monad Sse.content Sse.inputTokens Sse.outputTokens];
    unfold usage_of, with_buffer;
    cbn [Sse.content Sse.inputTokens Sse.outputTokens];
    rewrite Hc, ?string_app_nil_r; reflexivity.
Qed.

Lemma split_removelast_last (text : string) :
  split LF text
  = (removelast (split LF text) ++ [last (split LF text) ""])%list.
Proof. apply app_removelast_last, split_not_nil. Qed.

End Streams.



(** A frame cut inside a character, after a byte order mark: the decoder
    drops the mark and keeps the first byte of the character until the
    second arrives. *)
Example parseSSEStream_cut_character :
  parseSSEStream JsonText.parse
    (Examples.streamed 200 [Examples.cut_first; Examples.cut_second])
  = Normal (LlmResponse Examples.cafe None).
Proof. vm_compute. reflexivity. Qed.



(** X2.  Lines that are no [data: ] line, the [[DONE]] marker, data that
    does not parse and data that is no object are passed over: a stream
    whose text is made of such lines gives the empty content and no usage,
    and no failure. *)
Theorem parseSSEStream_tolerates_noise (JSON_parse : string -> Completion JSON)
    (st : Z) (cs lines : list string) :
  forallb single_line lines = true ->
  decoded_stream cs = join_lines lines ->
  Forall (fun line =>
            startsWith line "data: " = false \/ line = "data: [DONE]" \/
            (exists e : Thrown, JSON_parse (slice 6 line) = Throw e) \/
            (exists v : JSON, JSON_parse (slice 6 line) = Normal v /\
                              forall fields, v <> JObj fields)) lines ->
  parseSSEStream JSON_parse (mkResponse st (Some (mkBody cs StreamDone)))
  = Normal (LlmResponse "" None).
Proof.
  intros Hl Hcat Hnoise.
  rewrite (parseSSEStream_lines JSON_parse st cs lines "")
    by (rewrite Hcat, <- (string_app_nil_r (join_lines lines));
        now apply split_join_tail).
  assert (Hf : frames_of JSON_parse lines = []).
  { clear Hl Hcat. induction Hnoise as [|l ls Hn _ IH]; [reflexivity|].
    cbn [frames_of]. rewrite IH. unfold line_fields.
    destruct Hn as [H|[H|[[e H]|(v & H & Hv)]]].
    - now rewrite H.
    - subst l. reflexivity.
    - rewrite H. now destruct (negb (startsWith l "data: ")), (l =? "data: [DONE]").
    - rewrite H.
      destruct (negb (startsWith l "data: ")), (l =? "data: [DONE]"); try reflexivity.
      destruct v; try reflexivity. now destruct (Hv fields). }
  unfold lines_result. rewrite Hf. reflexivity.
Qed.

Lemma parseSSEStream_tolerates_noise_witness :
  parseSSEStream JsonText.parse
    (Examples.streamed 200 [join_lines Examples.noise])
  = Normal (LlmResponse "" None).
Proof.
  apply (parseSSEStream_tolerates_noise JsonText.parse 200
           [join_lines Examples.noise] Examples.noise);
    [reflexivity | vm_compute; reflexivity |].
  unfold Examples.noise.
  constructor; [left; reflexivity|].
  constructor; [left; reflexivity|].
  constructor; [right; left; reflexivity|].
  constructor; [right; right; left; eexists; vm_compute; reflexivity|].
  constructor;
    [right; right; right; exists (JNum 42);
     split; [vm_compute; reflexivity | discriminate]|].
  constructor; [left; reflexivity|].
  constructor.
Defined.

(** A byte order mark before a frame is dropped by the decoder: the frame
    is read. *)
Example parseSSEStream_after_byte_order_mark :
  parseSSEStream JsonText.parse
    (Examples.streamed 200
       [Utf8.bom ++ Examples.frame "{'delta':{'text':'ok'}}"])
  = Normal (LlmResponse "ok" None).
Proof. vm_compute. reflexivity. Qed.

(** X3.  The last line of a stream, when its line feed is missing, adds
    at most text: the usage of the result is the same with and without
    it, so a final [usage] frame that is not ended by a line feed is not
    counted. *)
Theorem parseSSEStream_unfinished_line_usage (JSON_parse : string -> Completion JSON)
    (st : Z) (lines : list string) (tail : string) :
  forallb single_line lines = true -> single_line tail = true ->
  exists content content' : string,
    exists usage : option Usage,
      parseSSEStream JSON_parse
        (mkResponse st (Some (mkBody [join_lines lines] StreamDone)))
      = Normal (LlmResponse content usage)
      /\ parseSSEStream JSON_parse
           (mkResponse st (Some (mkBody [join_lines lines ++ tail] StreamDone)))
         = Normal (LlmResponse content' usage).
Proof.
  intros Hl Ht.
  set (text := decoded_stream [join_lines lines]).
  set (rest := snd (Utf8.decode (fst (Utf8.decode Utf8.TextDecoder (join_lines lines)))
                      tail)).
  assert (Hrest : single_line rest = true)
    by (apply decode_single_line; [apply decode_wf, wf_TextDecoder | exact Ht]).
  assert (Htext : decoded_stream [join_lines lines ++ tail] = text ++ rest).
  { unfold decoded_stream, text, rest. cbn [String.concat].
    now rewrite decode_app. }
  rewrite (parseSSEStream_lines JSON_parse st [join_lines lines]
             (removelast (split LF text)) (last (split LF text) ""))
    by apply split_removelast_last.
  rewrite (parseSSEStream_lines JSON_parse st [join_lines lines ++ tail]
             (removelast (split LF text)) (last (split LF text) "" ++ rest)).
  - unfold lines_result. eauto.
  - rewrite Htext, split_app.
    rewrite (split_single_line (last (split LF text) "" ++ rest)); [reflexivity|].
    now rewrite single_line_app, single_line_last_split, Hrest.
Qed.

Lemma parseSSEStream_unfinished_line_usage_witness :
  exists content content' : string,
    exists usage : option Usage,
      parseSSEStream JsonText.parse
        (mkResponse 200 (Some (mkBody [join_lines Examples.fragments] StreamDone)))
      = Normal (LlmResponse content usage)
      /\ parseSSEStream JsonText.parse
           (mkResponse 200
              (Some (mkBody [join_lines Examples.fragments ++ Examples.unfinished_usage]
                       StreamDone)))
         = Normal (LlmResponse content' usage).
Proof.
  apply (parseSSEStream_unfinished_line_usage JsonText.parse 200
           Examples.fragments Examples.unfinished_usage); reflexivity.
Defined.

(** The usage frame of the example is lost with its line feed: the
    counters stay those of the whole lines. *)
Example unfinished_usage_not_counted :
  parseSSEStream JsonText.parse
    (Examples.streamed 200 [join_lines Examples.fragments ++ Examples.unfinished_usage])
  = Normal (LlmResponse "Hi" (Some (mkUsage (Some (JNum 3)) (Some (JNum 4))))).
Proof. vm_compute. reflexivity. Qed.

(** X4.  Whatever the chunks, when the reads are done the buffer is the
    part of the text of the stream after its last line feed: everything
    before it has been interpreted as whole lines, and the buffer itself
    holds no line feed.  The text is what the decoder has made of the
    bytes read so far; bytes of a character that is not complete wait in
    the decoder, not in the buffer. *)
Theorem read_loop_buffer_unfinished_line (JSON_parse : string -> Completion JSON)
    (cs : list string) (e : StreamEnd) :
  let s := fst (read_loop JSON_parse cs e Utf8.TextDecoder Sse.init) in
  Sse.buffer s = last (split LF (decoded_stream cs)) ""
  /\ single_line (Sse.buffer s) = true.
Proof.
  cbv zeta.
  assert (H : Sse.buffer (fst (read_loop JSON_parse cs e Utf8.TextDecoder Sse.init))
              = last (split LF (decoded_stream cs)) "").
  { rewrite read_loop_concat, read_loop_cons, on_text_eq.
    rewrite (for_lines_buffer_free JSON_parse _ Sse.init).
    cbn [Sse.buffer Sse.init append fst with_buffer].
    destruct e; reflexivity. }
  split; [exact H|]. rewrite H. apply single_line_last_split.
Qed.

(** ** llm-client.ts and monitor.ts: the request and the failure payloads *)

Section MoreClient.

Variable JSON_parse : string -> Completion JSON.

(** X5.  Whatever the proxy does, the client makes exactly one request
    and nothing else: the request carries the key of the environment as
    bearer credential, the model and the token limit of the options, or
    [claude-haiku-4-5-20251001] and 4096 where the options leave them out,
    the messages as given, and [stream: true]. *)
Theorem callLlmProxy_one_request (env : Env) (options : LlmRequestOptions) :
  trace (callLlmProxy JSON_parse env options)
  = [LlmFetch ("Bearer " ++ env_text (LLM_PROXY_API_KEY env))
       (mkLlmRequestBody
          (match opt_model options with
           | Some m => m
           | None => "claude-haiku-4-5-20251001"
           end)
          (match opt_maxTokens options with Some n => n | None => 4096%Z end)
          (opt_messages options) true)].
Proof.
  destruct (callLlmProxy_run JSON_parse env options) as [result Hrun].
  rewrite Hrun. reflexivity.
Qed.

(** X6.  A 2xx answer without a body is a failure of the result, not an
    exception: the error is [No response body], it is no billing error
    and it carries no status code. *)
Theorem callLlmProxy_no_body (env : Env) (options : LlmRequestOptions) (st : Z) :
  llm_proxy env (request_body options) = FetchResolves (mkResponse st None) ->
  (200 <= st <= 299)%Z ->
  outcome (callLlmProxy JSON_parse env options)
  = Normal (LlmErrorResponse (Some (JStr "No response body")) false None).
Proof.
  intros Hf Hst. unfold callLlmProxy, fetch_llm. rewrite Hf. hide_handler.
  cbn [bind IO_Monad emit ret app].
  replace (ok (mkResponse st None)) with true
    by (unfold ok; cbn [status]; symmetry; apply andb_true_iff; split; apply Z.leb_le; lia).
  reflexivity.
Qed.

(** An answer 402 is a billing failure whatever its body says. *)
Lemma callLlmProxy_402 (env : Env) (options : LlmRequestOptions) (response : Response) :
  llm_proxy env (request_body options) = FetchResolves response ->
  status response = 402%Z ->
  exists error : JsValue,
    outcome (callLlmProxy JSON_parse env options)
    = Normal (LlmErrorResponse error true (Some 402%Z)).
Proof.
  intros Hf Hst. unfold callLlmProxy, fetch_llm. rewrite Hf. hide_handler.
  cbn [bind IO_Monad emit ret app]. unfold ok. rewrite Hst.
  cbn [Z.leb Z.compare Pos.compare Pos.compare_cont andb negb Z.eqb Pos.eqb lift].
  eexists. reflexivity.
Qed.

(** X7.  When the generation call of a trigger fails, the task makes
    exactly one delivery: the purchase prompt (type [billing], action
    [purchase_credits]) if the failure is a billing error, and the
    apology of type [error] otherwise; the text of the error is never
    sent. *)
Theorem processMessage_failure_payload (env : Env) (request : Trigger.t)
    (history : list JSON) (error : JsValue) (isBilling : bool) (statusCode : option Z) :
  spread (if truthy (Trigger.conversationHistory request)
          then Trigger.conversationHistory request else Some (JArr []))
  = Normal history ->
  outcome (callLlmProxy JSON_parse env
             (mkLlmRequestOptions None None
                (history ++ [JObj [("role", JStr "user");
                                   ("content", JStr (Trigger.text request))]])))
  = Normal (LlmErrorResponse error isBilling statusCode) ->
  deliveries (trace (processMessage JSON_parse env request))
  = [if isBilling then billing_payload (Trigger.messageId request)
     else error_payload (Trigger.messageId request)
            "Sorry, something went wrong. Please try again."].
Proof.
  intros Hs Hr. rewrite (processMessage_run JSON_parse env request history _ Hs Hr).
  cbn [trace fst send_result deliveries]. change (fst ?m) with (trace m).
  destruct isBilling; unfold sendBillingErrorResponse, sendErrorResponse;
    rewrite sendResponse_trace; reflexivity.
Qed.

(** X8.  When the proxy answers 402 the task delivers the purchase
    prompt, whatever the body of the answer is: the status alone
    decides. *)
Theorem processMessage_402_purchase_prompt (env : Env) (request : Trigger.t)
    (history : list JSON) (response : Response) :
  spread (if truthy (Trigger.conversationHistory request)
          then Trigger.conversationHistory request else Some (JArr []))
  = Normal history ->
  llm_proxy env
    (mkLlmRequestBody "claude-haiku-4-5-20251001" 4096
       (history ++ [JObj [("role", JStr "user");
                          ("content", JStr (Trigger.text request))]]) true)
  = FetchResolves response ->
  status response = 402%Z ->
  deliveries (trace (processMessage JSON_parse env request))
  = [mkVmResponseRequest (Trigger.messageId request)
       "You've run out of credits! Tap below to purchase more."
       (Some (mkMetadata (Some "billing") (Some "purchase_credits") None None))].
Proof.
  intros Hs Hf Hst.
  destruct (callLlmProxy_402 env
              (mkLlmRequestOptions None None
                 (history ++ [JObj [("role", JStr "user");
                                    ("content", JStr (Trigger.text request))]]))
              response Hf Hst) as [error Hr].
  rewrite (processMessage_run JSON_parse env request history _ Hs Hr).
  cbn [trace fst send_result deliveries]. change (fst ?m) with (trace m).
  unfold sendBillingErrorResponse. rewrite sendResponse_trace. reflexivity.
Qed.

(** X9.  The messages of the generation request are the conversation
    history in its order followed by the text of the trigger as a [user]
    turn; a history that is missing, [null] or otherwise falsy gives the
    [user] turn alone.  The task makes no other generation request. *)
Theorem processMessage_messages (env : Env) (request : Trigger.t) :
  let user := JObj [("role", JStr "user"); ("content", JStr (Trigger.text request))] in
  (forall items : list JSON,
      Trigger.conversationHistory request = Some (JArr items) ->
      generations (trace (processMessage JSON_parse env request))
      = [mkLlmRequestBody "claude-haiku-4-5-20251001" 4096 (items ++ [user]) true])
  /\ (truthy (Trigger.conversationHistory request) = false ->
      generations (trace (processMessage JSON_parse env request))
      = [mkLlmRequestBody "claude-haiku-4-5-20251001" 4096 [user] true]).
Proof.
  assert (H : forall history,
             spread (if truthy (Trigger.conversationHistory request)
                     then Trigger.conversationHistory request else Some (JArr []))
             = Normal history ->
             generations (trace (processMessage JSON_parse env request))
             = [mkLlmRequestBody "claude-haiku-4-5-20251001" 4096
                  (history ++ [JObj [("role", JStr "user");
                                     ("content", JStr (Trigger.text request))]]) true]).
  { intros history Hs.
    destruct (callLlmProxy_run JSON_parse env
                (mkLlmRequestOptions None None
                   (history ++ [JObj [("role", JStr "user");
                                      ("content", JStr (Trigger.text request))]])))
      as [result Hrun].
    rewrite (processMessage_run JSON_parse env request history result Hs)
      by (rewrite Hrun; reflexivity).
    destruct (send_result_trace JSON_parse env (Trigger.messageId request) result)
      as [payload Hsent].
    cbn [trace fst generations]. change (fst ?m) with (trace m). rewrite Hsent.
    reflexivity. }
  cbv zeta. split.
  - intros items Hh. apply H. now rewrite Hh.
  - intros Hf. apply (H []). now rewrite Hf.
Qed.

(** X10.  A history that is truthy and neither an array nor a string
    cannot be spread: the task rejects before it calls the proxy, and
    nothing is delivered. *)
Theorem processMessage_history_not_iterable (env : Env) (request : Trigger.t) :
  truthy (Trigger.conversationHistory request) = true ->
  (forall items : list JSON, Trigger.conversationHistory request <> Some (JArr items)) ->
  (forall s : string, Trigger.conversationHistory request <> Some (JStr s)) ->
  trace (processMessage JSON_parse env request) = []
  /\ exists e : Thrown, outcome (processMessage JSON_parse env request) = Throw e.
Proof.
  intros Ht Ha Hs. unfold processMessage. rewrite Ht.
  destruct (Trigger.conversationHistory request) as [[| | |s|items|fields]|];
    try discriminate Ht; try (now destruct (Ha items)); try (now destruct (Hs s));
    cbn; eauto.
Qed.

End MoreClient.

Lemma callLlmProxy_no_body_witness :
  outcome (callLlmProxy JsonText.parse
             (Examples.service Examples.bodiless Examples.saved) Examples.hello_options)
  = Normal (LlmErrorResponse (Some (JStr "No response body")) false None).
Proof.
  apply (callLlmProxy_no_body JsonText.parse
           (Examples.service Examples.bodiless Examples.saved) Examples.hello_options 204);
    [reflexivity | lia].
Defined.

Lemma processMessage_failure_payload_witness :
  deliveries (trace (processMessage JsonText.parse
                       (Examples.service Examples.plain_500 Examples.saved)
                       Examples.trigger))
  = [error_payload "test4" "Sorry, something went wrong. Please try again."].
Proof.
  apply (processMessage_failure_payload JsonText.parse
           (Examples.service Examples.plain_500 Examples.saved) Examples.trigger []
           (Some (JStr "LLM request failed: 500")) false (Some 500%Z));
    vm_compute; reflexivity.
Defined.

Lemma processMessage_402_purchase_prompt_witness :
  deliveries (trace (processMessage JsonText.parse
                       (Examples.service Examples.bare_402 Examples.saved)
                       Examples.trigger))
  = [billing_payload "test4"].
Proof.
  apply (processMessage_402_purchase_prompt JsonText.parse
           (Examples.service Examples.bare_402 Examples.saved) Examples.trigger []
           (Examples.streamed 402 ["Payment gateway"]));
    reflexivity.
Defined.

Lemma processMessage_messages_witness :
  generations (trace (processMessage JsonText.parse
                        (Examples.service Examples.silent Examples.saved)
                        Examples.with_history))
  = [mkLlmRequestBody "claude-haiku-4-5-20251001" 4096
       [JObj [("role", JStr "user"); ("content", JStr "Hi")];
        JObj [("role", JStr "assistant"); ("content", JStr "Hello!")];
        JObj [("role", JStr "user"); ("content", JStr "And now?")]] true]
  /\ generations (trace (processMessage JsonText.parse
                           (Examples.service Examples.silent Examples.saved)
                           Examples.trigger))
     = [mkLlmRequestBody "claude-haiku-4-5-20251001" 4096
          [JObj [("role", JStr "user"); ("content", JStr "Hello AI")]] true].
Proof.
  split.
  - apply (proj1 (processMessage_messages JsonText.parse
                    (Examples.service Examples.silent Examples.saved)
                    Examples.with_history)
             [JObj [("role", JStr "user"); ("content", JStr "Hi")];
              JObj [("role", JStr "assistant"); ("content", JStr "Hello!")]]).
    reflexivity.
  - apply (proj2 (processMessage_messages JsonText.parse
                    (Examples.service Examples.silent Examples.saved)
                    Examples.trigger)).
    reflexivity.
Defined.

Lemma processMessage_history_not_iterable_witness :
  trace (processMessage JsonText.parse
           (Examples.service Examples.silent Examples.saved) Examples.odd_history) = []
  /\ exists e : Thrown,
       outcome (processMessage JsonText.parse
                  (Examples.service Examples.silent Examples.saved) Examples.odd_history)
       = Throw e.
Proof.
  apply (processMessage_history_not_iterable JsonText.parse
           (Examples.service Examples.silent Examples.saved) Examples.odd_history);
    [reflexivity | discriminate | discriminate].
Defined.

(** ** monitor.ts: the answers of the handler *)

Lemma answers_app (t t' : list Event) :
  answers (t ++ t') = (answers t ++ answers t')%list.
Proof.
  induction t as [|e t IH]; [reflexivity|].
  destruct e; cbn [answers app]; now rewrite IH.
Qed.


Section MoreHandler.

Variable JSON_parse : string -> Completion JSON.

(** The body reader settles, and its only possible event after the read
    has begun is the destruction of the request. *)
Lemma on_data_quiet (maxBytes : Z) (e : StreamEnd) (arriving : list string) :
  forall (acc : list string) (total : Z),
    (exists result : BodyResult,
        on_data JSON_parse maxBytes arriving acc total e = ([], Normal result))
    \/ on_data JSON_parse maxBytes arriving acc total e
       = ([DestroyRequest], Normal (BodyError "payload too large")).
Proof.
  induction arriving as [|chunk rest IH]; intros acc total.
  - cbn [on_data]. destruct e; left; eexists; reflexivity.
  - cbn [on_data].
    destruct (total + Z.of_nat (String.length chunk) >? maxBytes)%Z.
    + right; reflexivity.
    + apply IH.
Qed.

(** The background task writes nothing to the HTTP response. *)
Lemma processMessage_quiet (env : Env) (request : Trigger.t) :
  answers (trace (processMessage JSON_parse env request)) = [].
Proof.
  destruct (spread (if truthy (Trigger.conversationHistory request)
                    then Trigger.conversationHistory request else Some (JArr [])))
    as [history|e] eqn:Hs.
  - destruct (callLlmProxy_run JSON_parse env
                (mkLlmRequestOptions None None
                   (history ++ [JObj [("role", JStr "user");
                                      ("content", JStr (Trigger.text request))]])))
      as [result Hrun].
    rewrite (processMessage_run JSON_parse env request history result Hs)
      by (rewrite Hrun; reflexivity).
    destruct (send_result_trace JSON_parse env (Trigger.messageId request) result)
      as [payload Hsent].
    cbn [trace fst answers]. change (fst ?m) with (trace m). now rewrite Hsent.
  - unfold processMessage. rewrite Hs. reflexivity.
Qed.

(** The handler from the validation on, for a body that is not [null]. *)
Lemma handle_trigger_valid (env : Env) (value : JSON) :
  non_empty_string (get_opt (Some value) "messageId") = true ->
  non_empty_string (get_opt (Some value) "text") = true ->
  handle_trigger JSON_parse env value
  = (WriteResponse 200 (JObj [("status", JStr "processing")])
       :: trace (processMessage JSON_parse env
                   (Trigger.mk (as_string (get_opt (Some value) "messageId"))
                      (as_string (get_opt (Some value) "text"))
                      (get_opt (Some value) "uid")
                      (get_opt (Some value) "conversationHistory"))),
     Normal true).
Proof.
  intros Hm Ht. unfold handle_trigger.
  assert (Hnull : value <> JNull) by (intros ->; discriminate Hm).
  rewrite !(get_not_null value) by exact Hnull.
  unfold non_empty_string in Hm, Ht.
  apply andb_true_iff in Hm as [Hm1 Hm2]. apply andb_true_iff in Ht as [Ht1 Ht2].
  cbn [lift bind IO_Monad app]. rewrite Hm1, Hm2. cbn [negb orb].
  cbn [lift bind IO_Monad app]. rewrite Ht1, Ht2. cbn [negb orb].
  unfold detached, sendJsonResponse, emit.
  cbn [bind IO_Monad ret fst snd app]. rewrite app_nil_r. reflexivity.
Qed.

Lemma handle_trigger_cases (env : Env) (value : JSON) :
  let run := handle_trigger JSON_parse env value in
  (outcome run = Normal true /\ exists a, answers (trace run) = [a])
  \/ (trace run = [] /\ exists e, outcome run = Throw e).
Proof.
  cbv zeta.
  assert (Hdec : value = JNull \/ value <> JNull)
    by (destruct value; (now left) || (right; discriminate)).
  destruct Hdec as [->|Hnull].
  - right. rewrite handle_trigger_null. split; [reflexivity | eexists; reflexivity].
  - left. destruct (handle_trigger_invalid JSON_parse env value Hnull) as [H1 H2].
    destruct (non_empty_string (get_opt (Some value) "messageId")) eqn:Hm.
    + destruct (non_empty_string (get_opt (Some value) "text")) eqn:Ht.
      * rewrite (handle_trigger_valid env value Hm Ht).
        cbn [trace outcome fst snd answers]. rewrite processMessage_quiet.
        split; [reflexivity | eexists; reflexivity].
      * rewrite (H2 eq_refl eq_refl). split; [reflexivity | eexists; reflexivity].
    + rewrite (H1 eq_refl). split; [reflexivity | eexists; reflexivity].
Qed.

End MoreHandler.

Section MoreHandler2.

Variable JSON_parse : string -> Completion JSON.

Lemma handle_body_cases (env : Env) (req : IncomingMessage) :
  let run := handle_body JSON_parse env req in
  (outcome run = Normal true /\ exists a, answers (trace run) = [a])
  \/ (answers (trace run) = [] /\ exists e, outcome run = Throw e).
Proof.
  cbv zeta. unfold handle_body, readJsonBody.
  destruct (on_data_quiet JSON_parse MAX_PAYLOAD_BYTES (ending (payload_stream req))
              (chunks (payload_stream req)) [] 0%Z) as [[result H]|H]; rewrite H.
  - destruct result as [value|error].
    + cbn [bind IO_Monad emit app].
      destruct (handle_trigger_cases JSON_parse env value) as [[Ho [a Ha]]|[Ht [e He]]];
        destruct (handle_trigger JSON_parse env value) as [t r];
        cbn [trace outcome fst snd answers] in *; subst.
      * left. split; [reflexivity | eexists; exact Ha].
      * right. split; [reflexivity | eexists; reflexivity].
    + left. split; [reflexivity | eexists; reflexivity].
  - left. split; [reflexivity | eexists; reflexivity].
Qed.

(** The three ways a call of the handler ends. *)
Lemma handleFirebaseWebhookRequest_cases (env : Env) (req : IncomingMessage) :
  let run := handleFirebaseWebhookRequest JSON_parse env req in
  (outcome run = Normal true /\ exists a, answers (trace run) = [a])
  \/ (outcome run = Normal false /\ trace run = [])
  \/ (answers (trace run) = [] /\ exists e, outcome run = Throw e).
Proof.
  cbv zeta. unfold handleFirebaseWebhookRequest.
  destruct (pathname req) as [p|e].
  2:{ right; right. split; [reflexivity | eexists; reflexivity]. }
  rewrite bind_lift_normal.
  destruct (negb (method req =? "POST") || negb (p =? "/api/message")).
  { right; left. split; reflexivity. }
  destruct (negb (truthy (option_map JStr (VM_INTERNAL_SECRET env)))).
  { left. split; [reflexivity | eexists; reflexivity]. }
  destruct (negb (eq_str (option_map JStr (authorization req))
                    ("Bearer " ++ env_text (VM_INTERNAL_SECRET env)))).
  { left. split; [reflexivity | eexists; reflexivity]. }
  destruct (handle_body_cases env req) as [H|H]; [left | right; right]; exact H.
Qed.

(** X11.  The handler writes at most one answer, and it returns [true]
    exactly when it has written one; when it returns [false] it has done
    nothing at all, so that the caller can answer in its place. *)
Theorem handler_answers_iff_handled (env : Env) (req : IncomingMessage) :
  let run := handleFirebaseWebhookRequest JSON_parse env req in
  (outcome run = Normal true <-> exists a, answers (trace run) = [a])
  /\ (outcome run = Normal false -> trace run = [])
  /\ (length (answers (trace run)) <= 1)%nat.
Proof.
  cbv zeta.
  destruct (handleFirebaseWebhookRequest_cases env req)
    as [[Ho [a Ha]]|[[Ho Ht]|[Ht [e He]]]].
  - rewrite Ho, Ha. split; [|split].
    + split; [intros _; eexists; reflexivity | reflexivity].
    + discriminate.
    + cbn [length]. lia.
  - rewrite Ho, Ht. split; [|split].
    + split; [discriminate | intros [a Ha]; discriminate Ha].
    + reflexivity.
    + cbn [answers length]. lia.
  - rewrite He, Ht. split; [|split].
    + split; [discriminate | intros [a Ha]; discriminate Ha].
    + discriminate.
    + cbn [length]. lia.
Qed.

(** X12.  A valid request is acknowledged before the work begins: the
    handler reads the body, writes 200 [processing], and only then runs the
    task on the trigger of the body; it returns [true] whatever becomes of
    the task, whose failure is not passed on to the caller.  The body is
    its bytes as [toString("utf8")] decodes them. *)
Theorem handler_acknowledges_first (env : Env) (req : IncomingMessage) (value : JSON) :
  routed req -> authenticated env req ->
  ending (payload_stream req) = StreamDone ->
  (total_bytes (chunks (payload_stream req)) <= MAX_PAYLOAD_BYTES)%Z ->
  trim (Utf8.toString (String.concat "" (chunks (payload_stream req)))) <> "" ->
  JSON_parse (Utf8.toString (String.concat "" (chunks (payload_stream req))))
  = Normal value ->
  non_empty_string (get_opt (Some value) "messageId") = true ->
  non_empty_string (get_opt (Some value) "text") = true ->
  handleFirebaseWebhookRequest JSON_parse env req
  = (ReadBody 1048576
       :: WriteResponse 200 (JObj [("status", JStr "processing")])
       :: trace (processMessage JSON_parse env
                   (Trigger.mk (as_string (get_opt (Some value) "messageId"))
                      (as_string (get_opt (Some value) "text"))
                      (get_opt (Some value) "uid")
                      (get_opt (Some value) "conversationHistory"))),
     Normal true).
Proof.
  intros Hr Ha He Hle Hne Hp Hm Ht.
  rewrite (handler_authenticated_run JSON_parse env req Hr Ha).
  rewrite (handle_body_complete JSON_parse env req Hle He).
  rewrite (on_end_parsed JSON_parse _ Hne), Hp.
  rewrite (handle_trigger_valid JSON_parse env value Hm Ht). reflexivity.
Qed.

(** X13.  A request that is not for the route of the handler is answered
    by the standalone handler: 200 with status [ok] when the method is GET
    and [req.url] is exactly [/health], and 404 [Not found] otherwise. *)
Theorem standalone_unhandled (env : Env) (url : option string) (req : IncomingMessage)
    (p : string) :
  pathname req = Normal p ->
  method req <> "POST" \/ p <> "/api/message" ->
  createStandaloneHandler JSON_parse env url req
  = ([if (method req =? "GET") && eq_str (option_map JStr url) "/health"
      then WriteResponse 200 (JObj [("status", JStr "ok")])
      else WriteResponse 404 (JObj [("error", JStr "Not found")])],
     Normal tt).
Proof.
  intros Hp Hr. unfold createStandaloneHandler, handleFirebaseWebhookRequest.
  rewrite Hp, bind_lift_normal.
  replace (negb (method req =? "POST") || negb (p =? "/api/message")) with true.
  - cbn [bind IO_Monad ret app negb].
    destruct ((method req =? "GET") && eq_str (option_map JStr url) "/health");
      reflexivity.
  - symmetry. apply orb_true_iff.
    destruct Hr as [H|H]; [left | right]; apply negb_true_iff, String.eqb_neq; exact H.
Qed.






(** X15.  For a cap that is not negative, the body reader never rejects
    and its result depends on the bytes of the body and not on the chunks:
    a body longer than the cap gives [payload too large] and destroys the
    request, a body of at most the cap (the cap itself included) gives the
    error of the stream if the stream fails, [empty payload] if its text
    is blank, and otherwise what [JSON.parse] makes of its text.  The text
    is the bytes as [toString("utf8")] decodes them, and blank is what
    [trim] empties: ASCII and Unicode white space, the byte order mark
    included. *)
Theorem readJsonBody_result (req : IncomingMessage) (maxBytes : Z) :
  (0 <= maxBytes)%Z ->
  let bytes := String.concat "" (chunks (payload_stream req)) in
  let raw := Utf8.toString bytes in
  readJsonBody JSON_parse req maxBytes
  = if (Z.of_nat (String.length bytes) >? maxBytes)%Z then
      ([ReadBody maxBytes; DestroyRequest], Normal (BodyError "payload too large"))
    else
      ([ReadBody maxBytes],
       Normal (match ending (payload_stream req) with
               | StreamError err => BodyError (error_message err)
               | StreamDone =>
                   if trim raw =? "" then BodyError "empty payload"
                   else match JSON_parse raw with
                        | Normal value => BodyOk value
                        | Throw err => BodyError (error_message err)
                        end
               end)).
Proof.
  intros Hmax bytes raw. unfold readJsonBody. subst raw bytes.
  rewrite <- total_bytes_concat.
  destruct (total_bytes (chunks (payload_stream req)) >? maxBytes)%Z eqn:Hc.
  - rewrite on_data_too_large by lia. reflexivity.
  - rewrite on_data_complete by lia. cbn [app].
    destruct (ending (payload_stream req)); [|reflexivity].
    destruct (String.eqb_spec
                (trim (Utf8.toString (String.concat "" (chunks (payload_stream req)))))
                "") as [H|H].
    + now rewrite on_end_empty.
    + now rewrite on_end_parsed.
Qed.

(** X23.  On the path that the gateway registers, the route handler
    answers a POST exactly once unless the handler rejects, and leaves a
    request of any other method without an answer: the handler declines
    it, and the wrapper drops that result. *)
Theorem webhookRouteHandler_answers (env : Env) (req : IncomingMessage) :
  pathname req = Normal "/api/message" ->
  let run := Channel.webhookRouteHandler JSON_parse env req in
  (method req = "POST" ->
   (outcome run = Normal tt /\ exists a, answers (trace run) = [a])
   \/ (answers (trace run) = [] /\ exists e, outcome run = Throw e))
  /\ (method req <> "POST" -> run = ([], Normal tt)).
Proof.
  intros Hp. cbv zeta. unfold Channel.webhookRouteHandler, handleFirebaseWebhookRequest.
  rewrite Hp, bind_lift_normal. split.
  - intros ->. cbn [String.eqb Ascii.eqb Bool.eqb negb orb].
    destruct (negb (truthy (option_map JStr (VM_INTERNAL_SECRET env)))).
    { left. split; [reflexivity | eexists; reflexivity]. }
    destruct (negb (eq_str (option_map JStr (authorization req))
                      ("Bearer " ++ env_text (VM_INTERNAL_SECRET env)))).
    { left. split; [reflexivity | eexists; reflexivity]. }
    destruct (handle_body_cases env req) as [[Ho [a Ha]]|[Ht [e He]]];
      destruct (handle_body JSON_parse env req) as [t r];
      cbn [trace outcome fst snd] in *; subst; cbn [bind IO_Monad ret].
    + left. rewrite app_nil_r. split; [reflexivity | eexists; exact Ha].
    + right. split; [exact Ht | eexists; reflexivity].
  - intros Hm. apply String.eqb_neq in Hm. rewrite Hm. reflexivity.
Qed.

End MoreHandler2.

Lemma webhookRouteHandler_answers_witness :
  let run :=
    Channel.webhookRouteHandler JsonText.parse
      (Examples.service Examples.silent Examples.saved)
      (mkIncomingMessage "GET" (Normal "/api/message") Examples.bearer
         (mkBody [] StreamDone)) in
  run = ([], Normal tt).
Proof.
  apply (proj2 (webhookRouteHandler_answers JsonText.parse
                  (Examples.service Examples.silent Examples.saved)
                  (mkIncomingMessage "GET" (Normal "/api/message") Examples.bearer
                     (mkBody [] StreamDone)) eq_refl)).
  discriminate.
Defined.

Lemma handler_acknowledges_first_witness :
  handleFirebaseWebhookRequest JsonText.parse
    (Examples.service Examples.network_down Examples.saved)
    (Examples.request Examples.bearer Examples.valid_body)
  = ([ReadBody 1048576;
      WriteResponse 200 (JObj [("status", JStr "processing")]);
      LlmFetch "Bearer pxy_test"
        (mkLlmRequestBody "claude-haiku-4-5-20251001" 4096
           [JObj [("role", JStr "user"); ("content", JStr "Hello AI")]] true);
      AppFetch "Bearer sec_test"
        (error_payload "test4" "Sorry, something went wrong. Please try again.")],
     Normal true).
Proof.
  refine (eq_trans
            (handler_acknowledges_first JsonText.parse
               (Examples.service Examples.network_down Examples.saved)
               (Examples.request Examples.bearer Examples.valid_body)
               (JObj [("messageId", JStr "test4"); ("text", JStr "Hello AI")])
               _ _ _ _ _ _ _ _) _).
  - split; reflexivity.
  - apply examples_authenticated.
  - reflexivity.
  - vm_compute. discriminate.
  - vm_compute. discriminate.
  - vm_compute. reflexivity.
  - reflexivity.
  - reflexivity.
  - vm_compute. reflexivity.
Defined.

Lemma standalone_unhandled_witness :
  createStandaloneHandler JsonText.parse
    (Examples.service Examples.silent Examples.saved) (Some "/health") Examples.health
  = ([WriteResponse 200 (JObj [("status", JStr "ok")])], Normal tt)
  /\ createStandaloneHandler JsonText.parse
       (Examples.service Examples.silent Examples.saved) (Some "/health?full=1")
       Examples.health
     = ([WriteResponse 404 (JObj [("error", JStr "Not found")])], Normal tt).
Proof.
  split.
  - apply (standalone_unhandled JsonText.parse
             (Examples.service Examples.silent Examples.saved) (Some "/health")
             Examples.health "/health");
      [reflexivity | left; discriminate].
  - apply (standalone_unhandled JsonText.parse
             (Examples.service Examples.silent Examples.saved) (Some "/health?full=1")
             Examples.health "/health");
      [reflexivity | left; discriminate].
Defined.

Lemma readJsonBody_result_witness :
  readJsonBody JsonText.parse Examples.aborted 1048576
  = ([ReadBody 1048576], Normal (BodyError "aborted"))
  /\ readJsonBody JsonText.parse (Examples.request Examples.bearer ["null"]) 4
     = ([ReadBody 4], Normal (BodyOk JNull))
  /\ readJsonBody JsonText.parse (Examples.request Examples.bearer ["nu"; "ll"]) 3
     = ([ReadBody 3; DestroyRequest], Normal (BodyError "payload too large")).
Proof.
  split; [|split].
  - refine (eq_trans (readJsonBody_result JsonText.parse Examples.aborted 1048576 _) _);
      [lia | vm_compute; reflexivity].
  - refine (eq_trans (readJsonBody_result JsonText.parse
                        (Examples.request Examples.bearer ["null"]) 4 _) _);
      [lia | vm_compute; reflexivity].
  - refine (eq_trans (readJsonBody_result JsonText.parse
                        (Examples.request Examples.bearer ["nu"; "ll"]) 3 _) _);
      [lia | vm_compute; reflexivity].
Defined.

(** The standalone server on the body [null]: the rejection of the
    handler becomes the answer 500. *)
Example standalone_server_null_body :
  standalone_server JsonText.parse
    (Examples.service Examples.silent Examples.saved) (Some "/api/message")
    (Examples.request Examples.bearer ["null"])
  = ([ReadBody 1048576;
      WriteResponse 500 (JObj [("error", JStr "Internal server error")])],
     Normal tt).
Proof. vm_compute. reflexivity. Qed.

(** ** respond.ts and the agent task: classified failures *)

Lemma toLowerCase_app (a b : string) :
  toLowerCase (a ++ b) = toLowerCase a ++ toLowerCase b.
Proof. induction a as [|c a IH]; cbn; [reflexivity | now rewrite IH]. Qed.

Lemma Substring_wrapped (k pre m post : string) :
  Substring k m -> Substring k (pre ++ m ++ post).
Proof.
  intros (p & q & ->). exists (pre ++ p), (q ++ post).
  now rewrite !string_app_assoc.
Qed.

Lemma existsb_includes_wrapped (pre m post : string) (keys : list string) :
  existsb (includes (toLowerCase m)) keys = true ->
  existsb (includes (toLowerCase (pre ++ m ++ post))) keys = true.
Proof.
  rewrite !existsb_exists. intros (k & Hin & Hk). exists k. split; [exact Hin|].
  apply includes_spec. rewrite !toLowerCase_app.
  apply Substring_wrapped. now apply includes_spec.
Qed.

(** X16.  The classification survives wrapping: a message that is a
    billing error stays one when text is put before and after it, as the
    callers do when they prefix an error with its origin. *)
Theorem isBillingError_wrapped (pre message post : string) :
  isBillingError (Some (JStr message)) = Normal true ->
  isBillingError (Some (JStr (pre ++ message ++ post))) = Normal true.
Proof.
  rewrite !isBillingError_existsb. intros H. injection H as H.
  now rewrite (existsb_includes_wrapped pre message post).
Qed.

Lemma isBillingError_wrapped_witness :
  isBillingError
    (Some (JStr ("LLM request failed: " ++ "Insufficient credits" ++ " (retry later)")))
  = Normal true.
Proof.
  apply (isBillingError_wrapped "LLM request failed: " "Insufficient credits"
           " (retry later)").
  reflexivity.
Defined.

Section Agent.

Variable JSON_parse : string -> Completion JSON.




Lemma trace_try_catch {A : Type} (m : IO A) (h : Thrown -> IO A) :
  trace (try_catch m h)
  = match outcome m with
    | Normal _ => trace m
    | Throw e => (trace m ++ trace (h e))%list
    end.
Proof.
  destruct m as [t [a|e]]; cbn; [reflexivity|]. now destruct (h e).
Qed.



End Agent.


Section Agent402.

Variable JSON_parse : string -> Completion JSON.



End Agent402.


(** ** monitor.ts after the agent refactor: the handler *)

Section AgentHandler.

Variable JSON_parse : string -> Completion JSON.
Variable env : Env.
Variable runtime : option AgentMonitor.PluginRuntime.

(** The [catch] block of the agent task is one request to the App Server. *)
Lemma agent_catch_trace (messageId : string) (error : Thrown) :
  exists payload : VmResponseRequest,
    trace (billing <- lift (isBillingError (Some (JStr (error_message error)))) ;;
           if billing then sendBillingErrorResponse JSON_parse env messageId
           else sendErrorResponse JSON_parse env messageId None)
    = [AppFetch ("Bearer " ++ env_text (VM_INTERNAL_SECRET env)) payload].
Proof.
  rewrite isBillingError_existsb, bind_lift_normal.
  destruct (existsb _ billing_keywords);
    unfold sendBillingErrorResponse, sendErrorResponse;
    rewrite sendResponse_trace; eexists; reflexivity.
Qed.

Lemma agent_catch_quiet (messageId : string) (error : Thrown) :
  answers
    (trace (billing <- lift (isBillingError (Some (JStr (error_message error)))) ;;
            if billing then sendBillingErrorResponse JSON_parse env messageId
            else sendErrorResponse JSON_parse env messageId None))
  = [].
Proof. destruct (agent_catch_trace messageId error) as [payload ->]. reflexivity. Qed.

(** The agent task writes nothing to the HTTP response. *)
Lemma agent_processMessage_quiet (request : Trigger.t) :
  answers (trace (AgentMonitor.processMessage JSON_parse env runtime request)) = [].
Proof.
  unfold AgentMonitor.processMessage. destruct runtime as [rt|].
  - rewrite trace_try_catch.
    destruct (AgentMonitor.dispatchReplyFromConfig rt request) as [blocks [[]|error]].
    + rewrite bind_lift_normal.
      destruct (negb (truthy (Some (JStr (AgentMonitor.deliver blocks ""))))
                || (String.length (AgentMonitor.deliver blocks "") =? 0)%nat).
      * reflexivity.
      * destruct (outcome _) as [a|e]; rewrite ?answers_app, sendResponse_trace;
          [reflexivity|].
        now rewrite agent_catch_quiet.
    + cbn [lift bind IO_Monad outcome trace fst snd app]. apply agent_catch_quiet.
  - unfold sendErrorResponse. now rewrite sendResponse_trace.
Qed.

Lemma agent_handle_trigger_as_before (value : JSON) :
  answers (trace (AgentWebhook.handle_trigger JSON_parse env runtime value))
  = answers (trace (handle_trigger JSON_parse env value))
  /\ outcome (AgentWebhook.handle_trigger JSON_parse env runtime value)
     = outcome (handle_trigger JSON_parse env value).
Proof.
  assert (Hdec : value = JNull \/ value <> JNull)
    by (destruct value; (now left) || (right; discriminate)).
  destruct Hdec as [->|Hnull]; [split; reflexivity|].
  unfold AgentWebhook.handle_trigger, handle_trigger.
  rewrite !(get_not_null value) by exact Hnull.
  cbn [lift bind IO_Monad app].
  destruct (negb (truthy (get_opt (Some value) "messageId"))
            || negb (is_string (get_opt (Some value) "messageId")));
    [split; reflexivity|].
  cbn [lift bind IO_Monad app].
  destruct (negb (truthy (get_opt (Some value) "text"))
            || negb (is_string (get_opt (Some value) "text")));
    [split; reflexivity|].
  unfold detached, sendJsonResponse, emit.
  cbn [bind IO_Monad ret fst snd app trace outcome answers].
  rewrite !app_nil_r. change (fst ?m) with (trace m).
  rewrite agent_processMessage_quiet, processMessage_quiet. split; reflexivity.
Qed.

Lemma agent_handle_body_as_before (req : IncomingMessage) :
  answers (trace (AgentWebhook.handle_body JSON_parse env runtime req))
  = answers (trace (handle_body JSON_parse env req))
  /\ outcome (AgentWebhook.handle_body JSON_parse env runtime req)
     = outcome (handle_body JSON_parse env req).
Proof.
  unfold AgentWebhook.handle_body, handle_body.
  destruct (readJsonBody JSON_parse req MAX_PAYLOAD_BYTES) as [t [[value|error]|e]];
    cbn [bind IO_Monad]; try (split; reflexivity).
  destruct (agent_handle_trigger_as_before value) as [Ha Ho].
  destruct (AgentWebhook.handle_trigger JSON_parse env runtime value) as [t1 r1].
  destruct (handle_trigger JSON_parse env value) as [t2 r2].
  cbn [trace outcome fst snd] in *. rewrite !answers_app, Ha, Ho. split; reflexivity.
Qed.

(** X21.  The handler of the later revision answers the health check
    itself, before the route and the credential are looked at: a GET whose
    path is [/health] gets 200 with status [ok] and the name of the plugin,
    whatever the configuration and the headers.  The standalone handler
    then has nothing left to answer: its own health answer is not the one
    that such a request receives. *)
Theorem agent_handler_health (req : IncomingMessage) (url : option string) :
  method req = "GET" -> pathname req = Normal "/health" ->
  AgentWebhook.handleFirebaseWebhookRequest JSON_parse env runtime req
  = ([WriteResponse 200 (JObj [("status", JStr "ok"); ("plugin", JStr "firebase")])],
     Normal true)
  /\ AgentWebhook.createStandaloneHandler JSON_parse env runtime url req
     = ([WriteResponse 200 (JObj [("status", JStr "ok"); ("plugin", JStr "firebase")])],
        Normal tt).
Proof.
  intros Hm Hp.
  assert (H : AgentWebhook.handleFirebaseWebhookRequest JSON_parse env runtime req
              = ([WriteResponse 200
                    (JObj [("status", JStr "ok"); ("plugin", JStr "firebase")])],
                 Normal true)).
  { unfold AgentWebhook.handleFirebaseWebhookRequest.
    rewrite Hm, Hp, bind_lift_normal. reflexivity. }
  split; [exact H|]. unfold AgentWebhook.createStandaloneHandler. rewrite H. reflexivity.
Qed.

(** X22.  Apart from the health check the later revision answers as the
    first: on every other request the handlers of the two revisions write
    the same answers and end alike, whatever the runtime of the agent
    is. *)
Theorem agent_handler_as_before (req : IncomingMessage) :
  ~ (method req = "GET" /\ pathname req = Normal "/health") ->
  answers (trace (AgentWebhook.handleFirebaseWebhookRequest JSON_parse env runtime req))
  = answers (trace (handleFirebaseWebhookRequest JSON_parse env req))
  /\ outcome (AgentWebhook.handleFirebaseWebhookRequest JSON_parse env runtime req)
     = outcome (handleFirebaseWebhookRequest JSON_parse env req).
Proof.
  intros Hh. unfold AgentWebhook.handleFirebaseWebhookRequest, handleFirebaseWebhookRequest.
  destruct (pathname req) as [p|e]; [|split; reflexivity].
  rewrite !bind_lift_normal.
  replace ((method req =? "GET") && (p =? "/health")) with false.
  - destruct (negb (method req =? "POST") || negb (p =? "/api/message"));
      [split; reflexivity|].
    destruct (negb (truthy (option_map JStr (VM_INTERNAL_SECRET env))));
      [split; reflexivity|].
    destruct (negb (eq_str (option_map JStr (authorization req))
                      ("Bearer " ++ env_text (VM_INTERNAL_SECRET env))));
      [split; reflexivity|].
    apply agent_handle_body_as_before.
  - symmetry. apply andb_false_iff.
    destruct (String.eqb_spec (method req) "GET") as [Hm|Hm]; [|now left].
    destruct (String.eqb_spec p "/health") as [->|Hp]; [|now right].
    destruct Hh. split; [exact Hm | reflexivity].
Qed.

End AgentHandler.

Lemma agent_handler_health_witness :
  AgentWebhook.handleFirebaseWebhookRequest JsonText.parse Examples.unconfigured None
    Examples.health
  = ([WriteResponse 200 (JObj [("status", JStr "ok"); ("plugin", JStr "firebase")])],
     Normal true)
  /\ AgentWebhook.createStandaloneHandler JsonText.parse Examples.unconfigured None
       (Some "/health") Examples.health
     = ([WriteResponse 200 (JObj [("status", JStr "ok"); ("plugin", JStr "firebase")])],
        Normal tt).
Proof.
  apply (agent_handler_health JsonText.parse Examples.unconfigured None Examples.health
           (Some "/health"));
    reflexivity.
Defined.

Lemma agent_handler_as_before_witness :
  answers (trace (AgentWebhook.handleFirebaseWebhookRequest JsonText.parse
                    (Examples.service Examples.silent Examples.saved)
                    (Some Examples.hi_agent)
                    (Examples.request Examples.bearer Examples.valid_body)))
  = answers (trace (handleFirebaseWebhookRequest JsonText.parse
                      (Examples.service Examples.silent Examples.saved)
                      (Examples.request Examples.bearer Examples.valid_body)))
  /\ outcome (AgentWebhook.handleFirebaseWebhookRequest JsonText.parse
                (Examples.service Examples.silent Examples.saved)
                (Some Examples.hi_agent)
                (Examples.request Examples.bearer Examples.valid_body))
     = outcome (handleFirebaseWebhookRequest JsonText.parse
                  (Examples.service Examples.silent Examples.saved)
                  (Examples.request Examples.bearer Examples.valid_body)).
Proof.
  apply (agent_handler_as_before JsonText.parse
           (Examples.service Examples.silent Examples.saved) (Some Examples.hi_agent)
           (Examples.request Examples.bearer Examples.valid_body)).
  intros [Hm _]. discriminate Hm.
Defined.

(** ** channel.ts: the account settings *)

Lemma lookup_app_last (k : string) (v : JSON) (fields : list (string * JSON)) :
  lookup k (fields ++ [(k, v)]) = Some v.
Proof.
  induction fields as [|[k' v'] r IH]; cbn [app lookup].
  - now rewrite String.eqb_refl.
  - now rewrite IH.
Qed.

Lemma lookup_app_other (k k' : string) (v : JSON) (fields : list (string * JSON)) :
  k <> k' -> lookup k (fields ++ [(k', v)]) = lookup k fields.
Proof.
  intros Hne. induction fields as [|[k'' v''] r IH]; cbn [app lookup].
  - apply String.eqb_neq in Hne. now rewrite Hne.
  - now rewrite IH.
Qed.

(** The names of the members of a spread array or string are decimal
    numerals. *)
Lemma string_of_Z_not_letter (z : Z) (c : ascii) (r : string) :
  (nat_of_ascii c >= 65)%nat -> string_of_Z z <> String c r.
Proof.
  intros Hc H. unfold string_of_Z in H.
  destruct (Z.to_int z) as [d|d]; cbn in H.
  - destruct d; cbn in H; injection H as <- _; cbn in Hc; lia.
  - injection H as <- _. cbn in Hc. lia.
Qed.

Lemma lookup_indexed_letter (c : ascii) (r : string) (items : list JSON) :
  (nat_of_ascii c >= 65)%nat ->
  forall i : nat, lookup (String c r) (Channel.indexed i items) = None.
Proof.
  intros Hc. induction items as [|x items IH]; intros i; cbn [Channel.indexed lookup].
  - reflexivity.
  - rewrite IH.
    destruct (String.eqb_spec (String c r) (string_of_Z (Z.of_nat i))) as [H|H];
      [|reflexivity].
    symmetry in H. now apply string_of_Z_not_letter in H.
Qed.

(** What the spread of the old [firebase] entry contributes to a setting
    whose name begins with a letter. *)
Lemma own_props_setting (v : JsValue) (c : ascii) (r : string) :
  (nat_of_ascii c >= 65)%nat ->
  lookup (String c r) (Channel.own_props v) = get_opt v (String c r).
Proof.
  intros Hc. destruct v as [[| | |s|items|fields]|]; cbn [Channel.own_props get_opt lookup];
    try reflexivity; now apply lookup_indexed_letter.
Qed.

Lemma getFirebaseConfig_set (cfg : Channel.OpenClawConfig) (b : bool) :
  Channel.getFirebaseConfig (Channel.setAccountEnabled cfg b)
  = Some (JObj (Channel.own_props
                  (get_opt (Channel.or_value (lookup "channels" cfg) (Some (JObj [])))
                     "firebase")
                ++ [("enabled", JBool b)])).
Proof.
  unfold Channel.getFirebaseConfig, Channel.setAccountEnabled.
  rewrite lookup_app_last. cbn [get_opt]. now rewrite lookup_app_last.
Qed.

(** The [firebase] entry that [setAccountEnabled] spreads is the one that
    [getFirebaseConfig] reads. *)
Lemma firebase_entry (cfg : Channel.OpenClawConfig) :
  get_opt (Channel.or_value (lookup "channels" cfg) (Some (JObj []))) "firebase"
  = Channel.getFirebaseConfig cfg.
Proof.
  unfold Channel.getFirebaseConfig, Channel.or_value.
  destruct (lookup "channels" cfg) as [[|[|]|n|s| |]|]; cbn [truthy get_opt lookup];
    try reflexivity.
  - destruct (n =? 0)%Z; reflexivity.
  - destruct (s =? ""); reflexivity.
Qed.

(** X19.  Switching the account on or off changes the resolved account in
    its [enabled] flag only, which becomes the value given: the account
    id, [configured] and the two URLs are resolved as before, for every
    configuration, also one whose [channels] or [firebase] entry is
    missing or no object. *)
Theorem setAccountEnabled_resolved (env : Env) (urls : Channel.Urls)
    (cfg : Channel.OpenClawConfig) (enabled : bool) (accountId : option string) :
  let before := Channel.resolveAccount env urls cfg accountId in
  Channel.resolveAccount env urls (Channel.setAccountEnabled cfg enabled) accountId
  = Channel.mkAccount (Channel.accountId before) enabled (Channel.configured before)
      (Channel.appServerUrl before) (Channel.llmProxyUrl before).
Proof.
  cbv zeta. unfold Channel.resolveAccount.
  rewrite getFirebaseConfig_set, firebase_entry.
  cbn [Channel.accountId Channel.configured Channel.appServerUrl Channel.llmProxyUrl
       get_opt].
  rewrite lookup_app_last, !lookup_app_other by discriminate.
  rewrite !own_props_setting by (cbn; lia).
  destruct enabled; reflexivity.
Qed.

(** X20.  [setAccountEnabled] keeps what it is not about: every other
    member of the configuration, every other channel of a [channels]
    object, and every other setting of a [firebase] object. *)
Theorem setAccountEnabled_keeps_others (cfg : Channel.OpenClawConfig) (enabled : bool)
    (k : string) :
  (k <> "channels" ->
   lookup k (Channel.setAccountEnabled cfg enabled) = lookup k cfg)
  /\ (forall channels : list (string * JSON),
        lookup "channels" cfg = Some (JObj channels) ->
        k <> "firebase" ->
        get_opt (lookup "channels" (Channel.setAccountEnabled cfg enabled)) k
        = lookup k channels)
  /\ (forall settings : list (string * JSON),
        Channel.getFirebaseConfig cfg = Some (JObj settings) ->
        k <> "enabled" ->
        get_opt (Channel.getFirebaseConfig (Channel.setAccountEnabled cfg enabled)) k
        = lookup k settings).
Proof.
  split; [|split].
  - intros Hk. unfold Channel.setAccountEnabled. now apply lookup_app_other.
  - intros channels Hc Hk. unfold Channel.setAccountEnabled.
    rewrite lookup_app_last, Hc. cbn [get_opt Channel.or_value truthy Channel.own_props].
    now apply lookup_app_other.
  - intros settings Hs Hk. rewrite getFirebaseConfig_set, firebase_entry, Hs.
    cbn [get_opt Channel.own_props]. now apply lookup_app_other.
Qed.

Lemma setAccountEnabled_keeps_others_witness :
  lookup "agents" (Channel.setAccountEnabled Examples.config false) = Some (JObj [])
  /\ get_opt (lookup "channels" (Channel.setAccountEnabled Examples.config false))
       "telegram"
     = Some (JObj [("enabled", JBool true)])
  /\ get_opt (Channel.getFirebaseConfig (Channel.setAccountEnabled Examples.config false))
       "appServerUrl"
     = Some (JStr "http://app:3000").
Proof.
  split; [|split].
  - apply (proj1 (setAccountEnabled_keeps_others Examples.config false "agents")).
    discriminate.
  - apply (proj1 (proj2 (setAccountEnabled_keeps_others Examples.config false "telegram"))
             [("telegram", JObj [("enabled", JBool true)]);
              ("firebase", JObj [("appServerUrl", JStr "http://app:3000")])]);
      [reflexivity | discriminate].
  - apply (proj2 (proj2 (setAccountEnabled_keeps_others Examples.config false
                           "appServerUrl"))
             [("appServerUrl", JStr "http://app:3000")]);
      [reflexivity | discriminate].
Defined.
